(** * Transformer diffusion (codes/models/audio/music/transformer_diffusion12.py)

    A shallow embedding of the denoising network [TransformerDiffusion], of its
    layer [ConcatAttentionBlock] and of the wrappers that feed it conditioning
    codes, followed by the properties of the model that are checked against it.

    Conventions of the embedding.
    - A tensor is its shape, its entries (a function of the index vector) and
      the names of the [nn.Parameter] tensors it was computed from while
      gradients were recorded; autograd reaches those of them that require a
      gradient ([grad_leaves]).
    - Entries live in an arbitrary scalar type [R].  The laws of zero
      ([ScalarLaws]) are assumed only where a statement says so: they hold in
      exact arithmetic and fail in floating point, where [0 * inf] is NaN;
      [Float32] is the instance with IEEE single precision.  Schedules are
      computed over the rationals [Q].
    - Python exceptions are values of [exn]; a method body runs in the monad
      [M], which also counts the tensor operations executed so far.
    - Random draws ([torch.rand], initialisers) are inputs of the functions.
    - [assert] statements are checked (the interpreter is not run with -O).
    - [torch.autocast], [.float()], devices and [checkpoint] only change
      precision, placement and memory use; they are the identity here. *)

From Stdlib Require Import ZArith QArith Qpower Qminmax Qround Lia Lqa List Bool String Ascii.
From Stdlib Require Floats.SpecFloat.
From stdpp Require Import base option list strings pretty gmap.

Local Open Scope nat_scope.

(** ** Python exceptions and the evaluation monad *)

Inductive exn : Type :=
| AssertionError (msg : string)
| AttributeError (name : string)
| TypeError
| IndexError
| ZeroDivisionError
| RuntimeError
| ValueError.

Inductive result (A : Type) : Type :=
| Ok (a : A)
| Raise (e : exn).
Arguments Ok {A} a.
Arguments Raise {A} e.

#[export] Instance result_ret : MRet result := fun A a => Ok a.
#[export] Instance result_bind : MBind result := fun A B k r =>
  match r with
  | Ok a => k a
  | Raise e => Raise e
  end.

#[export] Instance result_fmap : FMap result := fun A B f r =>
  match r with
  | Ok a => Ok (f a)
  | Raise e => Raise e
  end.

(** A computation receives the number of tensor operations executed so far
    and returns it updated, together with its value or the exception raised. *)
Definition M (A : Type) : Type := nat -> result A * nat.

#[export] Instance M_ret : MRet M := fun A a n => (Ok a, n).
#[export] Instance M_bind : MBind M := fun A B k m n =>
  match m n with
  | (Ok a, n') => k a n'
  | (Raise e, n') => (Raise e, n')
  end.

#[export] Instance M_fmap : FMap M := fun A B f m n =>
  match m n with
  | (Ok a, n') => (Ok (f a), n')
  | (Raise e, n') => (Raise e, n')
  end.

(** One tensor operation: its outcome, and one more operation on the count. *)
Definition op {A} (r : result A) : M A := fun n => (r, S n).

(** Work that touches no tensor entries (attribute reads, [x.shape]). *)
Definition pure {A} (r : result A) : M A := fun n => (r, n).

Definition raise {A} (e : exn) : M A := pure (Raise e).

(** [assert c, msg] *)
Definition py_assert (c : bool) (msg : string) : M unit :=
  if c then mret tt else raise (AssertionError msg).

(** [returns m v]: whatever the count on entry, [m] ends with the value [v]. *)
Definition returns {A} (m : M A) (v : A) : Prop :=
  forall n, exists n', m n = (Ok v, n').

(** [no_assertion_error m]: [m] never ends with an [AssertionError]. *)
Definition no_assertion_error {A} (m : M A) : Prop :=
  forall n msg, (m n).1 <> Raise (AssertionError msg).

(** [raises m e]: whatever the count on entry, [m] ends with the exception [e]. *)
Definition raises {A} (m : M A) (e : exn) : Prop :=
  forall n, exists n', m n = (Raise e, n').

(** [count_independent m]: the outcome of [m] does not depend on the count on
    entry. *)
Definition count_independent {A} (m : M A) : Prop :=
  forall n n', (m n).1 = (m n').1.

(** The outcome of [m] when it starts from a count of zero. *)
Definition run {A} (m : M A) : result A := (m 0).1.

Definition is_ok {A} (r : result A) : bool :=
  match r with
  | Ok _ => true
  | Raise _ => false
  end.

(** ** TransformerDiffusionWithQuantizer.update_for_step *)

Module TransformerDiffusionWithQuantizer.

(** The fields of [MusicQuantizer2] that the schedule reads.  The wrapper's
    constructor passes [max_gumbel_temperature=4] and
    [min_gumbel_temperature=.5]; [gumbel_temperature_decay] keeps the default
    of [MusicQuantizer2], which is defined outside this file. *)
Record MusicQuantizer2 : Type := {
  max_gumbel_temperature : Q;
  min_gumbel_temperature : Q;
  gumbel_temperature_decay : Q;
  temperature : Q   (* self.quantizer.quantizer.temperature *)
}.

Record t : Type := {
  internal_step : Z;
  freeze_quantizer_until : Z;
  quantizer : MusicQuantizer2
}.

(** [__init__], restricted to the fields above. *)
Definition init (freeze_until : Z) (decay : Q) : t :=
  {| internal_step := 0;
     freeze_quantizer_until := freeze_until;
     quantizer := {| max_gumbel_temperature := 4;
                     min_gumbel_temperature := 1 # 2;
                     gumbel_temperature_decay := decay;
                     temperature := 1 # 2 |} |}.

Definition set_temperature (q : MusicQuantizer2) (v : Q) : MusicQuantizer2 :=
  {| max_gumbel_temperature := max_gumbel_temperature q;
     min_gumbel_temperature := min_gumbel_temperature q;
     gumbel_temperature_decay := gumbel_temperature_decay q;
     temperature := v |}.

Definition update_for_step (self : t) (step : Z) : t :=
  let internal_step' := step in
  let qstep := Z.max 0 (internal_step' - freeze_quantizer_until self) in
  let q := quantizer self in
  {| internal_step := internal_step';
     freeze_quantizer_until := freeze_quantizer_until self;
     quantizer :=
       set_temperature q
         (Qmax (max_gumbel_temperature q * gumbel_temperature_decay q ^ qstep)
               (min_gumbel_temperature q)) |}.

(** The temperature in force after [update_for_step self step]. *)
Definition temperature_at (self : t) (step : Z) : Q :=
  temperature (quantizer (update_for_step self step)).

End TransformerDiffusionWithQuantizer.

(** ** Tensors *)

(** Entries of a floating-point tensor. *)
Class Scalar (R : Type) : Type := {
  szero : R;
  sadd : R -> R -> R;
  smul : R -> R -> R;
  sdiv_nat : R -> nat -> R;   (* division by a count, as in a mean *)
  sof_Z : Z -> R;             (* a Python number used as an operand *)
  sltb : R -> R -> bool
}.

(** The laws of zero that the zero-initialisation argument rests on.  They
    hold in every ring.  IEEE arithmetic does not satisfy them: [0 * inf] and
    [0 * nan] are NaN (see [Float32]). *)
Class ScalarLaws (R : Type) `{Scalar R} : Prop := {
  sadd_zero_l : forall a, sadd szero a = a;
  sadd_zero_r : forall a, sadd a szero = a;
  smul_zero_l : forall a, smul szero a = szero;
  smul_zero_r : forall a, smul a szero = szero;
  sof_Z_zero : sof_Z 0 = szero
}.

Definition index : Type := list nat.

Record tensor (R : Type) : Type := Tensor {
  shape : list nat;
  data : index -> R;
  leaves : gset string   (* parameters the value was computed from with
                            gradients recorded, frozen ones included *)
}.
Arguments Tensor {R} shape data leaves.
Arguments shape {R} t.
Arguments data {R} t idx.
Arguments leaves {R} t.

(** A tensor of dtype bool (a mask); it carries no gradient. *)
Record btensor : Type := BTensor {
  bshape : list nat;
  bdata : index -> bool
}.

(** Modelled from the spec: the layers this file imports from the rest of the
    repository (models.lucidrains.x_transformers, models.diffusion.nn) and the
    entries computed by PyTorch's normalisations and activations.  Their shape
    behaviour is fixed in [Torch] below (group normalisation, timestep-modulated
    normalisation and the encoder keep the shape; attention maps the feature
    width to its [out_dim]); the entries they compute and the parameters they
    own are left open here. *)
Class Externals (R : Type) : Type := {
  gelu : R -> R;
  silu : R -> R;
  layer_norm_data : tensor R -> tensor R -> tensor R -> index -> R;
  group_norm_data : list (tensor R) -> tensor R -> index -> R;
  attention_data : list (tensor R) -> tensor R -> tensor R -> index -> R;
  rms_scale_shift_norm_data : list (tensor R) -> tensor R -> tensor R -> index -> R;
  encoder_data : list (tensor R) -> tensor R -> index -> R;
  rotary_data : nat -> nat -> index -> R;
  timestep_embedding_data : tensor R -> nat -> index -> R;
  (* names and shapes of the parameters each constructor registers *)
  attention_params : nat -> nat -> nat -> nat -> list (string * list nat);
  rms_scale_shift_norm_params : nat -> nat -> list (string * list nat);
  encoder_params : nat -> nat -> nat -> list (string * list nat);
  group_norm_params : nat -> list (string * list nat)
}.

(** ** Single precision

    IEEE 754 binary32: 24 bits of precision, round to nearest even, with
    overflow to infinity and NaN, as [SpecFloat] specifies it. *)
Module Float32.

Definition t : Type := SpecFloat.spec_float.

Definition prec : Z := 24.
Definition emax : Z := 128.


(** [static_cast<float>(z)] *)
Definition of_Z (z : Z) : t := SpecFloat.binary_normalize prec emax z 0 false.
Definition of_nat (n : nat) : t := of_Z (Z.of_nat n).

Definition add : t -> t -> t := SpecFloat.SFadd prec emax.
Definition mul : t -> t -> t := SpecFloat.SFmul prec emax.
Definition div : t -> t -> t := SpecFloat.SFdiv prec emax.
Definition ltb : t -> t -> bool := SpecFloat.SFltb.

(** [static_cast<int64_t>(floorf(x))] of a finite [x]. *)
Definition floor (x : t) : Z :=
  match x with
  | SpecFloat.S754_finite s m e => Z.shiftl (if s then Z.neg m else Z.pos m) e
  | _ => 0%Z
  end.


End Float32.

Module Torch.
Section Primitives.
Context {R : Type} {SR : Scalar R} {EX : Externals R}.

(** [nn.Parameter(...)]: a leaf of the autograd graph, with the entries its
    initialiser drew. *)
Definition mk_param (init : string -> index -> R) (name : string) (s : list nat)
  : tensor R :=
  Tensor s (init name) {[name]}.

(** [p.data.zero_()] *)
Definition zero_ (p : tensor R) : tensor R :=
  Tensor (shape p) (fun _ => szero) (leaves p).

Fixpoint split_last {A} (l : list A) : option (list A * A) :=
  match l with
  | [] => None
  | x :: l' =>
      match split_last l' with
      | None => Some ([], x)
      | Some (p, y) => Some (x :: p, y)
      end
  end.

(** [t.shape[i]] and [t.shape[-1]] *)
Definition shape_at (t : tensor R) (i : nat) : result nat :=
  match shape t !! i with
  | Some d => Ok d
  | None => Raise IndexError
  end.

Definition shape_last (t : tensor R) : result nat :=
  match split_last (shape t) with
  | Some (_, d) => Ok d
  | None => Raise IndexError
  end.

Fixpoint sum_upto (n : nat) (f : nat -> R) : R :=
  match n with
  | 0 => szero
  | S k => sadd (sum_upto k f) (f k)
  end.

Fixpoint sum_all (s : list nat) (f : index -> R) : R :=
  match s with
  | [] => f []
  | d :: s' => sum_upto d (fun i => sum_all s' (fun idx => f (i :: idx)))
  end.

Definition numel (s : list nat) : nat := fold_right Nat.mul 1 s.

(** [t.mean()] *)
Definition mean (t : tensor R) : result (tensor R) :=
  Ok (Tensor [] (fun _ => sdiv_nat (sum_all (shape t) (data t)) (numel (shape t)))
             (leaves t)).

(** Broadcasting of two shapes, aligned on the right. *)
Definition bcast_dim (x y : nat) : option nat :=
  if decide (x = y) then Some x
  else if decide (x = 1) then Some y
  else if decide (y = 1) then Some x
  else None.

Fixpoint bcast_dims (a b : list nat) : option (list nat) :=
  match a, b with
  | [], [] => Some []
  | x :: a', y :: b' =>
      match bcast_dim x y, bcast_dims a' b' with
      | Some d, Some r => Some (d :: r)
      | _, _ => None
      end
  | _, _ => None
  end.

Definition pad_left (n : nat) (s : list nat) : list nat :=
  repeat 1 (n - length s) ++ s.

Definition broadcast_shapes (a b : list nat) : option (list nat) :=
  let n := Nat.max (length a) (length b) in
  bcast_dims (pad_left n a) (pad_left n b).

(** The index of an operand of shape [s] that entry [idx] of the broadcast
    result reads. *)
Fixpoint bidx_aligned (s : list nat) (idx : index) : index :=
  match s, idx with
  | d :: s', i :: idx' => (if decide (d = 1) then 0 else i) :: bidx_aligned s' idx'
  | _, _ => []
  end.

Definition bidx (s : list nat) (idx : index) : index :=
  bidx_aligned s (skipn (length idx - length s) idx).

(** [a + b] on tensors *)
Definition add (a b : tensor R) : result (tensor R) :=
  match broadcast_shapes (shape a) (shape b) with
  | Some s =>
      Ok (Tensor s (fun idx => sadd (data a (bidx (shape a) idx))
                                    (data b (bidx (shape b) idx)))
                 (leaves a ∪ leaves b))
  | None => Raise RuntimeError
  end.

(** [t + k] and [t * k] for a Python number [k] *)
Definition add_number (t : tensor R) (k : Z) : result (tensor R) :=
  Ok (Tensor (shape t) (fun idx => sadd (data t idx) (sof_Z k)) (leaves t)).

Definition mul_number (t : tensor R) (k : Z) : result (tensor R) :=
  Ok (Tensor (shape t) (fun idx => smul (data t idx) (sof_Z k)) (leaves t)).

(** [t.permute(0,2,1)] *)
Definition permute021 (t : tensor R) : result (tensor R) :=
  match shape t with
  | [a; b; c] =>
      Ok (Tensor [a; c; b]
                 (fun idx => match idx with
                             | [i; j; k] => data t [i; k; j]
                             | _ => szero
                             end)
                 (leaves t))
  | _ => Raise RuntimeError
  end.

(** [torch.cat([a, b], dim=-1)] *)
Definition cat2_last (a b : tensor R) : result (tensor R) :=
  match split_last (shape a), split_last (shape b) with
  | Some (pa, da), Some (pb, db) =>
      if decide (pa = pb) then
        Ok (Tensor (pa ++ [da + db])
                   (fun idx => match split_last idx with
                               | Some (p, f) =>
                                   if decide (f < da) then data a idx
                                   else data b (p ++ [f - da])
                               | None => szero
                               end)
                   (leaves a ∪ leaves b))
      else Raise RuntimeError
  | _, _ => Raise RuntimeError
  end.

(** [torch.cat(ts, dim=-1)]; an empty list is a ValueError. *)
Fixpoint cat_last_from (acc : tensor R) (ts : list (tensor R)) : result (tensor R) :=
  match ts with
  | [] => Ok acc
  | t :: ts' => acc' ← cat2_last acc t; cat_last_from acc' ts'
  end.

Definition cat_last (ts : list (tensor R)) : result (tensor R) :=
  match ts with
  | [] => Raise ValueError
  | t :: ts' =>
      match shape t with
      | [] => Raise RuntimeError
      | _ => cat_last_from t ts'
      end
  end.

(** [t[:, :, k:]] *)
Definition slice_last_from (t : tensor R) (k : nat) : result (tensor R) :=
  match shape t with
  | [a; b; c] =>
      Ok (Tensor [a; b; c - k]
                 (fun idx => match idx with
                             | [i; j; f] => data t [i; j; f + Nat.min k c]
                             | _ => szero
                             end)
                 (leaves t))
  | _ => Raise IndexError
  end.

(** [t[:, lo:hi]] for non-negative bounds *)
Definition slice_dim1 (t : tensor R) (lo hi : nat) : result (tensor R) :=
  match shape t with
  | a :: c :: rest =>
      let start := Nat.min lo c in
      let stop := Nat.min hi c in
      Ok (Tensor (a :: (stop - start) :: rest)
                 (fun idx => match idx with
                             | i :: j :: r =>
                                 if decide (j < stop - start)
                                 then data t (i :: (j + start) :: r)
                                 else szero
                             | _ => szero
                             end)
                 (leaves t))
  | _ => Raise IndexError
  end.

(** [t.repeat(r0, r1, ...)] *)
Definition repeat_ (t : tensor R) (sizes : list nat) : result (tensor R) :=
  if decide (length (shape t) <= length sizes) then
    let s' := pad_left (length sizes) (shape t) in
    Ok (Tensor (zip_with Nat.mul s' sizes)
               (fun idx =>
                  data t (skipn (length sizes - length (shape t))
                                (zip_with (fun i d => i mod d) idx s')))
               (leaves t))
  else Raise RuntimeError.

(** [torch.rand(s)], given the entries that were drawn. *)
Definition rand (draw : index -> R) (s : list nat) : result (tensor R) :=
  Ok (Tensor s draw ∅).

(** [t < p] for a Python number [p] *)
Definition lt_number (t : tensor R) (p : R) : result btensor :=
  Ok (BTensor (shape t) (fun idx => sltb (data t idx) p)).

(** [torch.where(c, a, b)] *)
Definition where_ (c : btensor) (a b : tensor R) : result (tensor R) :=
  match broadcast_shapes (shape a) (shape b) with
  | Some s1 =>
      match broadcast_shapes (bshape c) s1 with
      | Some s =>
          Ok (Tensor s
                     (fun idx => if bdata c (bidx (bshape c) idx)
                                 then data a (bidx (shape a) idx)
                                 else data b (bidx (shape b) idx))
                     (leaves a ∪ leaves b))
      | None => Raise RuntimeError
      end
  | None => Raise RuntimeError
  end.

(** The input position that output position [j] reads when an axis of length
    [len] is resampled to length [size] with [mode='nearest'] ([nearest_idx]
    of ATen's UpSample.h).  Equal sizes copy and a doubled size halves the
    position; otherwise the position is [min(floor(j * scale), len - 1)], and
    both [scale = float(len) / size] and the product are single-precision
    values.  The rounded scale can fall below [len / size], and then a position
    reads the frame before [floor (j * len / size)]: from length 2 to length
    82, position 41 reads frame 0. *)
Definition nearest_idx (len size j : nat) : nat :=
  if decide (size = len) then j
  else if decide (size = 2 * len) then j / 2
  else
    let scale := Float32.div (Float32.of_nat len) (Float32.of_nat size) in
    Nat.min (Z.to_nat (Float32.floor (Float32.mul (Float32.of_nat j) scale)))
            (len - 1).

(** [F.interpolate(t, size=size, mode='nearest')] on a (batch, channel,
    length) tensor: output position [j] reads input position
    [nearest_idx length size j]. *)
Definition interpolate_nearest (t : tensor R) (size : nat) : result (tensor R) :=
  match shape t with
  | [a; c; len] =>
      if decide (0 < len /\ 0 < size) then
        Ok (Tensor [a; c; size]
                   (fun idx => match idx with
                               | [i; k; j] => data t [i; k; nearest_idx len size j]
                               | _ => szero
                               end)
                   (leaves t))
      else Raise RuntimeError
  | _ => Raise RuntimeError
  end.

(** An activation applied entry by entry ([F.gelu], [nn.SiLU]). *)
Definition pointwise (f : R -> R) (t : tensor R) : result (tensor R) :=
  Ok (Tensor (shape t) (fun idx => f (data t idx)) (leaves t)).

(** Modelled from the spec: [timestep_embedding(timesteps, dim)] of
    models.diffusion.nn, the fixed sinusoidal embedding of one integer
    timestep per batch element into a vector of width [dim]. *)
Definition timestep_embedding (timesteps : tensor R) (dim : nat) : result (tensor R) :=
  match shape timesteps with
  | [b] => Ok (Tensor [b; dim] (timestep_embedding_data timesteps dim) (leaves timesteps))
  | _ => Raise RuntimeError
  end.

(** The parameters registered by a constructor under the attribute path
    [prefix]. *)
Definition register (init : string -> index -> R) (prefix : string)
    (specs : list (string * list nat)) : list (tensor R) :=
  map (fun ns => mk_param init (prefix +:+ "." +:+ ns.1) ns.2) specs.

Definition leaves_of (ps : list (tensor R)) : gset string :=
  ⋃ (leaves <$> ps).

(** The names under which the parameters [ps] are registered, in order. *)
Definition names (ps : list (tensor R)) : list string :=
  ps ≫= (fun p => elements (leaves p)).

(** An optional parameter (a bias) has the expected shape when present. *)
Definition has_shape_opt (p : option (tensor R)) (s : list nat) : bool :=
  match p with
  | Some t => bool_decide (shape t = s)
  | None => true
  end.

End Primitives.
End Torch.

(** ** Layers of torch.nn *)

Module Linear.
Section Defs.
Context {R : Type} {SR : Scalar R}.

Record t : Type := {
  weight : tensor R;          (* (out_features, in_features) *)
  bias : option (tensor R)    (* (out_features) *)
}.

(** [nn.Linear(in_features, out_features, bias=with_bias)] *)
Definition init (rnd : string -> index -> R) (name : string)
    (in_features out_features : nat) (with_bias : bool) : t :=
  {| weight := Torch.mk_param rnd (name +:+ ".weight") [out_features; in_features];
     bias := if with_bias
             then Some (Torch.mk_param rnd (name +:+ ".bias") [out_features])
             else None |}.

Definition parameters (self : t) : list (tensor R) :=
  weight self :: from_option (fun b => [b]) [] (bias self).

(** [self.weight.data.zero_()] *)
Definition zero_weight (self : t) : t :=
  {| weight := Torch.zero_ (weight self); bias := bias self |}.

(** [F.linear(x, weight, bias)]: [y[.., j] = sum_k x[.., k] * W[j, k] + b[j]] *)
Definition forward (self : t) (x : tensor R) : result (tensor R) :=
  match shape (weight self), Torch.split_last (shape x) with
  | [o; i], Some (pre, d) =>
      if bool_decide (d = i) && Torch.has_shape_opt (bias self) [o] then
        Ok (Tensor (pre ++ [o])
              (fun idx =>
                 match Torch.split_last idx with
                 | Some (p, j) =>
                     let acc := Torch.sum_upto i
                                  (fun k => smul (data x (p ++ [k]))
                                                 (data (weight self) [j; k])) in
                     match bias self with
                     | Some b => sadd acc (data b [j])
                     | None => acc
                     end
                 | None => szero
                 end)
              (leaves x ∪ Torch.leaves_of (parameters self)))
      else Raise RuntimeError
  | _, _ => Raise RuntimeError
  end.

End Defs.
Arguments t R : clear implicits.
End Linear.

Module Conv1d.
Section Defs.
Context {R : Type} {SR : Scalar R}.

Record t : Type := {
  weight : tensor R;          (* (out_channels, in_channels, kernel_size) *)
  bias : option (tensor R);   (* (out_channels) *)
  padding : nat               (* stride and dilation are 1 *)
}.

(** [nn.Conv1d(in_channels, out_channels, kernel_size, padding=padding)] *)
Definition init (rnd : string -> index -> R) (name : string)
    (in_channels out_channels kernel_size pad : nat) : t :=
  {| weight := Torch.mk_param rnd (name +:+ ".weight")
                              [out_channels; in_channels; kernel_size];
     bias := Some (Torch.mk_param rnd (name +:+ ".bias") [out_channels]);
     padding := pad |}.

Definition parameters (self : t) : list (tensor R) :=
  weight self :: from_option (fun b => [b]) [] (bias self).

(** Entry [j] of row [(b, c)] of the input after zero padding. *)
Definition padded (self : t) (x : tensor R) (len b c j : nat) : R :=
  if decide (padding self <= j < padding self + len)
  then data x [b; c; j - padding self]
  else szero.

(** [F.conv1d(x, weight, bias, padding=padding)] on a batched input:
    [y[b, o, j] = sum_c sum_k W[o, c, k] * xpad[b, c, j + k] + bias[o]] *)
Definition forward (self : t) (x : tensor R) : result (tensor R) :=
  match shape (weight self), shape x with
  | [o; i; k], [b; c; len] =>
      if bool_decide (c = i /\ 0 < k <= len + 2 * padding self)
         && Torch.has_shape_opt (bias self) [o] then
        Ok (Tensor [b; o; len + 2 * padding self + 1 - k]
              (fun idx =>
                 match idx with
                 | [n; oc; j] =>
                     let acc :=
                       Torch.sum_upto i (fun ic =>
                         Torch.sum_upto k (fun kk =>
                           smul (data (weight self) [oc; ic; kk])
                                (padded self x len n ic (j + kk)))) in
                     match bias self with
                     | Some bi => sadd acc (data bi [oc])
                     | None => acc
                     end
                 | _ => szero
                 end)
              (leaves x ∪ Torch.leaves_of (parameters self)))
      else Raise RuntimeError
  | _, _ => Raise RuntimeError
  end.

End Defs.
Arguments t R : clear implicits.
End Conv1d.

Module LayerNorm.
Section Defs.
Context {R : Type} {SR : Scalar R} {EX : Externals R}.

Record t : Type := {
  weight : tensor R;   (* (normalized_shape) *)
  bias : tensor R
}.

(** [nn.LayerNorm(d)] *)
Definition init (rnd : string -> index -> R) (name : string) (d : nat) : t :=
  {| weight := Torch.mk_param rnd (name +:+ ".weight") [d];
     bias := Torch.mk_param rnd (name +:+ ".bias") [d] |}.

Definition parameters (self : t) : list (tensor R) := [weight self; bias self].

(** Normalisation over the last axis; the shape is kept. *)
Definition forward (self : t) (x : tensor R) : result (tensor R) :=
  match shape (weight self), Torch.split_last (shape x) with
  | [d], Some (_, d') =>
      if decide (d' = d /\ shape (bias self) = [d]) then
        Ok (Tensor (shape x) (layer_norm_data (weight self) (bias self) x)
                   (leaves x ∪ Torch.leaves_of (parameters self)))
      else Raise RuntimeError
  | _, _ => Raise RuntimeError
  end.

End Defs.
Arguments t R : clear implicits.
End LayerNorm.

(** ** Layers defined elsewhere in the repository *)

(** [a // b] on non-negative Python integers *)
Definition py_floordiv (a b : nat) : result nat :=
  if decide (b = 0) then Raise ZeroDivisionError else Ok (a / b).

(** Modelled from the spec: [utils.util.checkpoint], gradient checkpointing;
    it calls the function on the arguments and "affects memory/time but not
    numerical results". *)
Definition checkpoint {A} (call : M A) : M A := call.

Module Attention.
Section Defs.
Context {R : Type} {SR : Scalar R} {EX : Externals R}.

Record t : Type := {
  dim : nat;
  out_dim : nat;
  heads : nat;
  dim_head : nat;
  params : list (tensor R)
}.

Definition init (rnd : string -> index -> R) (name : string)
    (dim out_dim heads dim_head : nat) : t :=
  {| dim := dim; out_dim := out_dim; heads := heads; dim_head := dim_head;
     params := Torch.register rnd name (attention_params dim out_dim heads dim_head) |}.

Definition parameters (self : t) : list (tensor R) := params self.

(** Modelled from the spec: [Attention] of models.lucidrains.x_transformers,
    non-causal self-attention over a (batch, sequence, dim) tensor with rotary
    positions; its first result has shape (batch, sequence, out_dim). *)
Definition forward (self : t) (x rotary_emb : tensor R) : result (tensor R) :=
  match shape x with
  | [b; n; d] =>
      if decide (d = dim self) then
        Ok (Tensor [b; n; out_dim self] (attention_data (params self) x rotary_emb)
                   (leaves x ∪ Torch.leaves_of (params self)))
      else Raise RuntimeError
  | _ => Raise RuntimeError
  end.

End Defs.
Arguments t R : clear implicits.
End Attention.

Module RMSScaleShiftNorm.
Section Defs.
Context {R : Type} {SR : Scalar R} {EX : Externals R}.

Record t : Type := {
  dim : nat;
  embed_dim : nat;
  params : list (tensor R)
}.

Definition init (rnd : string -> index -> R) (name : string) (dim embed_dim : nat) : t :=
  {| dim := dim; embed_dim := embed_dim;
     params := Torch.register rnd name (rms_scale_shift_norm_params dim embed_dim) |}.

Definition parameters (self : t) : list (tensor R) := params self.

(** Modelled from the spec: [RMSScaleShiftNorm] of
    models.lucidrains.x_transformers, "a timestep-modulated normalization
    (scale/shift derived from the timestep vector)"; the shape of [x] is kept. *)
Definition forward (self : t) (x norm_scale_shift_inp : tensor R) : result (tensor R) :=
  match shape x, shape norm_scale_shift_inp with
  | [b; n; d], [b'; e] =>
      if decide (d = dim self /\ e = embed_dim self /\ b' = b) then
        Ok (Tensor [b; n; d]
                   (rms_scale_shift_norm_data (params self) x norm_scale_shift_inp)
                   (leaves x ∪ leaves norm_scale_shift_inp
                    ∪ Torch.leaves_of (params self)))
      else Raise RuntimeError
  | _, _ => Raise RuntimeError
  end.

End Defs.
Arguments t R : clear implicits.
End RMSScaleShiftNorm.

Module Encoder.
Section Defs.
Context {R : Type} {SR : Scalar R} {EX : Externals R}.

Record t : Type := {
  dim : nat;
  depth : nat;
  heads : nat;
  params : list (tensor R)
}.

Definition init (rnd : string -> index -> R) (name : string) (dim depth heads : nat) : t :=
  {| dim := dim; depth := depth; heads := heads;
     params := Torch.register rnd name (encoder_params dim depth heads) |}.

Definition parameters (self : t) : list (tensor R) := params self.

(** Modelled from the spec: [Encoder] of models.lucidrains.x_transformers, "a
    multi-layer self-attention encoder" over a (batch, sequence, dim) tensor;
    the shape is kept. *)
Definition forward (self : t) (x : tensor R) : result (tensor R) :=
  match shape x with
  | [b; n; d] =>
      if decide (d = dim self) then
        Ok (Tensor [b; n; d] (encoder_data (params self) x)
                   (leaves x ∪ Torch.leaves_of (params self)))
      else Raise RuntimeError
  | _ => Raise RuntimeError
  end.

End Defs.
Arguments t R : clear implicits.
End Encoder.

Module RotaryEmbedding.
Section Defs.
Context {R : Type} {SR : Scalar R} {EX : Externals R}.

Record t : Type := { dim : nat }.

Definition init (dim : nat) : t := {| dim := dim |}.

(** It registers a buffer and no parameter. *)
Definition parameters (self : t) : list (tensor R) := [].

(** Modelled from the spec: [RotaryEmbedding] of
    models.lucidrains.x_transformers, which "generates position-dependent
    rotation tensors consumed by attention", one row per position. *)
Definition forward (self : t) (max_seq_len : nat) : result (tensor R) :=
  Ok (Tensor [max_seq_len; dim self] (rotary_data (dim self) max_seq_len) ∅).

End Defs.
End RotaryEmbedding.

Module GroupNorm.
Section Defs.
Context {R : Type} {SR : Scalar R} {EX : Externals R}.

Record t : Type := {
  channels : nat;
  params : list (tensor R)
}.

(** Modelled from the spec: [normalization(channels)] of models.diffusion.nn,
    the group normalisation of the output head. *)
Definition normalization (rnd : string -> index -> R) (name : string) (channels : nat) : t :=
  {| channels := channels;
     params := Torch.register rnd name (group_norm_params channels) |}.

Definition parameters (self : t) : list (tensor R) := params self.

(** Normalisation of a (batch, channels, length) tensor; the shape is kept. *)
Definition forward (self : t) (x : tensor R) : result (tensor R) :=
  match shape x with
  | [b; c; n] =>
      if decide (c = channels self) then
        Ok (Tensor [b; c; n] (group_norm_data (params self) x)
                   (leaves x ∪ Torch.leaves_of (params self)))
      else Raise RuntimeError
  | _ => Raise RuntimeError
  end.

End Defs.
Arguments t R : clear implicits.
End GroupNorm.

(** ** SubBlock *)

Module SubBlock.
Section Defs.
Context {R : Type} {SR : Scalar R} {EX : Externals R}.

Record t : Type := {
  attn : Attention.t R;
  attnorm : LayerNorm.t R;
  ff : Conv1d.t R;
  ffnorm : LayerNorm.t R
}.

Definition __init__ (rnd : string -> index -> R) (name : string)
    (inp_dim contraction_dim heads : nat) : result t :=
  dim_head ← py_floordiv contraction_dim heads;
  mret {| attn := Attention.init rnd (name +:+ ".attn") inp_dim contraction_dim
                                 heads dim_head;
          attnorm := LayerNorm.init rnd (name +:+ ".attnorm") contraction_dim;
          ff := Conv1d.init rnd (name +:+ ".ff") (inp_dim + contraction_dim)
                            contraction_dim 3 1;
          ffnorm := LayerNorm.init rnd (name +:+ ".ffnorm") contraction_dim |}.

Definition parameters (self : t) : list (tensor R) :=
  Attention.parameters (attn self) ++ LayerNorm.parameters (attnorm self)
  ++ Conv1d.parameters (ff self) ++ LayerNorm.parameters (ffnorm self).

Definition forward (self : t) (x rotary_emb : tensor R) : M (tensor R) :=
  ah ← checkpoint (op (Attention.forward (attn self) x rotary_emb));
  ah ← op (LayerNorm.forward (attnorm self) ah);
  ah ← op (Torch.pointwise gelu ah);
  h ← op (Torch.cat_last [ah; x]);
  hp ← op (Torch.permute021 h);
  hf ← checkpoint (op (Conv1d.forward (ff self) hp));
  hf ← op (Torch.permute021 hf);
  hf ← op (LayerNorm.forward (ffnorm self) hf);
  hf ← op (Torch.pointwise gelu hf);
  h ← op (Torch.cat_last [h; hf]);
  mret h.

End Defs.
Arguments t R : clear implicits.
End SubBlock.

(** ** ConcatAttentionBlock *)

Module ConcatAttentionBlock.
Section Defs.
Context {R : Type} {SR : Scalar R} {EX : Externals R}.

Record t : Type := {
  prenorm : RMSScaleShiftNorm.t R;
  block1 : SubBlock.t R;
  block2 : SubBlock.t R;
  out : Linear.t R
}.

Definition __init__ (rnd : string -> index -> R) (name : string)
    (trunk_dim contraction_dim time_embed_dim heads : nat) : result t :=
  let prenorm := RMSScaleShiftNorm.init rnd (name +:+ ".prenorm") trunk_dim time_embed_dim in
  block1 ← SubBlock.__init__ rnd (name +:+ ".block1") trunk_dim contraction_dim heads;
  block2 ← SubBlock.__init__ rnd (name +:+ ".block2")
                             (trunk_dim + contraction_dim * 2) contraction_dim heads;
  let out := Linear.init rnd (name +:+ ".out") (contraction_dim * 4) trunk_dim false in
  let out := Linear.zero_weight out in
  mret {| prenorm := prenorm; block1 := block1; block2 := block2; out := out |}.

Definition parameters (self : t) : list (tensor R) :=
  RMSScaleShiftNorm.parameters (prenorm self) ++ SubBlock.parameters (block1 self)
  ++ SubBlock.parameters (block2 self) ++ Linear.parameters (out self).

Definition forward (self : t) (x timestep_emb rotary_emb : tensor R) : M (tensor R) :=
  h ← op (RMSScaleShiftNorm.forward (prenorm self) x timestep_emb);
  h ← SubBlock.forward (block1 self) h rotary_emb;
  h ← SubBlock.forward (block2 self) h rotary_emb;
  d ← pure (Torch.shape_last x);
  h ← op (Torch.slice_last_from h d);
  h ← op (Linear.forward (out self) h);
  op (Torch.add h x).

End Defs.
Arguments t R : clear implicits.
End ConcatAttentionBlock.

(** ** Attributes set on parameters ([requires_grad], [DO_NOT_TRAIN]) *)

Module ParamAttrs.

Record t : Type := {
  requires_grad : bool;
  DO_NOT_TRAIN : option bool   (* [None]: the attribute is not set *)
}.

(** A parameter as [nn.Parameter] creates it. *)
Definition fresh : t := {| requires_grad := true; DO_NOT_TRAIN := None |}.

(** The attributes of every parameter of a model, by parameter name. *)
Abbreviation store := (gmap string t).

Definition get (st : store) (p : string) : t := default fresh (st !! p).

(** [p.DO_NOT_TRAIN = v] *)
Definition set_DO_NOT_TRAIN (p : string) (v : bool) (st : store) : store :=
  <[p := {| requires_grad := requires_grad (get st p); DO_NOT_TRAIN := Some v |}]> st.

(** [p.requires_grad = v] *)
Definition set_requires_grad (p : string) (v : bool) (st : store) : store :=
  <[p := {| requires_grad := v; DO_NOT_TRAIN := DO_NOT_TRAIN (get st p) |}]> st.

(** [del p.DO_NOT_TRAIN] *)
Definition del_DO_NOT_TRAIN (p : string) (st : store) : result store :=
  match DO_NOT_TRAIN (get st p) with
  | Some _ =>
      Ok (<[p := {| requires_grad := requires_grad (get st p); DO_NOT_TRAIN := None |}]> st)
  | None => Raise (AttributeError "DO_NOT_TRAIN")
  end.

Definition of_names (names : list string) : store :=
  list_to_map ((fun n => (n, fresh)) <$> names).

(** The two states the constructor can leave a parameter in. *)
Definition frozen : t := {| requires_grad := false; DO_NOT_TRAIN := Some true |}.
Definition trainable : t := {| requires_grad := true; DO_NOT_TRAIN := None |}.

End ParamAttrs.


(** [self.<name>] for an attribute that the constructor sets on one branch
    only. *)
Definition getattr {A} (name : string) (field : option A) : result A :=
  match field with
  | Some a => Ok a
  | None => Raise (AttributeError name)
  end.

(** A Python number or a tensor (the running sum [extraneous_addition]). *)
Inductive pyvalue (R : Type) : Type :=
| PyInt (k : Z)
| PyTensor (t : tensor R).
Arguments PyInt {R} k.
Arguments PyTensor {R} t.

(** ** TransformerDiffusion *)

Module TransformerDiffusion.
Section Defs.
Context {R : Type} {SR : Scalar R} {EX : Externals R}.

(** The keyword arguments of the constructor. *)
Record kwargs : Type := {
  kw_prenet_channels : nat;
  kw_prenet_layers : nat;
  kw_time_embed_dim : nat;
  kw_model_channels : nat;
  kw_contraction_dim : nat;
  kw_num_layers : nat;
  kw_in_channels : nat;
  kw_rotary_emb_dim : nat;
  kw_input_vec_dim : nat;
  kw_out_channels : nat;
  kw_num_heads : nat;
  kw_dropout : R;
  kw_use_fp16 : bool;
  kw_ar_prior : bool;
  kw_unconditioned_percentage : R;
  kw_freeze_except_code_converters : bool
}.

Record t : Type := {
  in_channels : nat;
  model_channels : nat;
  prenet_channels : nat;
  time_embed_dim : nat;
  out_channels : nat;
  dropout : R;
  unconditioned_percentage : R;
  enable_fp16 : bool;
  inp_block : Conv1d.t R;
  time_embed : Linear.t R * Linear.t R;     (* linear, SiLU, linear *)
  ar_prior : bool;
  ar_input : option (Linear.t R);           (* set when [ar_prior] *)
  ar_prior_intg : option (Encoder.t R);
  input_converter : option (Linear.t R);    (* set when [not ar_prior] *)
  code_converter : option (Encoder.t R);
  unconditioned_embedding : tensor R;
  rotary_embeddings : @RotaryEmbedding.t;
  intg : Linear.t R;
  layers : list (ConcatAttentionBlock.t R);
  out : GroupNorm.t R * Conv1d.t R;         (* normalization, SiLU, conv *)
  training : bool;                          (* nn.Module.training *)
  attrs : ParamAttrs.store
}.

Definition set_attrs (self : t) (st : ParamAttrs.store) : t :=
  {| in_channels := in_channels self;
     model_channels := model_channels self;
     prenet_channels := prenet_channels self;
     time_embed_dim := time_embed_dim self;
     out_channels := out_channels self;
     dropout := dropout self;
     unconditioned_percentage := unconditioned_percentage self;
     enable_fp16 := enable_fp16 self;
     inp_block := inp_block self;
     time_embed := time_embed self;
     ar_prior := ar_prior self;
     ar_input := ar_input self;
     ar_prior_intg := ar_prior_intg self;
     input_converter := input_converter self;
     code_converter := code_converter self;
     unconditioned_embedding := unconditioned_embedding self;
     rotary_embeddings := rotary_embeddings self;
     intg := intg self;
     layers := layers self;
     out := out self;
     training := training self;
     attrs := st |}.

(** A module object held in a Python variable. *)
Inductive submodule : Type :=
| SubLinear (m : Linear.t R)
| SubEncoder (m : Encoder.t R).

(** Truth value of a module: [nn.Linear] and [Encoder] define neither
    [__bool__] nor [__len__], so the object is true. *)
Definition truthy (m : submodule) : bool := true.

Definition submodule_parameters (m : submodule) : list (tensor R) :=
  match m with
  | SubLinear l => Linear.parameters l
  | SubEncoder e => Encoder.parameters e
  end.

(** [a and b]: [b] is evaluated, and is the value, only when [a] is true. *)
Definition py_and (a : submodule) (b : result submodule) : result submodule :=
  if truthy a then b else Ok a.

(** Modelled from the spec: [zero_module] of models.diffusion.nn, which makes
    the final convolution "zero-initialized": every parameter of the module,
    weight and bias, is set to zero. *)
Definition zero_module (c : Conv1d.t R) : Conv1d.t R :=
  {| Conv1d.weight := Torch.zero_ (Conv1d.weight c);
     Conv1d.bias := Torch.zero_ <$> Conv1d.bias c;
     Conv1d.padding := Conv1d.padding c |}.

Definition opt_parameters {A} (f : A -> list (tensor R)) (m : option A)
  : list (tensor R) :=
  from_option f [] m.

(** [self.parameters()]: the module's own parameter first, then those of the
    submodules in the order the constructor assigns them. *)
Definition parameters (self : t) : list (tensor R) :=
  [unconditioned_embedding self]
  ++ Conv1d.parameters (inp_block self)
  ++ Linear.parameters (time_embed self).1 ++ Linear.parameters (time_embed self).2
  ++ opt_parameters Linear.parameters (ar_input self)
  ++ opt_parameters Encoder.parameters (ar_prior_intg self)
  ++ opt_parameters Linear.parameters (input_converter self)
  ++ opt_parameters Encoder.parameters (code_converter self)
  ++ RotaryEmbedding.parameters (rotary_embeddings self)
  ++ Linear.parameters (intg self)
  ++ concat (map ConcatAttentionBlock.parameters (layers self))
  ++ GroupNorm.parameters (out self).1 ++ Conv1d.parameters (out self).2.

(** [for p in ps: p.DO_NOT_TRAIN = True; p.requires_grad = False] *)
Definition freeze (ps : list string) (st : ParamAttrs.store) : ParamAttrs.store :=
  foldl (fun st p =>
           ParamAttrs.set_requires_grad p false (ParamAttrs.set_DO_NOT_TRAIN p true st))
        st ps.

(** [for p in ps: del p.DO_NOT_TRAIN; p.requires_grad = True] *)
Fixpoint unfreeze (ps : list string) (st : ParamAttrs.store) : result ParamAttrs.store :=
  match ps with
  | [] => Ok st
  | p :: ps' =>
      st ← ParamAttrs.del_DO_NOT_TRAIN p st;
      unfreeze ps' (ParamAttrs.set_requires_grad p true st)
  end.

(** [for m in ms: for p in m.parameters(): ...] *)
Fixpoint unfreeze_modules (ms : list submodule) (st : ParamAttrs.store)
  : result ParamAttrs.store :=
  match ms with
  | [] => Ok st
  | m :: ms' =>
      st ← unfreeze (Torch.names (submodule_parameters m)) st;
      unfreeze_modules ms' st
  end.

Fixpoint make_layers (rnd : string -> index -> R) (kw : kwargs) (i n : nat)
  : result (list (ConcatAttentionBlock.t R)) :=
  match n with
  | 0 => Ok []
  | S n' =>
      l ← ConcatAttentionBlock.__init__ rnd ("layers." +:+ pretty i)
             (kw_model_channels kw) (kw_contraction_dim kw) (kw_time_embed_dim kw)
             (kw_num_heads kw);
      ls ← make_layers rnd kw (S i) n';
      mret (l :: ls)
  end.

(** The attributes that the constructor assigns, in its order, before it
    looks at [freeze_except_code_converters]; [prenet_heads] and [layers] are
    the two values whose computation can fail. *)
Definition assign (rnd : string -> index -> R) (kw : kwargs) (prenet_heads : nat)
    (layers : list (ConcatAttentionBlock.t R)) : t :=
  {| in_channels := kw_in_channels kw;
     model_channels := kw_model_channels kw;
     prenet_channels := kw_prenet_channels kw;
     time_embed_dim := kw_time_embed_dim kw;
     out_channels := kw_out_channels kw;
     dropout := kw_dropout kw;
     unconditioned_percentage := kw_unconditioned_percentage kw;
     enable_fp16 := kw_use_fp16 kw;
     inp_block := Conv1d.init rnd "inp_block" (kw_in_channels kw) (kw_prenet_channels kw) 3 1;
     time_embed :=
       (Linear.init rnd "time_embed.0" (kw_time_embed_dim kw) (kw_time_embed_dim kw) true,
        Linear.init rnd "time_embed.2" (kw_time_embed_dim kw) (kw_time_embed_dim kw) true);
     ar_prior := kw_ar_prior kw;
     ar_input :=
       if kw_ar_prior kw
       then Some (Linear.init rnd "ar_input" (kw_input_vec_dim kw) (kw_prenet_channels kw) true)
       else None;
     ar_prior_intg :=
       if kw_ar_prior kw
       then Some (Encoder.init rnd "ar_prior_intg" (kw_prenet_channels kw)
                               (kw_prenet_layers kw) prenet_heads)
       else None;
     input_converter :=
       if kw_ar_prior kw then None
       else Some (Linear.init rnd "input_converter" (kw_input_vec_dim kw)
                              (kw_prenet_channels kw) true);
     code_converter :=
       if kw_ar_prior kw then None
       else Some (Encoder.init rnd "code_converter" (kw_prenet_channels kw)
                               (kw_prenet_layers kw) prenet_heads);
     unconditioned_embedding :=
       Torch.mk_param rnd "unconditioned_embedding" [1; 1; kw_prenet_channels kw];
     rotary_embeddings := RotaryEmbedding.init (kw_rotary_emb_dim kw);
     intg := Linear.init rnd "intg" (kw_prenet_channels kw * 2) (kw_model_channels kw) true;
     layers := layers;
     out :=
       (GroupNorm.normalization rnd "out.0" (kw_model_channels kw),
        zero_module (Conv1d.init rnd "out.2" (kw_model_channels kw) (kw_out_channels kw) 3 1));
     training := true;
     attrs := ∅ |}.

Definition __init__ (rnd : string -> index -> R) (kw : kwargs) : result t :=
  prenet_heads ← py_floordiv (kw_prenet_channels kw) 64;
  layers ← make_layers rnd kw 0 (kw_num_layers kw);
  let self := assign rnd kw prenet_heads layers in
  let st := ParamAttrs.of_names (Torch.names (parameters self)) in
  st ← (if kw_freeze_except_code_converters kw then
          let st := freeze (Torch.names (parameters self)) st in
          a ← getattr "input_converter" (input_converter self);
          m ← py_and (SubLinear a)
                     (SubEncoder <$> getattr "code_converter" (code_converter self));
          unfreeze_modules [m] st
        else Ok st);
  mret (set_attrs self st).

(** [self.train(mode)] and [self.eval()] *)
Definition train (self : t) (mode : bool) : t :=
  {| in_channels := in_channels self;
     model_channels := model_channels self;
     prenet_channels := prenet_channels self;
     time_embed_dim := time_embed_dim self;
     out_channels := out_channels self;
     dropout := dropout self;
     unconditioned_percentage := unconditioned_percentage self;
     enable_fp16 := enable_fp16 self;
     inp_block := inp_block self;
     time_embed := time_embed self;
     ar_prior := ar_prior self;
     ar_input := ar_input self;
     ar_prior_intg := ar_prior_intg self;
     input_converter := input_converter self;
     code_converter := code_converter self;
     unconditioned_embedding := unconditioned_embedding self;
     rotary_embeddings := rotary_embeddings self;
     intg := intg self;
     layers := layers self;
     out := out self;
     training := mode;
     attrs := attrs self |}.

Definition eval (self : t) : t := train self false.

(** Calling a linear layer on an argument that may be [None]. *)
Definition call_linear (l : Linear.t R) (x : option (tensor R)) : result (tensor R) :=
  match x with
  | Some x => Linear.forward l x
  | None => Raise TypeError
  end.

(** [prior.shape[0]] *)
Definition shape0_opt (x : option (tensor R)) : result nat :=
  match x with
  | Some x => Torch.shape_at x 0
  | None => Raise (AttributeError "shape")
  end.

(** The two submodules that [timestep_independent] applies to the prior. *)
Definition converters (self : t) : result (Linear.t R * Encoder.t R) :=
  if ar_prior self
  then l ← getattr "ar_input" (ar_input self);
       e ← getattr "ar_prior_intg" (ar_prior_intg self);
       mret (l, e)
  else l ← getattr "input_converter" (input_converter self);
       e ← getattr "code_converter" (code_converter self);
       mret (l, e).

(** [draw] holds the entries that [torch.rand] returns in this call. *)
Definition timestep_independent (self : t) (draw : index -> R)
    (prior : option (tensor R)) (expected_seq_len : nat) : M (tensor R) :=
  code_emb ← (if ar_prior self
              then l ← pure (getattr "ar_input" (ar_input self));
                   op (call_linear l prior)
              else l ← pure (getattr "input_converter" (input_converter self));
                   op (call_linear l prior));
  code_emb ← (if ar_prior self
              then e ← pure (getattr "ar_prior_intg" (ar_prior_intg self));
                   op (Encoder.forward e code_emb)
              else e ← pure (getattr "code_converter" (code_converter self));
                   op (Encoder.forward e code_emb));
  code_emb ← (if training self && sltb (sof_Z 0) (unconditioned_percentage self)
              then
                b ← pure (Torch.shape_at code_emb 0);
                r ← op (Torch.rand draw [b; 1; 1]);
                unconditioned_batches ← op (Torch.lt_number r (unconditioned_percentage self));
                pb ← pure (shape0_opt prior);
                u ← op (Torch.repeat_ (unconditioned_embedding self) [pb; 1; 1]);
                op (Torch.where_ unconditioned_batches u code_emb)
              else mret code_emb);
  p ← op (Torch.permute021 code_emb);
  e ← op (Torch.interpolate_nearest p expected_seq_len);
  expanded_code_emb ← op (Torch.permute021 e);
  mret expanded_code_emb.

(** [self.time_embed(t)] and [self.out(x)], two [nn.Sequential]s. *)
Definition time_embed_forward (self : t) (emb : tensor R) : M (tensor R) :=
  h ← op (Linear.forward (time_embed self).1 emb);
  h ← op (Torch.pointwise silu h);
  op (Linear.forward (time_embed self).2 h).

Definition out_forward (self : t) (x : tensor R) : M (tensor R) :=
  h ← op (GroupNorm.forward (out self).1 x);
  h ← op (Torch.pointwise silu h);
  op (Conv1d.forward (out self).2 h).

(** [for layer in self.layers: x = checkpoint(layer, x, blk_emb, rotary_pos_emb)] *)
Fixpoint run_layers (ls : list (ConcatAttentionBlock.t R))
    (x blk_emb rotary_pos_emb : tensor R) : M (tensor R) :=
  match ls with
  | [] => mret x
  | layer :: ls' =>
      x ← checkpoint (ConcatAttentionBlock.forward layer x blk_emb rotary_pos_emb);
      run_layers ls' x blk_emb rotary_pos_emb
  end.

(** The values [extraneous_addition] takes: a Python number or a tensor
    without axes. *)
Definition scalar_value (v : pyvalue R) : Prop :=
  match v with
  | PyInt _ => True
  | PyTensor t => shape t = []
  end.

(** [extraneous_addition + p.mean()] *)
Definition add_mean (acc : pyvalue R) (p : tensor R) : M (pyvalue R) :=
  m ← op (Torch.mean p);
  match acc with
  | PyInt k => PyTensor <$> op (Torch.add_number m k)
  | PyTensor a => PyTensor <$> op (Torch.add a m)
  end.

(** [for p in unused_params: extraneous_addition = extraneous_addition + p.mean()] *)
Fixpoint sum_means (acc : pyvalue R) (unused_params : list (tensor R)) : M (pyvalue R) :=
  match unused_params with
  | [] => mret acc
  | p :: ps => acc ← add_mean acc p; sum_means acc ps
  end.

(** [out + extraneous_addition * 0] *)
Definition add_zero_weighted (out : tensor R) (extraneous_addition : pyvalue R)
  : M (tensor R) :=
  match extraneous_addition with
  | PyInt k => op (Torch.add_number out (k * 0))
  | PyTensor e => z ← op (Torch.mul_number e 0); op (Torch.add out z)
  end.

Definition assert_msg : string :=
  "Do not provide precomputed embeddings and the other parameters. It is unclear what you want me to do here.".

(** The arguments pass the check at the head of [forward]: there are no
    precomputed embeddings, or there is nothing else. *)
Definition arguments_ok (codes conditioning_input precomputed_code_embeddings
                         : option (tensor R)) : Prop :=
  precomputed_code_embeddings = None \/ (codes = None /\ conditioning_input = None).

(** The first part of [forward]: the argument check, then the choice of the
    code embedding together with the list [unused_params]. *)
Definition conditioning (self : t) (draw : index -> R) (x : tensor R)
    (codes conditioning_input precomputed_code_embeddings : option (tensor R))
    (conditioning_free : bool) : M (tensor R * list (tensor R)) :=
  _ ← (if bool_decide (precomputed_code_embeddings <> None)
       then py_assert (bool_decide (codes = None)
                       && bool_decide (conditioning_input = None)) assert_msg
       else mret tt);
  let unused_params := [] in
  if conditioning_free
  then
    b ← pure (Torch.shape_at x 0);
    n ← pure (Torch.shape_last x);
    code_emb ← op (Torch.repeat_ (unconditioned_embedding self) [b; n; 1]);
    mret (code_emb, unused_params)
  else
    code_emb ← match precomputed_code_embeddings with
               | Some e => mret e
               | None =>
                   n ← pure (Torch.shape_last x);
                   timestep_independent self draw codes n
               end;
    mret (code_emb, unused_params ++ [unconditioned_embedding self]).

(** The rest of [forward], from the [torch.autocast] block on. *)
Definition trunk (self : t) (x timesteps code_emb : tensor R)
    (unused_params : list (tensor R)) : M (tensor R) :=
  te ← op (Torch.timestep_embedding timesteps (time_embed_dim self));
  blk_emb ← time_embed_forward self te;
  x ← op (Conv1d.forward (inp_block self) x);
  x ← op (Torch.permute021 x);
  n ← pure (Torch.shape_at x 1);
  rotary_pos_emb ← op (RotaryEmbedding.forward (rotary_embeddings self) n);
  c ← op (Torch.cat_last [x; code_emb]);
  x ← op (Linear.forward (intg self) c);
  x ← run_layers (layers self) x blk_emb rotary_pos_emb;
  x ← op (Torch.permute021 x);
  out ← out_forward self x;
  extraneous_addition ← sum_means (PyInt 0) unused_params;
  out ← add_zero_weighted out extraneous_addition;
  mret out.

Definition forward (self : t) (draw : index -> R) (x timesteps : tensor R)
    (codes conditioning_input precomputed_code_embeddings : option (tensor R))
    (conditioning_free : bool) : M (tensor R) :=
  cu ← conditioning self draw x codes conditioning_input
                    precomputed_code_embeddings conditioning_free;
  trunk self x timesteps cu.1 cu.2.

(** [get_grad_norm_parameter_groups]: the entries of the dictionary literal,
    evaluated in the order they are written. *)
Definition get_grad_norm_parameter_groups (self : t)
  : result (list (string * list (tensor R))) :=
  let layers_group :=
    concat (map ConcatAttentionBlock.parameters (layers self))
    ++ Conv1d.parameters (inp_block self) in
  a ← getattr "input_converter" (input_converter self);
  c ← getattr "code_converter" (code_converter self);
  let code_converters := Linear.parameters a ++ Encoder.parameters c in
  let time_embed_group :=
    Linear.parameters (time_embed self).1 ++ Linear.parameters (time_embed self).2 in
  mret [("layers"%string, layers_group);
        ("code_converters"%string, code_converters);
        ("time_embed"%string, time_embed_group)].

End Defs.
Arguments t R : clear implicits.
Arguments kwargs R : clear implicits.
End TransformerDiffusion.

(** ** TransformerDiffusionWithMultiPretrainedVqvae *)

Module DiscreteVAE.
Section Defs.
Context {R : Type}.

(** Modelled from the spec: [DiscreteVAE] of models.audio.tts.lucidrains_dvae,
    a "frozen pretrained discrete-autoencoder codec"; [infer] maps a
    (batch, channels, length) signal to its reconstruction and its code
    projection, or fails. *)
Record t : Type := {
  infer : tensor R -> result (tensor R * tensor R)
}.

End Defs.
Arguments t R : clear implicits.
End DiscreteVAE.

Module TransformerDiffusionWithMultiPretrainedVqvae.
Section Defs.
Context {R : Type} {SR : Scalar R} {EX : Externals R}.

Record t : Type := {
  internal_step : Z;
  diff : TransformerDiffusion.t R;
  quantizers : list (DiscreteVAE.t R)
}.

(** [enumerate(l)] *)
Definition enumerate {A} (l : list A) : list (nat * A) :=
  zip (seq 0 (length l)) l.

(** A value computed under [torch.no_grad()] is not attached to the graph. *)
Definition no_grad (t : tensor R) : tensor R :=
  Tensor (shape t) (data t) ∅.

(** [truth_mel[:, i*partition_size:(i+1)*partition_size]] *)
Definition mel_partition (truth_mel : tensor R) (partition_size i : nat)
  : result (tensor R) :=
  Torch.slice_dim1 truth_mel (i * partition_size) ((i + 1) * partition_size).

(** The body of the loop over [enumerate(self.quantizers)]; [proj] is the
    list built so far. *)
Fixpoint encode_partitions (qs : list (nat * DiscreteVAE.t R)) (truth_mel : tensor R)
    (partition_size : nat) (proj : list (tensor R)) : M (list (tensor R)) :=
  match qs with
  | [] => mret proj
  | (i, q) :: qs' =>
      mel_partition ← op (mel_partition truth_mel partition_size i);
      rp ← op (DiscreteVAE.infer q mel_partition);
      p ← op (Torch.permute021 rp.2);
      encode_partitions qs' truth_mel partition_size (proj ++ [p])
  end.

(** The [with torch.no_grad()] block of [forward]: the conditioning codes. *)
Definition codes (self : t) (truth_mel : tensor R) : M (tensor R) :=
  c ← pure (Torch.shape_at truth_mel 1);
  partition_size ← pure (py_floordiv c (length (quantizers self)));
  proj ← encode_partitions (enumerate (quantizers self)) truth_mel partition_size [];
  proj ← op (Torch.cat_last proj);
  mret (no_grad proj).

Definition forward (self : t) (draw : index -> R) (x timesteps truth_mel : tensor R)
    (conditioning_input : option (tensor R)) (conditioning_free : bool) : M (tensor R) :=
  proj ← codes self truth_mel;
  TransformerDiffusion.forward (diff self) draw x timesteps (Some proj)
                               conditioning_input None conditioning_free.

End Defs.
Arguments t R : clear implicits.
End TransformerDiffusionWithMultiPretrainedVqvae.

(** ** MultiGroupEmbedding *)

(** A tensor of dtype long (token ids); it carries no gradient. *)
Record ltensor : Type := LTensor {
  lshape : list nat;
  ldata : index -> Z
}.

Module Embedding.
Section Defs.
Context {R : Type} {SR : Scalar R}.

Record t : Type := {
  weight : tensor R   (* (num_embeddings, embedding_dim) *)
}.

(** [nn.Embedding(num_embeddings, embedding_dim)] *)
Definition init (rnd : string -> index -> R) (name : string)
    (num_embeddings embedding_dim : nat) : t :=
  {| weight := Torch.mk_param rnd (name +:+ ".weight") [num_embeddings; embedding_dim] |}.

Definition parameters (self : t) : list (tensor R) := [weight self].

(** Every index vector of a tensor of shape [s]. *)
Fixpoint indices (s : list nat) : list index :=
  match s with
  | [] => [[]]
  | d :: s' => i ← seq 0 d; cons i <$> indices s'
  end.

(** [F.embedding(ids, weight)]: the id at position [p] selects a row of the
    table.  An id outside a table that has rows is an IndexError; any lookup
    in a table without rows is a RuntimeError. *)
Definition forward (self : t) (ids : ltensor) : result (tensor R) :=
  match shape (weight self) with
  | [n; d] =>
      if forallb (fun p => bool_decide (0 <= ldata ids p < Z.of_nat n)%Z)
                 (indices (lshape ids))
      then Ok (Tensor (lshape ids ++ [d])
                 (fun idx => match Torch.split_last idx with
                             | Some (p, f) =>
                                 data (weight self) [Z.to_nat (ldata ids p); f]
                             | None => szero
                             end)
                 (leaves (weight self)))
      else if decide (n = 0) then Raise RuntimeError
      else Raise IndexError
  | _ => Raise RuntimeError
  end.

End Defs.
Arguments t R : clear implicits.
End Embedding.

Module MultiGroupEmbedding.
Section Defs.
Context {R : Type} {SR : Scalar R}.

Record t : Type := {
  m : list (Embedding.t R)   (* nn.ModuleList *)
}.

(** [[nn.Embedding(tokens, dim // groups) for _ in range(groups)]], from the
    [i]-th element on, [n] elements: the quotient is computed once for each
    element, hence not at all when there is none. *)
Fixpoint make (rnd : string -> index -> R) (tokens groups dim i n : nat)
  : result (list (Embedding.t R)) :=
  match n with
  | 0 => Ok []
  | S n' =>
      d ← py_floordiv dim groups;
      es ← make rnd tokens groups dim (S i) n';
      mret (Embedding.init rnd ("m." +:+ pretty i) tokens d :: es)
  end.

Definition __init__ (rnd : string -> index -> R) (tokens groups dim : nat) : result t :=
  es ← make rnd tokens groups dim 0 groups;
  mret {| m := es |}.

Definition parameters (self : t) : list (tensor R) :=
  concat (map Embedding.parameters (m self)).

(** [x[:, :, i]] *)
Definition select2 (x : ltensor) (i : nat) : result ltensor :=
  match lshape x with
  | a :: b :: c :: rest =>
      if decide (i < c) then
        Ok (LTensor (a :: b :: rest)
                    (fun idx => match idx with
                                | p :: q :: r => ldata x (p :: q :: i :: r)
                                | _ => 0%Z
                                end))
      else Raise IndexError
  | _ => Raise IndexError
  end.

(** The list comprehension over [enumerate(self.m)]; [h] is the list built
    so far. *)
Fixpoint embed_groups (ms : list (nat * Embedding.t R)) (x : ltensor)
    (h : list (tensor R)) : M (list (tensor R)) :=
  match ms with
  | [] => mret h
  | (i, embedding) :: ms' =>
      xi ← op (select2 x i);
      hi ← op (Embedding.forward embedding xi);
      embed_groups ms' x (h ++ [hi])
  end.

Definition forward (self : t) (x : ltensor) : M (tensor R) :=
  h ← embed_groups (TransformerDiffusionWithMultiPretrainedVqvae.enumerate (m self)) x [];
  op (Torch.cat_last h).

End Defs.
Arguments t R : clear implicits.
End MultiGroupEmbedding.

(** ** TimestepRotaryEmbedSequential *)

Module TimestepRotaryEmbedSequential.
Section Defs.
Context {R : Type} {SR : Scalar R} {EX : Externals R}.

(** The two kinds of layer of this file that the container can call: a
    [TimestepBlock] (the only one is [ConcatAttentionBlock]) takes the
    timestep embedding, any other module ([SubBlock]) does not.  The match on
    the kind is the [isinstance(layer, TimestepBlock)] test. *)
Inductive layer : Type :=
| TimestepBlock (l : ConcatAttentionBlock.t R)
| OtherModule (b : SubBlock.t R).

Fixpoint forward (self : list layer) (x emb rotary_emb : tensor R) : M (tensor R) :=
  match self with
  | [] => mret x
  | layer :: rest =>
      x ← match layer with
          | TimestepBlock l => ConcatAttentionBlock.forward l x emb rotary_emb
          | OtherModule b => SubBlock.forward b x rotary_emb
          end;
      forward rest x emb rotary_emb
  end.

End Defs.
Arguments layer R : clear implicits.
End TimestepRotaryEmbedSequential.

(** ** TransformerDiffusionWithQuantizer: forward and before_step *)

Module MusicQuantizer2Net.
Section Defs.
Context {R : Type}.

(** Modelled from the spec: [MusicQuantizer2] of
    models.audio.music.music_quantizer2, "a trainable vector-quantization
    encoder over the reference": its parameters, and its call with
    [return_decoder_latent=True], which maps a (batch, channels, length)
    reference to a code projection and a diversity loss, or fails. *)
Record t : Type := {
  parameters : list (tensor R);
  forward : tensor R -> result (tensor R * tensor R)
}.

End Defs.
Arguments t R : clear implicits.
End MusicQuantizer2Net.

Module TransformerDiffusionWithQuantizerNet.

(** The gradient [p.grad] of each parameter, by parameter name, with rational
    entries; a parameter without an entry has [p.grad] equal to [None]. *)
Abbreviation grads := (gmap string (tensor Q)).

Section Defs.
Context {R : Type} {SR : Scalar R} {EX : Externals R}.

(** The whole object: the step counters and temperatures of
    [TransformerDiffusionWithQuantizer.t], the denoising network and the
    quantizer. *)
Record t : Type := {
  schedule : TransformerDiffusionWithQuantizer.t;
  diff : TransformerDiffusion.t R;
  quantizer : MusicQuantizer2Net.t R
}.

(** A value computed inside [with torch.set_grad_enabled(enabled)]. *)
Definition set_grad_enabled (enabled : bool) (t : tensor R) : tensor R :=
  if enabled then t else TransformerDiffusionWithMultiPretrainedVqvae.no_grad t.

(** [for p in ps: unused = unused + p.mean() * 0] *)
Fixpoint sum_zero_means (unused : pyvalue R) (ps : list (tensor R)) : M (pyvalue R) :=
  match ps with
  | [] => mret unused
  | p :: ps' =>
      mn ← op (Torch.mean p);
      z ← op (Torch.mul_number mn 0);
      unused ← match unused with
               | PyInt k => PyTensor <$> op (Torch.add_number z k)
               | PyTensor a => PyTensor <$> op (Torch.add a z)
               end;
      sum_zero_means unused ps'
  end.

(** [proj + unused] *)
Definition add_value (t : tensor R) (v : pyvalue R) : M (tensor R) :=
  match v with
  | PyInt k => op (Torch.add_number t k)
  | PyTensor u => op (Torch.add t u)
  end.

(** [internal_step > freeze_quantizer_until] *)
Definition quant_grad_enabled (self : t) : bool :=
  bool_decide (TransformerDiffusionWithQuantizer.freeze_quantizer_until (schedule self)
               < TransformerDiffusionWithQuantizer.internal_step (schedule self))%Z.

(** The part of [forward] before the call of the denoising network: the
    codes and the diversity loss. *)
Definition codes (self : t) (truth_mel : tensor R) : M (tensor R * tensor R) :=
  let enabled := quant_grad_enabled self in
  pd ← op (MusicQuantizer2Net.forward (quantizer self) truth_mel);
  let diversity_loss := set_grad_enabled enabled pd.2 in
  proj ← op (Torch.permute021 (set_grad_enabled enabled pd.1));
  if negb enabled then
    unused ← sum_zero_means (PyInt 0) (MusicQuantizer2Net.parameters (quantizer self));
    proj ← add_value proj unused;
    diversity_loss ← op (Torch.mul_number diversity_loss 0);
    mret (proj, diversity_loss)
  else mret (proj, diversity_loss).

(** The result is the prediction alone when [disable_diversity], else the
    pair of the prediction and the diversity loss. *)
Definition forward (self : t) (draw : index -> R) (x timesteps truth_mel : tensor R)
    (conditioning_input : option (tensor R)) (disable_diversity conditioning_free : bool)
  : M (tensor R * option (tensor R)) :=
  pd ← codes self truth_mel;
  d ← TransformerDiffusion.forward (diff self) draw x timesteps (Some pd.1)
                                   conditioning_input None conditioning_free;
  mret (if disable_diversity then (d, None) else (d, Some pd.2)).

(** [lyr.out.parameters()] of every layer, then [lyr.prenorm.parameters()] of
    every layer. *)
Definition scaled_grad_parameters (self : t) : list (tensor R) :=
  concat (map (fun lyr => Linear.parameters (ConcatAttentionBlock.out lyr))
              (TransformerDiffusion.layers (diff self)))
  ++ concat (map (fun lyr => RMSScaleShiftNorm.parameters (ConcatAttentionBlock.prenorm lyr))
                 (TransformerDiffusion.layers (diff self))).

(** [g *= .2] *)
Definition scale_grad (g : tensor Q) : tensor Q :=
  Tensor (shape g) (fun idx => (data g idx * (2 # 10))%Q) (leaves g).

(** [for p in ps: p.grad *= .2]; the product with [None] is a TypeError. *)
Fixpoint scale_grads (ps : list string) (gs : grads) : result grads :=
  match ps with
  | [] => Ok gs
  | p :: ps' =>
      match gs !! p with
      | Some g => scale_grads ps' (<[p := scale_grad g]> gs)
      | None => Raise TypeError
      end
  end.

Definition before_step (self : t) (gs : grads) : result grads :=
  scale_grads (Torch.names (scaled_grad_parameters self)) gs.

End Defs.
Arguments t R : clear implicits.
End TransformerDiffusionWithQuantizerNet.

(** ** TransformerDiffusionWithARPrior *)

Module GptMusicLower.
Section Defs.
Context {R : Type}.

(** Modelled from the spec: [GptMusicLower] of models.audio.music.gpt_music,
    "a frozen pretrained autoregressive prior model" that is run "over the
    reference to produce a continuous latent prior sequence": its parameters,
    and its call with [return_latent=True] on the reference and the
    conditioning input. *)
Record t : Type := {
  parameters : list (tensor R);
  forward : tensor R -> option (tensor R) -> result (tensor R)
}.

End Defs.
Arguments t R : clear implicits.
End GptMusicLower.

Module TransformerDiffusionWithARPrior.
Section Defs.
Context {R : Type} {SR : Scalar R} {EX : Externals R}.

Record t : Type := {
  internal_step : Z;
  ar : GptMusicLower.t R;
  ar_attrs : ParamAttrs.store;   (* the attributes of the parameters of [ar] *)
  diff : TransformerDiffusion.t R
}.

(** [ar_prior=True, **kwargs]: the keyword arguments handed on, which may not
    name [ar_prior] themselves, with [ar_prior] set. *)
Definition with_ar_prior (kw : TransformerDiffusion.kwargs R) : TransformerDiffusion.kwargs R :=
  {| TransformerDiffusion.kw_prenet_channels := TransformerDiffusion.kw_prenet_channels kw;
     TransformerDiffusion.kw_prenet_layers := TransformerDiffusion.kw_prenet_layers kw;
     TransformerDiffusion.kw_time_embed_dim := TransformerDiffusion.kw_time_embed_dim kw;
     TransformerDiffusion.kw_model_channels := TransformerDiffusion.kw_model_channels kw;
     TransformerDiffusion.kw_contraction_dim := TransformerDiffusion.kw_contraction_dim kw;
     TransformerDiffusion.kw_num_layers := TransformerDiffusion.kw_num_layers kw;
     TransformerDiffusion.kw_in_channels := TransformerDiffusion.kw_in_channels kw;
     TransformerDiffusion.kw_rotary_emb_dim := TransformerDiffusion.kw_rotary_emb_dim kw;
     TransformerDiffusion.kw_input_vec_dim := TransformerDiffusion.kw_input_vec_dim kw;
     TransformerDiffusion.kw_out_channels := TransformerDiffusion.kw_out_channels kw;
     TransformerDiffusion.kw_num_heads := TransformerDiffusion.kw_num_heads kw;
     TransformerDiffusion.kw_dropout := TransformerDiffusion.kw_dropout kw;
     TransformerDiffusion.kw_use_fp16 := TransformerDiffusion.kw_use_fp16 kw;
     TransformerDiffusion.kw_ar_prior := true;
     TransformerDiffusion.kw_unconditioned_percentage :=
       TransformerDiffusion.kw_unconditioned_percentage kw;
     TransformerDiffusion.kw_freeze_except_code_converters :=
       TransformerDiffusion.kw_freeze_except_code_converters kw |}.

(** [ar] is the prior that [GptMusicLower(dim=512, layers=12)] builds. *)
Definition __init__ (rnd : string -> index -> R) (ar : GptMusicLower.t R)
    (freeze_diff : bool) (kw : TransformerDiffusion.kwargs R) : result t :=
  let ar_names := Torch.names (GptMusicLower.parameters ar) in
  let ar_attrs := TransformerDiffusion.freeze ar_names (ParamAttrs.of_names ar_names) in
  diff ← TransformerDiffusion.__init__ rnd (with_ar_prior kw);
  st ← (if freeze_diff then
          let st := TransformerDiffusion.freeze
                      (Torch.names (TransformerDiffusion.parameters diff))
                      (TransformerDiffusion.attrs diff) in
          e ← getattr "ar_prior_intg" (TransformerDiffusion.ar_prior_intg diff);
          l ← getattr "ar_input" (TransformerDiffusion.ar_input diff);
          TransformerDiffusion.unfreeze
            (Torch.names (Encoder.parameters e ++ Linear.parameters l)) st
        else Ok (TransformerDiffusion.attrs diff));
  mret {| internal_step := 0; ar := ar; ar_attrs := ar_attrs;
          diff := TransformerDiffusion.set_attrs diff st |}.

(** [lyr.<name>.parameters()] for a layer of the trunk: a
    [ConcatAttentionBlock] has the submodules [prenorm], [block1], [block2]
    and [out]; any other name is an AttributeError. *)
Definition layer_attr_parameters (lyr : ConcatAttentionBlock.t R) (name : string)
  : result (list (tensor R)) :=
  if decide (name = "prenorm") then
    Ok (RMSScaleShiftNorm.parameters (ConcatAttentionBlock.prenorm lyr))
  else if decide (name = "block1") then
    Ok (SubBlock.parameters (ConcatAttentionBlock.block1 lyr))
  else if decide (name = "block2") then
    Ok (SubBlock.parameters (ConcatAttentionBlock.block2 lyr))
  else if decide (name = "out") then
    Ok (Linear.parameters (ConcatAttentionBlock.out lyr))
  else Raise (AttributeError name).

(** [list(itertools.chain.from_iterable([lyr.<name>.parameters() for lyr in layers]))] *)
Definition chain_attr_parameters (layers : list (ConcatAttentionBlock.t R)) (name : string)
  : result (list (tensor R)) :=
  ps ← mapM (fun lyr => layer_attr_parameters lyr name) layers;
  mret (concat ps).

Definition get_grad_norm_parameter_groups (self : t)
  : result (list (string * list (tensor R))) :=
  let d := diff self in
  attention_layers ← chain_attr_parameters (TransformerDiffusion.layers d) "attn";
  ff_layers ← chain_attr_parameters (TransformerDiffusion.layers d) "ff";
  let rotary := RotaryEmbedding.parameters (TransformerDiffusion.rotary_embeddings d) in
  let out := GroupNorm.parameters (TransformerDiffusion.out d).1
             ++ Conv1d.parameters (TransformerDiffusion.out d).2 in
  let x_proj := Conv1d.parameters (TransformerDiffusion.inp_block d) in
  let layers := concat (map ConcatAttentionBlock.parameters (TransformerDiffusion.layers d)) in
  e ← getattr "ar_prior_intg" (TransformerDiffusion.ar_prior_intg d);
  let time_embed := Linear.parameters (TransformerDiffusion.time_embed d).1
                    ++ Linear.parameters (TransformerDiffusion.time_embed d).2 in
  mret [("attention_layers"%string, attention_layers);
        ("ff_layers"%string, ff_layers);
        ("rotary_embeddings"%string, rotary);
        ("out"%string, out);
        ("x_proj"%string, x_proj);
        ("layers"%string, layers);
        ("ar_prior_intg"%string, Encoder.parameters e);
        ("time_embed"%string, time_embed)].

(** The prior is computed under [torch.no_grad()] and handed to the denoising
    network as its codes; [conditioning_input] goes to the prior only. *)
Definition forward (self : t) (draw : index -> R) (x timesteps truth_mel : tensor R)
    (conditioning_input : option (tensor R)) (conditioning_free : bool) : M (tensor R) :=
  prior ← op (GptMusicLower.forward (ar self) truth_mel conditioning_input);
  let prior := TransformerDiffusionWithMultiPretrainedVqvae.no_grad prior in
  TransformerDiffusion.forward (diff self) draw x timesteps (Some prior) None None
                               conditioning_free.

End Defs.
Arguments t R : clear implicits.
End TransformerDiffusionWithARPrior.

(** ** A small concrete instance

    Integer entries, stand-ins for the external layers and a model with tiny
    dimensions, used to run the definitions above on concrete inputs. *)

Module Example.

#[global] Instance Z_scalar : Scalar Z := {|
  szero := 0%Z;
  sadd := Z.add;
  smul := Z.mul;
  sdiv_nat := fun a n => (a / Z.of_nat n)%Z;
  sof_Z := fun k => k;
  sltb := Z.ltb
|}.

#[global] Instance Z_laws : ScalarLaws Z.
Proof. split; intros; simpl; lia. Qed.

#[global] Instance Z_externals : Externals Z := {|
  gelu := fun a => a;
  silu := fun a => a;
  layer_norm_data := fun _ _ x => data x;
  group_norm_data := fun _ x => data x;
  attention_data := fun _ x _ idx => (data x idx + 1)%Z;
  rms_scale_shift_norm_data := fun _ x _ => data x;
  encoder_data := fun _ x idx => (2 * data x idx)%Z;
  rotary_data := fun _ _ _ => 0%Z;
  timestep_embedding_data := fun ts _ idx => data ts (take 1 idx);
  attention_params := fun d o h dh =>
    [("to_q.weight", [h * dh; d]); ("to_k.weight", [h * dh; d]);
     ("to_v.weight", [h * dh; d]); ("to_out.weight", [o; h * dh])];
  rms_scale_shift_norm_params := fun d e =>
    [("scale_shift_process.weight", [d * 2; e])];
  encoder_params := fun d depth h =>
    [("layers.0.weight", [d; d]); ("norm.weight", [d])];
  group_norm_params := fun c => [("weight", [c]); ("bias", [c])]
|}.

Definition kwargs : TransformerDiffusion.kwargs Z := {|
  TransformerDiffusion.kw_prenet_channels := 2;
  TransformerDiffusion.kw_prenet_layers := 1;
  TransformerDiffusion.kw_time_embed_dim := 2;
  TransformerDiffusion.kw_model_channels := 3;
  TransformerDiffusion.kw_contraction_dim := 2;
  TransformerDiffusion.kw_num_layers := 1;
  TransformerDiffusion.kw_in_channels := 2;
  TransformerDiffusion.kw_rotary_emb_dim := 2;
  TransformerDiffusion.kw_input_vec_dim := 2;
  TransformerDiffusion.kw_out_channels := 4;
  TransformerDiffusion.kw_num_heads := 1;
  TransformerDiffusion.kw_dropout := 0%Z;
  TransformerDiffusion.kw_use_fp16 := false;
  TransformerDiffusion.kw_ar_prior := false;
  TransformerDiffusion.kw_unconditioned_percentage := 1%Z;
  TransformerDiffusion.kw_freeze_except_code_converters := false
|}.

(** The same keyword arguments with [freeze_except_code_converters=True]. *)
Definition kwargs_frozen : TransformerDiffusion.kwargs Z := {|
  TransformerDiffusion.kw_prenet_channels := 2;
  TransformerDiffusion.kw_prenet_layers := 1;
  TransformerDiffusion.kw_time_embed_dim := 2;
  TransformerDiffusion.kw_model_channels := 3;
  TransformerDiffusion.kw_contraction_dim := 2;
  TransformerDiffusion.kw_num_layers := 1;
  TransformerDiffusion.kw_in_channels := 2;
  TransformerDiffusion.kw_rotary_emb_dim := 2;
  TransformerDiffusion.kw_input_vec_dim := 2;
  TransformerDiffusion.kw_out_channels := 4;
  TransformerDiffusion.kw_num_heads := 1;
  TransformerDiffusion.kw_dropout := 0%Z;
  TransformerDiffusion.kw_use_fp16 := false;
  TransformerDiffusion.kw_ar_prior := false;
  TransformerDiffusion.kw_unconditioned_percentage := 1%Z;
  TransformerDiffusion.kw_freeze_except_code_converters := true
|}.

(** A stand-in codec: it hands back its input and, as projection, the first
    two channels of it. *)
Definition codec : DiscreteVAE.t Z := {|
  DiscreteVAE.infer := fun part =>
    match shape part with
    | [b; c; n] =>
        if decide (2 <= c)
        then Ok (part, Tensor [b; 2; n] (data part) ∅)
        else Raise RuntimeError
    | _ => Raise RuntimeError
    end
|}.

(** A reference with [c] channels and three frames whose entry at
    (batch, channel, frame) is [10 * channel + frame]. *)
Definition mel (c : nat) : tensor Z :=
  Tensor [1; c; 3]
         (fun idx => match idx with
                     | [_; ch; fr] => (10 * Z.of_nat ch + Z.of_nat fr)%Z
                     | _ => 0%Z
                     end)
         ∅.

(** What the stand-in codec [i] projects out of band [i] of [mel c], for two
    codecs: channels [i * (c / 2)] and [i * (c / 2) + 1]. *)
Definition projection (c i : nat) : tensor Z :=
  Tensor [1; 2; 3]
         (fun idx => match idx with
                     | k :: j :: r =>
                         if decide (j < c / 2)
                         then data (mel c) (k :: (j + Nat.min (i * (c / 2)) c) :: r)
                         else 0%Z
                     | _ => 0%Z
                     end)
         ∅.

(** Every freshly initialised entry is 1. *)
Definition rnd : string -> index -> Z := fun _ _ => 1%Z.

(** A tensor of the given shape whose entries are all [v]. *)
Definition full (s : list nat) (v : Z) : tensor Z := Tensor s (fun _ => v) ∅.

Definition model : TransformerDiffusion.t Z.
Proof.
  let r := eval vm_compute in (TransformerDiffusion.__init__ rnd kwargs) in
  match r with
  | Ok ?m => exact m
  end.
Defined.

(** The multi-codec wrapper around [model], with two codecs. *)
Definition multi : TransformerDiffusionWithMultiPretrainedVqvae.t Z := {|
  TransformerDiffusionWithMultiPretrainedVqvae.internal_step := 0;
  TransformerDiffusionWithMultiPretrainedVqvae.diff := model;
  TransformerDiffusionWithMultiPretrainedVqvae.quantizers := [codec; codec]
|}.

(** The small keyword arguments with a chosen number of heads and chosen
    [ar_prior] and [freeze_except_code_converters]. *)
Definition kwargs_with (num_heads : nat) (ar_prior freeze : bool)
  : TransformerDiffusion.kwargs Z := {|
  TransformerDiffusion.kw_prenet_channels := 2;
  TransformerDiffusion.kw_prenet_layers := 1;
  TransformerDiffusion.kw_time_embed_dim := 2;
  TransformerDiffusion.kw_model_channels := 3;
  TransformerDiffusion.kw_contraction_dim := 2;
  TransformerDiffusion.kw_num_layers := 1;
  TransformerDiffusion.kw_in_channels := 2;
  TransformerDiffusion.kw_rotary_emb_dim := 2;
  TransformerDiffusion.kw_input_vec_dim := 2;
  TransformerDiffusion.kw_out_channels := 4;
  TransformerDiffusion.kw_num_heads := num_heads;
  TransformerDiffusion.kw_dropout := 0%Z;
  TransformerDiffusion.kw_use_fp16 := false;
  TransformerDiffusion.kw_ar_prior := ar_prior;
  TransformerDiffusion.kw_unconditioned_percentage := 1%Z;
  TransformerDiffusion.kw_freeze_except_code_converters := freeze
|}.

(** The small model built with [ar_prior=True]. *)
Definition ar_model : TransformerDiffusion.t Z.
Proof.
  let r := eval vm_compute in (TransformerDiffusion.__init__ rnd (kwargs_with 1 true false)) in
  match r with
  | Ok ?m => exact m
  end.
Defined.

(** A block as [SubBlock(3, 2, 1, 0)] builds it. *)
Definition block : SubBlock.t Z.
Proof.
  let r := eval vm_compute in (SubBlock.__init__ rnd "block" 3 2 1) in
  match r with
  | Ok ?b => exact b
  end.
Defined.

(** A stand-in codec with a constant projection, and the multi-codec wrapper
    around [model] with this one codec. *)
Definition constant_codec : DiscreteVAE.t Z := {|
  DiscreteVAE.infer := fun part => Ok (part, full [2; 2; 3] 1%Z)
|}.

Definition single : TransformerDiffusionWithMultiPretrainedVqvae.t Z := {|
  TransformerDiffusionWithMultiPretrainedVqvae.internal_step := 0;
  TransformerDiffusionWithMultiPretrainedVqvae.diff := model;
  TransformerDiffusionWithMultiPretrainedVqvae.quantizers := [constant_codec]
|}.

(** Token ids of shape (1, 2, 2): the id at (batch, position, group) is
    [position + group]. *)
Definition ids : ltensor :=
  LTensor [1; 2; 2]
          (fun idx => match idx with
                      | [_; q; i] => Z.of_nat (q + i)
                      | _ => 0%Z
                      end).

(** A stand-in quantizer with one parameter: its projection has the entries
    of the reference, its diversity loss is 7. *)
Definition music_quantizer : MusicQuantizer2Net.t Z := {|
  MusicQuantizer2Net.parameters := [Torch.mk_param rnd "quantizer.codevectors" [2; 2]];
  MusicQuantizer2Net.forward := fun mel =>
    Ok (Tensor [2; 2; 3] (data mel) {["quantizer.codevectors"]},
        Tensor [] (fun _ => 7%Z) {["quantizer.codevectors"]})
|}.

(** The quantizer wrapper around [model] after [update_for_step step]. *)
Definition with_quantizer (step : Z) : TransformerDiffusionWithQuantizerNet.t Z := {|
  TransformerDiffusionWithQuantizerNet.schedule :=
    TransformerDiffusionWithQuantizer.update_for_step
      (TransformerDiffusionWithQuantizer.init 20000 (999995 # 1000000)) step;
  TransformerDiffusionWithQuantizerNet.diff := model;
  TransformerDiffusionWithQuantizerNet.quantizer := music_quantizer
|}.

(** Gradients for the two parameters of [model] that [before_step] scales,
    and for one that it does not. *)
Definition gradients : TransformerDiffusionWithQuantizerNet.grads :=
  <["layers.0.out.weight" := Tensor [3; 8] (fun _ => 5%Q) ∅]>
    (<["layers.0.prenorm.scale_shift_process.weight" := Tensor [6; 2] (fun _ => 10%Q) ∅]>
       (<["intg.weight" := Tensor [3; 4] (fun _ => 1%Q) ∅]> ∅)).

(** A stand-in autoregressive prior with one parameter and a constant latent,
    and the wrapper that the constructor builds around it with
    [freeze_diff=True]. *)
Definition prior_model : GptMusicLower.t Z := {|
  GptMusicLower.parameters := [Torch.mk_param rnd "ar.weight" [2; 2]];
  GptMusicLower.forward := fun _ _ => Ok (full [2; 3; 2] 1%Z)
|}.

Definition ar_wrapper : TransformerDiffusionWithARPrior.t Z.
Proof.
  let r := eval vm_compute in
             (TransformerDiffusionWithARPrior.__init__ rnd prior_model true kwargs) in
  match r with
  | Ok ?w => exact w
  end.
Defined.





End Example.

(** * Properties *)

(** ** The quantizer temperature schedule *)

Section TemperatureSchedule.
Import TransformerDiffusionWithQuantizer.
Local Open Scope Q_scope.

Lemma Qpower_le_one (q : Q) (k : Z) :
  0 <= q -> q <= 1 -> (0 <= k)%Z -> q ^ k <= 1.
Proof.
  intros H0 H1 Hk. revert k Hk.
  apply natlike_ind; [discriminate|].
  intros k Hk IH. unfold Z.succ.
  rewrite Qpower_plus' by lia.
  apply Qle_trans with (1 * 1); [|discriminate].
  apply Qmult_le_compat_nonneg; split.
  - apply Qpower_0_le; trivial.
  - exact IH.
  - rewrite Qpower_1_r. exact H0.
  - rewrite Qpower_1_r. exact H1.
Qed.

Lemma Qpower_antitone (q : Q) (n m : Z) :
  0 <= q -> q <= 1 -> (0 <= n <= m)%Z -> q ^ m <= q ^ n.
Proof.
  intros H0 H1 [Hn Hm].
  destruct (Z.eq_dec n m) as [->|Hne]; [apply Qle_refl|].
  replace m with (n + (m - n))%Z by lia.
  rewrite Qpower_plus' by lia.
  apply Qle_trans with (q ^ n * 1); [|rewrite Qmult_1_r; apply Qle_refl].
  apply Qmult_le_compat_nonneg; split.
  - apply Qpower_0_le; trivial.
  - apply Qle_refl.
  - apply Qpower_0_le; trivial.
  - apply Qpower_le_one; trivial; lia.
Qed.

Lemma temperature_at_eq (self : t) (s : Z) :
  temperature_at self s =
  Qmax (max_gumbel_temperature (quantizer self)
        * gumbel_temperature_decay (quantizer self)
          ^ Z.max 0 (s - freeze_quantizer_until self))
       (min_gumbel_temperature (quantizer self)).
Proof. reflexivity. Qed.

(** The schedule is non-increasing in the step, whatever the threshold. *)
Lemma temperature_at_antitone (self : t) (s s' : Z) :
  0 <= max_gumbel_temperature (quantizer self) ->
  0 <= gumbel_temperature_decay (quantizer self) ->
  gumbel_temperature_decay (quantizer self) <= 1 ->
  (s <= s')%Z ->
  temperature_at self s' <= temperature_at self s.
Proof.
  intros Hmax H0 H1 Hs. rewrite !temperature_at_eq.
  apply Q.max_le_compat_r.
  rewrite !(Qmult_comm (max_gumbel_temperature (quantizer self))).
  apply Qmult_le_compat_r; [|exact Hmax].
  apply Qpower_antitone; trivial. lia.
Qed.

End TemperatureSchedule.

(** C6.  With the wrapper's constants in place (a non-negative maximum no
    smaller than the minimum) and a decay factor between 0 and 1: up to the
    freeze threshold the temperature set by [update_for_step] is the maximum;
    past it the temperature is the clamped exponential
    [max (max_t * decay ^ (s - threshold)) min_t], it never increases with the
    step and it never falls below the minimum. *)
Theorem quantizer_temperature_schedule
    (self : TransformerDiffusionWithQuantizer.t) :
  let q := TransformerDiffusionWithQuantizer.quantizer self in
  let max_t := TransformerDiffusionWithQuantizer.max_gumbel_temperature q in
  let min_t := TransformerDiffusionWithQuantizer.min_gumbel_temperature q in
  let decay := TransformerDiffusionWithQuantizer.gumbel_temperature_decay q in
  let until := TransformerDiffusionWithQuantizer.freeze_quantizer_until self in
  let temp := TransformerDiffusionWithQuantizer.temperature_at self in
  (0 <= max_t)%Q -> (min_t <= max_t)%Q -> (0 <= decay)%Q -> (decay <= 1)%Q ->
  (forall s, (s <= until)%Z -> (temp s == max_t)%Q)
  /\ (forall s, (until < s)%Z ->
        (temp s == Qmax (max_t * decay ^ (s - until)) min_t)%Q)
  /\ (forall s s', (until < s)%Z -> (s <= s')%Z -> (temp s' <= temp s)%Q)
  /\ (forall s, (min_t <= temp s)%Q).
Proof.
  intros q max_t min_t decay until temp.
  subst q max_t min_t decay until temp. intros Hmax Hmin H0 H1.
  repeat split.
  - intros s Hs. rewrite temperature_at_eq.
    replace (Z.max 0 (s - TransformerDiffusionWithQuantizer.freeze_quantizer_until self))
      with 0%Z by lia.
    rewrite Q.max_l.
    + simpl. apply Qmult_1_r.
    + simpl (_ ^ 0)%Q. rewrite Qmult_1_r. exact Hmin.
  - intros s Hs. rewrite temperature_at_eq.
    replace (Z.max 0 (s - TransformerDiffusionWithQuantizer.freeze_quantizer_until self))
      with (s - TransformerDiffusionWithQuantizer.freeze_quantizer_until self)%Z by lia.
    apply Qeq_refl.
  - intros s s' _ Hss. apply temperature_at_antitone; assumption.
  - intros s. rewrite temperature_at_eq. apply Q.le_max_r.
Qed.

(** The schedule of a wrapper built by the constructor, with the decay factor
    .999995 and the threshold 20000. *)
Lemma quantizer_temperature_schedule_witness :
  let self := TransformerDiffusionWithQuantizer.init 20000 (999995 # 1000000) in
  let temp := TransformerDiffusionWithQuantizer.temperature_at self in
  (forall s, (s <= 20000)%Z -> (temp s == 4)%Q)
  /\ (forall s, (20000 < s)%Z ->
        (temp s == Qmax (4 * (999995 # 1000000) ^ (s - 20000)) (1 # 2))%Q)
  /\ (forall s s', (20000 < s)%Z -> (s <= s')%Z -> (temp s' <= temp s)%Q)
  /\ (forall s, (1 # 2 <= temp s)%Q).
Proof.
  apply (quantizer_temperature_schedule
           (TransformerDiffusionWithQuantizer.init 20000 (999995 # 1000000)));
    simpl; unfold Qle; simpl; lia.
Defined.

(** ** Reasoning in the evaluation monad *)

Section MonadLemmas.
Context {A B : Type}.

Lemma bind_ok (m : M A) (k : A -> M B) (a : A) (n n' : nat) :
  m n = (Ok a, n') -> (m ≫= k) n = k a n'.
Proof. unfold mbind, M_bind. intros ->. reflexivity. Qed.

Lemma bind_raise (m : M A) (k : A -> M B) (e : exn) (n n' : nat) :
  m n = (Raise e, n') -> (m ≫= k) n = (Raise e, n').
Proof. unfold mbind, M_bind. intros ->. reflexivity. Qed.

Lemma returns_ret (a : A) : returns (mret a) a.
Proof. intros n. exists n. reflexivity. Qed.

Lemma returns_op (r : result A) (a : A) : r = Ok a -> returns (op r) a.
Proof. intros -> n. exists (S n). reflexivity. Qed.

Lemma returns_pure (r : result A) (a : A) : r = Ok a -> returns (pure r) a.
Proof. intros -> n. exists n. reflexivity. Qed.

Lemma returns_bind (m : M A) (k : A -> M B) (a : A) (b : B) :
  returns m a -> returns (k a) b -> returns (m ≫= k) b.
Proof.
  intros Hm Hk n. destruct (Hm n) as [n1 E1]. destruct (Hk n1) as [n2 E2].
  exists n2. rewrite (bind_ok _ _ _ _ _ E1). exact E2.
Qed.

Lemma returns_fmap (f : A -> B) (m : M A) (a : A) :
  returns m a -> returns (f <$> m) (f a).
Proof.
  intros Hm n. destruct (Hm n) as [n1 E1]. exists n1.
  unfold fmap, M_fmap. rewrite E1. reflexivity.
Qed.

Lemma returns_checkpoint (m : M A) (a : A) : returns m a -> returns (checkpoint m) a.
Proof. exact (fun H => H). Qed.

Lemma returns_inj (m : M A) (a a' : A) : returns m a -> returns m a' -> a = a'.
Proof.
  intros H H'. destruct (H 0) as [n1 E1]. destruct (H' 0) as [n2 E2].
  congruence.
Qed.

Lemma no_assertion_error_ret (a : A) : no_assertion_error (mret a).
Proof. intros n msg. discriminate. Qed.

Lemma no_assertion_error_op (r : result A) :
  (forall msg, r <> Raise (AssertionError msg)) -> no_assertion_error (op r).
Proof. intros H n msg. apply H. Qed.

Lemma no_assertion_error_pure (r : result A) :
  (forall msg, r <> Raise (AssertionError msg)) -> no_assertion_error (pure r).
Proof. intros H n msg. apply H. Qed.

Lemma no_assertion_error_bind (m : M A) (k : A -> M B) :
  no_assertion_error m -> (forall a, no_assertion_error (k a)) ->
  no_assertion_error (m ≫= k).
Proof.
  intros Hm Hk n msg. unfold mbind, M_bind.
  specialize (Hm n msg). destruct (m n) as [[a|e] n1]; simpl in *.
  - apply Hk.
  - intros E. apply Hm. congruence.
Qed.

Lemma no_assertion_error_fmap (f : A -> B) (m : M A) :
  no_assertion_error m -> no_assertion_error (f <$> m).
Proof.
  intros Hm n msg. unfold fmap, M_fmap.
  specialize (Hm n msg). destruct (m n) as [[a|e] n1]; simpl in *.
  - discriminate.
  - intros E. apply Hm. congruence.
Qed.

End MonadLemmas.

(** ** The argument check of [forward] *)

Section ArgumentCheck.
Context {R : Type} {SR : Scalar R} {EX : Externals R}.

(** No tensor operation of the model raises an [AssertionError]: they fail
    with shape, index, type or attribute errors. *)
Ltac prim_na :=
  intros;
  unfold Torch.shape_at, Torch.shape_last, Torch.mean, Torch.add,
    Torch.add_number, Torch.mul_number, Torch.permute021, Torch.cat2_last,
    Torch.slice_last_from, Torch.repeat_, Torch.rand, Torch.lt_number,
    Torch.where_, Torch.interpolate_nearest, Torch.pointwise,
    Torch.timestep_embedding, Linear.forward, Conv1d.forward, LayerNorm.forward,
    Attention.forward, RMSScaleShiftNorm.forward, Encoder.forward,
    RotaryEmbedding.forward, GroupNorm.forward, getattr,
    TransformerDiffusion.call_linear, TransformerDiffusion.shape0_opt in *;
  repeat case_match; congruence.

Lemma cat_last_from_na (ts : list (tensor R)) (acc : tensor R) (msg : string) :
  Torch.cat_last_from acc ts <> Raise (AssertionError msg).
Proof.
  revert acc. induction ts as [|t ts IH]; intros acc; simpl; [discriminate|].
  unfold mbind, result_bind.
  destruct (Torch.cat2_last acc t) eqn:E; [apply IH|].
  intros E'. revert E. prim_na.
Qed.

Lemma cat_last_na (ts : list (tensor R)) (msg : string) :
  Torch.cat_last ts <> Raise (AssertionError msg).
Proof.
  unfold Torch.cat_last. repeat case_match; try discriminate; apply cat_last_from_na.
Qed.

Ltac na_step :=
  first
    [ apply no_assertion_error_ret
    | apply no_assertion_error_bind; [|intros ?]
    | apply no_assertion_error_fmap
    | apply no_assertion_error_op; first [apply cat_last_na | prim_na]
    | apply no_assertion_error_pure; first [apply cat_last_na | prim_na] ].

Lemma SubBlock_forward_na (b : SubBlock.t R) (x rotary_emb : tensor R) :
  no_assertion_error (SubBlock.forward b x rotary_emb).
Proof. unfold SubBlock.forward, checkpoint. repeat na_step. Qed.

Lemma ConcatAttentionBlock_forward_na (l : ConcatAttentionBlock.t R)
    (x emb rotary_emb : tensor R) :
  no_assertion_error (ConcatAttentionBlock.forward l x emb rotary_emb).
Proof.
  unfold ConcatAttentionBlock.forward.
  repeat first [apply SubBlock_forward_na | na_step].
Qed.

Lemma run_layers_na (ls : list (ConcatAttentionBlock.t R)) (x emb rotary_emb : tensor R) :
  no_assertion_error (TransformerDiffusion.run_layers ls x emb rotary_emb).
Proof.
  revert x. induction ls as [|l ls IH]; intros x; simpl.
  - apply no_assertion_error_ret.
  - apply no_assertion_error_bind; [apply ConcatAttentionBlock_forward_na|].
    intros y. apply IH.
Qed.

Lemma sum_means_na (ps : list (tensor R)) (acc : pyvalue R) :
  no_assertion_error (TransformerDiffusion.sum_means acc ps).
Proof.
  revert acc. induction ps as [|p ps IH]; intros acc; simpl.
  - apply no_assertion_error_ret.
  - apply no_assertion_error_bind; [|intros a; apply IH].
    unfold TransformerDiffusion.add_mean. na_step; [na_step|].
    destruct acc; repeat na_step.
Qed.

Lemma timestep_independent_na (self : TransformerDiffusion.t R) (draw : index -> R)
    (prior : option (tensor R)) (n : nat) :
  no_assertion_error (TransformerDiffusion.timestep_independent self draw prior n).
Proof.
  unfold TransformerDiffusion.timestep_independent.
  repeat first [na_step | case_match].
Qed.

Lemma trunk_na (self : TransformerDiffusion.t R) (x ts code_emb : tensor R)
    (unused : list (tensor R)) :
  no_assertion_error (TransformerDiffusion.trunk self x ts code_emb unused).
Proof.
  unfold TransformerDiffusion.trunk, TransformerDiffusion.time_embed_forward,
    TransformerDiffusion.out_forward, TransformerDiffusion.add_zero_weighted.
  repeat first [apply run_layers_na | apply sum_means_na | na_step | case_match].
Qed.

End ArgumentCheck.

Section ForwardArguments.
Context {R : Type} {SR : Scalar R} {EX : Externals R}.
Implicit Types (self : TransformerDiffusion.t R) (draw : index -> R).
Implicit Types (x timesteps : tensor R) (codes ci pce : option (tensor R)).

Lemma conditioning_rejects self draw x codes ci pce cf n :
  pce <> None -> codes <> None \/ ci <> None ->
  TransformerDiffusion.conditioning self draw x codes ci pce cf n
  = (Raise (AssertionError TransformerDiffusion.assert_msg), n).
Proof.
  intros Hp Hc. unfold TransformerDiffusion.conditioning.
  rewrite bool_decide_true by exact Hp.
  assert (bool_decide (codes = None) && bool_decide (ci = None) = false) as ->.
  { destruct Hc as [Hc|Hc]; [rewrite (bool_decide_false _ Hc)
                            |rewrite (bool_decide_false _ Hc), andb_false_r];
      reflexivity. }
  reflexivity.
Qed.

Lemma conditioning_free_eq self draw x codes ci pce n :
  TransformerDiffusion.arguments_ok codes ci pce ->
  TransformerDiffusion.conditioning self draw x codes ci pce true n
  = TransformerDiffusion.conditioning self draw x None None None true n.
Proof.
  intros [->|[-> ->]]; unfold TransformerDiffusion.conditioning.
  - reflexivity.
  - destruct pce; reflexivity.
Qed.

End ForwardArguments.

(** C1.  A call of [forward] that passes precomputed code embeddings together
    with codes or a conditioning input ends with the [AssertionError] of the
    argument check and has executed no tensor operation; a call without
    precomputed embeddings never ends with an [AssertionError], whatever the
    other arguments are. *)
Theorem forward_argument_check {R : Type} {SR : Scalar R} {EX : Externals R}
    (self : TransformerDiffusion.t R) (draw : index -> R) (x timesteps : tensor R)
    (codes conditioning_input precomputed_code_embeddings : option (tensor R))
    (conditioning_free : bool) (n : nat) :
  (precomputed_code_embeddings <> None ->
   codes <> None \/ conditioning_input <> None ->
   TransformerDiffusion.forward self draw x timesteps codes conditioning_input
     precomputed_code_embeddings conditioning_free n
   = (Raise (AssertionError TransformerDiffusion.assert_msg), n))
  /\ (precomputed_code_embeddings = None ->
      forall msg,
        (TransformerDiffusion.forward self draw x timesteps codes conditioning_input
           precomputed_code_embeddings conditioning_free n).1
        <> Raise (AssertionError msg)).
Proof.
  split.
  - intros Hp Hc. unfold TransformerDiffusion.forward.
    apply bind_raise. apply conditioning_rejects; assumption.
  - intros -> msg. revert n msg.
    change (no_assertion_error
              (TransformerDiffusion.forward self draw x timesteps codes
                 conditioning_input None conditioning_free)).
    unfold TransformerDiffusion.forward.
    apply no_assertion_error_bind; [|intros cu; apply trunk_na].
    unfold TransformerDiffusion.conditioning.
    rewrite bool_decide_false by (intros H; apply H; reflexivity).
    apply no_assertion_error_bind; [apply no_assertion_error_ret|intros _].
    destruct conditioning_free.
    + repeat first
        [ apply no_assertion_error_ret
        | apply no_assertion_error_bind; [|intros ?]
        | apply no_assertion_error_op
        | apply no_assertion_error_pure ];
        intros msg; unfold Torch.shape_at, Torch.shape_last, Torch.repeat_;
        repeat case_match; congruence.
    + apply no_assertion_error_bind; [|intros ?; apply no_assertion_error_ret].
      apply no_assertion_error_bind;
        [apply no_assertion_error_pure|intros ?; apply timestep_independent_na].
      intros msg; unfold Torch.shape_last; repeat case_match; congruence.
Qed.

(** The check on the small model: codes together with precomputed embeddings
    are rejected at once; codes alone are not. *)
Lemma forward_argument_check_witness :
  let x := Example.full [2; 2; 5] 3%Z in
  let timesteps := Example.full [2] 7%Z in
  let codes := Example.full [2; 3; 2] 1%Z in
  let emb := Example.full [2; 5; 2] 1%Z in
  TransformerDiffusion.forward Example.model (fun _ => 0%Z) x timesteps
    (Some codes) None (Some emb) false 0
  = (Raise (AssertionError TransformerDiffusion.assert_msg), 0)
  /\ forall msg,
       (TransformerDiffusion.forward Example.model (fun _ => 0%Z) x timesteps
          (Some codes) None None false 0).1
       <> Raise (AssertionError msg).
Proof.
  intros x timesteps codes emb. split.
  - apply (forward_argument_check Example.model (fun _ => 0%Z) x timesteps
             (Some codes) None (Some emb) false 0).
    + discriminate.
    + left. discriminate.
  - apply (forward_argument_check Example.model (fun _ => 0%Z) x timesteps
             (Some codes) None None false 0).
    reflexivity.
Defined.

(** C4, as the code has it.  Two calls of [forward] with
    [conditioning_free=True] on the same model, input and timesteps, each of
    which passes the argument check, behave identically whatever codes,
    conditioning input, precomputed embeddings and random draws they are
    given: same output, same number of tensor operations. *)
Theorem conditioning_free_ignores_codes {R : Type} {SR : Scalar R} {EX : Externals R}
    (self : TransformerDiffusion.t R) (draw1 draw2 : index -> R) (x timesteps : tensor R)
    (codes1 ci1 pce1 codes2 ci2 pce2 : option (tensor R)) (n : nat) :
  TransformerDiffusion.arguments_ok codes1 ci1 pce1 ->
  TransformerDiffusion.arguments_ok codes2 ci2 pce2 ->
  TransformerDiffusion.forward self draw1 x timesteps codes1 ci1 pce1 true n
  = TransformerDiffusion.forward self draw2 x timesteps codes2 ci2 pce2 true n.
Proof.
  intros H1 H2. unfold TransformerDiffusion.forward, mbind, M_bind.
  rewrite (conditioning_free_eq self draw1 x codes1 ci1 pce1 n H1).
  rewrite (conditioning_free_eq self draw2 x codes2 ci2 pce2 n H2).
  reflexivity.
Qed.

Lemma conditioning_free_ignores_codes_witness :
  let x := Example.full [2; 2; 5] 3%Z in
  let timesteps := Example.full [2] 7%Z in
  TransformerDiffusion.forward Example.model (fun _ => 0%Z) x timesteps
    (Some (Example.full [2; 3; 2] 1%Z)) None None true 0
  = TransformerDiffusion.forward Example.model (fun _ => 5%Z) x timesteps
      None None (Some (Example.full [2; 5; 2] 9%Z)) true 0.
Proof.
  intros x timesteps.
  apply (conditioning_free_ignores_codes Example.model (fun _ => 0%Z) (fun _ => 5%Z)
           x timesteps (Some (Example.full [2; 3; 2] 1%Z)) None None
           None None (Some (Example.full [2; 5; 2] 9%Z)) 0).
  - left. reflexivity.
  - right. split; reflexivity.
Defined.

(** C4 as stated fails: two calls with [conditioning_free=True] that agree on
    the model, the input and the timesteps and differ only in the precomputed
    embeddings; the first returns a tensor, the second is rejected by the
    argument check. *)
Lemma conditioning_free_counterexample :
  let x := Example.full [2; 2; 5] 3%Z in
  let timesteps := Example.full [2] 7%Z in
  let codes := Some (Example.full [2; 3; 2] 1%Z) in
  let emb := Some (Example.full [2; 5; 2] 1%Z) in
  let call1 := TransformerDiffusion.forward Example.model (fun _ => 0%Z) x timesteps
                 codes None None true in
  let call2 := TransformerDiffusion.forward Example.model (fun _ => 0%Z) x timesteps
                 codes None emb true in
  is_ok (run call1) = true
  /\ run call2 = Raise (AssertionError TransformerDiffusion.assert_msg)
  /\ run call1 <> run call2.
Proof.
  intros x timesteps codes emb call1 call2.
  assert (E1 : is_ok (run call1) = true) by (vm_compute; reflexivity).
  assert (E2 : run call2 = Raise (AssertionError TransformerDiffusion.assert_msg))
    by reflexivity.
  split; [exact E1|]. split; [exact E2|].
  intros E. rewrite E in E1. clearbody call1 call2. rewrite E2 in E1.
  simpl in E1. discriminate E1.
Qed.

(** C2 on the code.  A call with [conditioning_free=True] on the small model
    returns; its [unused_params] is empty; and no parameter of
    [input_converter] or [code_converter], which the call leaves unused, is
    reached from the output: the output carries no term, zero-weighted or
    not, derived from them. *)
Lemma conditioning_free_omits_code_converters :
  let x := Example.full [2; 2; 5] 3%Z in
  let timesteps := Example.full [2] 7%Z in
  let codes := Some (Example.full [2; 3; 2] 1%Z) in
  let converters :=
    Torch.names
      (TransformerDiffusion.opt_parameters Linear.parameters
         (TransformerDiffusion.input_converter Example.model)
       ++ TransformerDiffusion.opt_parameters Encoder.parameters
            (TransformerDiffusion.code_converter Example.model)) in
  let call := TransformerDiffusion.forward Example.model (fun _ => 0%Z) x timesteps
                codes None None true in
  converters <> []
  /\ Forall (fun p => p ∈ Torch.names (TransformerDiffusion.parameters Example.model))
            converters
  /\ run (snd <$> TransformerDiffusion.conditioning Example.model (fun _ => 0%Z) x
                    codes None None true) = Ok []
  /\ is_ok (run call) = true
  /\ forall out, run call = Ok out -> Forall (fun p => p ∉ leaves out) converters.
Proof.
  intros x timesteps codes converters call. split; [|split; [|split; [|split]]].
  - vm_compute. discriminate.
  - apply (bool_decide_unpack _). vm_compute. exact I.
  - vm_compute. reflexivity.
  - vm_compute. reflexivity.
  - intros out E.
    assert (H : match run call with
                | Ok t => forallb (fun p => bool_decide (p ∉ leaves t)) converters
                | Raise _ => false
                end = true) by (vm_compute; reflexivity).
    rewrite E in H. apply Forall_forall. intros p Hp.
    apply Is_true_true in H. rewrite forallb_True in H.
    rewrite Forall_forall in H. apply H in Hp.
    apply bool_decide_unpack in Hp. exact Hp.
Qed.

(** ** The constructor and [freeze_except_code_converters] *)

Section Freeze.
Context {R : Type} {SR : Scalar R} {EX : Externals R}.
Implicit Types (rnd : string -> index -> R) (kw : TransformerDiffusion.kwargs R).
Implicit Types (st : ParamAttrs.store) (p q : string).

Lemma names_register rnd (prefix : string) (specs : list (string * list nat)) :
  Torch.names (Torch.register rnd prefix specs)
  = (fun ns => prefix +:+ "." +:+ ns.1) <$> specs.
Proof.
  unfold Torch.names, Torch.register.
  induction specs as [|ns specs IH]; [reflexivity|].
  simpl. rewrite elements_singleton. simpl. f_equal. exact IH.
Qed.

Lemma names_app (ps qs : list (tensor R)) :
  Torch.names (ps ++ qs) = Torch.names ps ++ Torch.names qs.
Proof. unfold Torch.names. apply bind_app. Qed.

Lemma names_Linear_init rnd (name : string) (i o : nat) :
  Torch.names (Linear.parameters (Linear.init rnd name i o true))
  = [name +:+ ".weight"; name +:+ ".bias"].
Proof.
  unfold Torch.names, Linear.parameters, Linear.init. simpl.
  rewrite !elements_singleton. reflexivity.
Qed.

Lemma NoDup_prefixed (prefix : string) (l : list string) :
  NoDup l -> NoDup ((fun s => prefix +:+ s) <$> l).
Proof.
  intros H. apply NoDup_fmap_2; [|exact H].
  intros a b E. induction prefix as [|c prefix IH]; simpl in E; [exact E|].
  injection E as E. apply IH. exact E.
Qed.

Lemma elem_of_snoc (ps : list string) p q : p ∈ ps ++ [q] <-> p ∈ ps \/ p = q.
Proof.
  rewrite elem_of_app, elem_of_cons. split; intros [H|H]; auto.
  destruct H as [H|H]; [auto|]. by apply not_elem_of_nil in H.
Qed.

Lemma get_set_requires_grad st p q (v : bool) :
  ParamAttrs.get (ParamAttrs.set_requires_grad p v st) q
  = if decide (p = q)
    then {| ParamAttrs.requires_grad := v;
            ParamAttrs.DO_NOT_TRAIN := ParamAttrs.DO_NOT_TRAIN (ParamAttrs.get st p) |}
    else ParamAttrs.get st q.
Proof.
  unfold ParamAttrs.get at 1. unfold ParamAttrs.set_requires_grad.
  destruct (decide (p = q)) as [->|Hne].
  - by rewrite lookup_insert_eq.
  - by rewrite lookup_insert_ne.
Qed.

Lemma get_set_DO_NOT_TRAIN st p q (v : bool) :
  ParamAttrs.get (ParamAttrs.set_DO_NOT_TRAIN p v st) q
  = if decide (p = q)
    then {| ParamAttrs.requires_grad := ParamAttrs.requires_grad (ParamAttrs.get st p);
            ParamAttrs.DO_NOT_TRAIN := Some v |}
    else ParamAttrs.get st q.
Proof.
  unfold ParamAttrs.get at 1. unfold ParamAttrs.set_DO_NOT_TRAIN.
  destruct (decide (p = q)) as [->|Hne].
  - by rewrite lookup_insert_eq.
  - by rewrite lookup_insert_ne.
Qed.

(** The first loop leaves every listed parameter frozen and touches no other. *)
Lemma get_freeze (ps : list string) st p :
  ParamAttrs.get (TransformerDiffusion.freeze ps st) p
  = if decide (p ∈ ps) then ParamAttrs.frozen else ParamAttrs.get st p.
Proof.
  unfold TransformerDiffusion.freeze. revert st.
  induction ps as [|q ps IH] using rev_ind; intros st.
  - cbn [foldl]. destruct (decide (p ∈ [])) as [H|H]; [|reflexivity].
    by apply not_elem_of_nil in H.
  - rewrite foldl_app. cbn [foldl].
    rewrite get_set_requires_grad.
    destruct (decide (q = p)) as [->|Hne].
    + rewrite get_set_DO_NOT_TRAIN, decide_True by reflexivity.
      rewrite decide_True; [reflexivity|]. apply elem_of_snoc. auto.
    + rewrite get_set_DO_NOT_TRAIN, decide_False by exact Hne.
      rewrite IH. destruct (decide (p ∈ ps)) as [Hin|Hin].
      * rewrite decide_True; [reflexivity|]. apply elem_of_snoc. auto.
      * rewrite decide_False; [reflexivity|].
        rewrite elem_of_snoc. intros [H|H]; [auto|]. apply Hne. by symmetry.
Qed.

(** The second loop succeeds on distinct parameters that carry the marker,
    makes each of them trainable and touches no other. *)
Lemma unfreeze_spec (ps : list string) st :
  NoDup ps ->
  (forall p, p ∈ ps -> ParamAttrs.DO_NOT_TRAIN (ParamAttrs.get st p) <> None) ->
  exists st',
    TransformerDiffusion.unfreeze ps st = Ok st'
    /\ forall p, ParamAttrs.get st' p
                 = if decide (p ∈ ps) then ParamAttrs.trainable else ParamAttrs.get st p.
Proof.
  revert st. induction ps as [|q ps IH]; intros st Hnd Hset.
  - exists st. split; [reflexivity|]. intros p.
    destruct (decide (p ∈ [])) as [H|H]; [|reflexivity].
    by apply not_elem_of_nil in H.
  - apply NoDup_cons in Hnd as [Hq Hnd]. cbn [TransformerDiffusion.unfreeze].
    unfold ParamAttrs.del_DO_NOT_TRAIN.
    destruct (ParamAttrs.DO_NOT_TRAIN (ParamAttrs.get st q)) eqn:Eq.
    2:{ exfalso. apply (Hset q); [apply elem_of_cons; auto|exact Eq]. }
    cbn [mbind result_bind].
    set (st1 := ParamAttrs.set_requires_grad q true _).
    assert (G1 : forall p, ParamAttrs.get st1 p
                           = if decide (q = p) then ParamAttrs.trainable
                             else ParamAttrs.get st p).
    { intros p. subst st1. rewrite get_set_requires_grad.
      destruct (decide (q = p)) as [->|Hne].
      - unfold ParamAttrs.get at 1. rewrite lookup_insert_eq. reflexivity.
      - unfold ParamAttrs.get at 1. rewrite lookup_insert_ne by exact Hne. reflexivity. }
    destruct (IH st1 Hnd) as (st' & E & G).
    { intros p Hp. rewrite G1. rewrite decide_False by (intros ->; contradiction).
      apply Hset. apply elem_of_cons. auto. }
    exists st'. split; [exact E|]. intros p. rewrite G, G1.
    destruct (decide (p ∈ ps)) as [Hin|Hin].
    + rewrite decide_True; [reflexivity|]. apply elem_of_cons. auto.
    + destruct (decide (q = p)) as [->|Hne].
      * rewrite decide_True; [reflexivity|]. apply elem_of_cons. auto.
      * rewrite decide_False; [reflexivity|].
        rewrite elem_of_cons. intros [H|H]; [|auto]. apply Hne. by symmetry.
Qed.

Lemma SubBlock_init_ok rnd (name : string) (inp_dim c heads : nat) :
  heads <> 0 ->
  SubBlock.__init__ rnd name inp_dim c heads
  = Ok {| SubBlock.attn := Attention.init rnd (name +:+ ".attn") inp_dim c heads (c / heads);
          SubBlock.attnorm := LayerNorm.init rnd (name +:+ ".attnorm") c;
          SubBlock.ff := Conv1d.init rnd (name +:+ ".ff") (inp_dim + c) c 3 1;
          SubBlock.ffnorm := LayerNorm.init rnd (name +:+ ".ffnorm") c |}.
Proof.
  intros Hh. unfold SubBlock.__init__, py_floordiv.
  rewrite decide_False by exact Hh. reflexivity.
Qed.

Lemma ConcatAttentionBlock_init_ok rnd (name : string) (m c e heads : nat) :
  heads <> 0 ->
  exists b1 b2,
    SubBlock.__init__ rnd (name +:+ ".block1") m c heads = Ok b1
    /\ SubBlock.__init__ rnd (name +:+ ".block2") (m + c * 2) c heads = Ok b2
    /\ ConcatAttentionBlock.__init__ rnd name m c e heads
       = Ok {| ConcatAttentionBlock.prenorm :=
                 RMSScaleShiftNorm.init rnd (name +:+ ".prenorm") m e;
               ConcatAttentionBlock.block1 := b1;
               ConcatAttentionBlock.block2 := b2;
               ConcatAttentionBlock.out :=
                 Linear.zero_weight (Linear.init rnd (name +:+ ".out") (c * 4) m false) |}.
Proof.
  intros Hh. unfold ConcatAttentionBlock.__init__.
  rewrite !SubBlock_init_ok by exact Hh.
  eexists _, _. split; [reflexivity|]. split; reflexivity.
Qed.

Lemma make_layers_ok rnd kw (i n : nat) :
  TransformerDiffusion.kw_num_heads kw <> 0 ->
  exists ls, TransformerDiffusion.make_layers rnd kw i n = Ok ls.
Proof.
  intros Hh. revert i. induction n as [|n IH]; intros i; simpl.
  - eexists. reflexivity.
  - destruct (ConcatAttentionBlock_init_ok rnd ("layers." +:+ pretty i)
                (TransformerDiffusion.kw_model_channels kw)
                (TransformerDiffusion.kw_contraction_dim kw)
                (TransformerDiffusion.kw_time_embed_dim kw) _ Hh)
      as (b1 & b2 & _ & _ & ->).
    destruct (IH (S i)) as [ls ->]. eexists. reflexivity.
Qed.

End Freeze.

(** C9.  Built with [freeze_except_code_converters=True] and [ar_prior=False]
    (and a non-zero number of heads, an encoder that registers each of its
    parameters once), the constructor returns a model in which a parameter
    has [requires_grad=True] exactly when it belongs to [code_converter]; the
    parameters of [input_converter], its weight and its bias, still have
    [requires_grad=False] and [DO_NOT_TRAIN=True]. *)
Theorem freeze_unfreezes_code_converter_only {R : Type} {SR : Scalar R} {EX : Externals R}
    (rnd : string -> index -> R) (kw : TransformerDiffusion.kwargs R) :
  TransformerDiffusion.kw_freeze_except_code_converters kw = true ->
  TransformerDiffusion.kw_ar_prior kw = false ->
  TransformerDiffusion.kw_num_heads kw <> 0 ->
  NoDup (encoder_params (TransformerDiffusion.kw_prenet_channels kw)
           (TransformerDiffusion.kw_prenet_layers kw)
           (TransformerDiffusion.kw_prenet_channels kw / 64)).*1 ->
  exists self lin enc,
    TransformerDiffusion.__init__ rnd kw = Ok self
    /\ TransformerDiffusion.input_converter self = Some lin
    /\ TransformerDiffusion.code_converter self = Some enc
    /\ (forall p, p ∈ Torch.names (TransformerDiffusion.parameters self) ->
          ParamAttrs.requires_grad (ParamAttrs.get (TransformerDiffusion.attrs self) p) = true
          <-> p ∈ Torch.names (Encoder.parameters enc))
    /\ Torch.names (Linear.parameters lin)
       = ["input_converter.weight"; "input_converter.bias"]
    /\ Forall (fun p =>
                 p ∈ Torch.names (TransformerDiffusion.parameters self)
                 /\ ParamAttrs.get (TransformerDiffusion.attrs self) p = ParamAttrs.frozen)
              (Torch.names (Linear.parameters lin)).
Proof.
  intros Hf Har Hh Hnd.
  destruct (make_layers_ok rnd kw 0 (TransformerDiffusion.kw_num_layers kw) Hh) as [ls Els].
  unfold TransformerDiffusion.__init__.
  rewrite Hf. unfold py_floordiv. rewrite decide_False by discriminate.
  cbn [mbind result_bind mret result_ret]. rewrite Els.
  cbn [mbind result_bind mret result_ret].
  set (self0 := TransformerDiffusion.assign rnd kw _ ls).
  set (lin := Linear.init rnd "input_converter" (TransformerDiffusion.kw_input_vec_dim kw)
                (TransformerDiffusion.kw_prenet_channels kw) true).
  set (enc := Encoder.init rnd "code_converter" (TransformerDiffusion.kw_prenet_channels kw)
                (TransformerDiffusion.kw_prenet_layers kw)
                (TransformerDiffusion.kw_prenet_channels kw / 64)).
  assert (Elin : TransformerDiffusion.input_converter self0 = Some lin).
  { subst self0. unfold TransformerDiffusion.assign. simpl. rewrite Har. reflexivity. }
  assert (Eenc : TransformerDiffusion.code_converter self0 = Some enc).
  { subst self0. unfold TransformerDiffusion.assign. simpl. rewrite Har. reflexivity. }
  rewrite Elin, Eenc.
  cbn [getattr mbind result_bind mret result_ret fmap result_fmap
       TransformerDiffusion.py_and TransformerDiffusion.truthy
       TransformerDiffusion.unfreeze_modules TransformerDiffusion.submodule_parameters].
  set (all := Torch.names (TransformerDiffusion.parameters self0)).
  set (cc := Torch.names (Encoder.parameters enc)).
  assert (Ecc : cc = (fun s => "code_converter." +:+ s)
                     <$> (encoder_params (TransformerDiffusion.kw_prenet_channels kw)
                            (TransformerDiffusion.kw_prenet_layers kw)
                            (TransformerDiffusion.kw_prenet_channels kw / 64)).*1).
  { subst cc enc. unfold Encoder.parameters, Encoder.init. simpl.
    rewrite names_register. rewrite <- list_fmap_compose. reflexivity. }
  assert (Hsub : forall p, p ∈ cc -> p ∈ all).
  { intros p Hp. subst all. unfold TransformerDiffusion.parameters.
    rewrite Eenc. rewrite !names_app. cbn [TransformerDiffusion.opt_parameters from_option].
    fold cc. rewrite !elem_of_app. tauto. }
  assert (Hlin : Torch.names (Linear.parameters lin)
                 = ["input_converter.weight"; "input_converter.bias"]).
  { subst lin. apply names_Linear_init. }
  assert (Hlin_all : forall p, p ∈ Torch.names (Linear.parameters lin) -> p ∈ all).
  { intros p Hp. subst all. unfold TransformerDiffusion.parameters.
    rewrite Elin. rewrite !names_app. cbn [TransformerDiffusion.opt_parameters from_option].
    rewrite !elem_of_app. tauto. }
  assert (Hlin_cc : forall p, p ∈ Torch.names (Linear.parameters lin) -> p ∉ cc).
  { intros p Hp Hc. rewrite Hlin in Hp. rewrite Ecc in Hc.
    apply list_elem_of_fmap in Hc as (s & -> & _).
    apply elem_of_cons in Hp as [Hp|Hp]; [discriminate Hp|].
    apply elem_of_cons in Hp as [Hp|Hp]; [discriminate Hp|].
    by apply not_elem_of_nil in Hp. }
  destruct (unfreeze_spec cc
              (TransformerDiffusion.freeze all (ParamAttrs.of_names all)))
    as (st & Est & Hst).
  { rewrite Ecc. apply NoDup_prefixed. exact Hnd. }
  { intros p Hp. rewrite get_freeze. rewrite decide_True by (apply Hsub; exact Hp).
    discriminate. }
  rewrite Est. cbn [mbind result_bind mret result_ret].
  exists (TransformerDiffusion.set_attrs self0 st), lin, enc.
  split; [reflexivity|]. split; [exact Elin|]. split; [exact Eenc|].
  change (TransformerDiffusion.attrs (TransformerDiffusion.set_attrs self0 st)) with st.
  change (TransformerDiffusion.parameters (TransformerDiffusion.set_attrs self0 st))
    with (TransformerDiffusion.parameters self0).
  fold all cc. clearbody all cc self0 lin enc.
  split; [|split; [exact Hlin|]].
  - intros p Hp. rewrite Hst, get_freeze. rewrite (decide_True _ _ Hp).
    destruct (decide (p ∈ cc)) as [Hc|Hc];
      unfold ParamAttrs.trainable, ParamAttrs.frozen; cbn [ParamAttrs.requires_grad].
    + split; [intros _; exact Hc|reflexivity].
    + split; [discriminate|intros Hc'; contradiction].
  - apply Forall_forall. intros p Hp.
    split; [apply Hlin_all; exact Hp|].
    rewrite Hst, get_freeze. rewrite decide_False by (apply Hlin_cc; exact Hp).
    rewrite decide_True by (apply Hlin_all; exact Hp). reflexivity.
Qed.

Lemma freeze_unfreezes_code_converter_only_witness :
  exists self lin enc,
    TransformerDiffusion.__init__ Example.rnd Example.kwargs_frozen = Ok self
    /\ TransformerDiffusion.input_converter self = Some lin
    /\ TransformerDiffusion.code_converter self = Some enc
    /\ (forall p, p ∈ Torch.names (TransformerDiffusion.parameters self) ->
          ParamAttrs.requires_grad (ParamAttrs.get (TransformerDiffusion.attrs self) p) = true
          <-> p ∈ Torch.names (Encoder.parameters enc))
    /\ Torch.names (Linear.parameters lin)
       = ["input_converter.weight"; "input_converter.bias"]
    /\ Forall (fun p =>
                 p ∈ Torch.names (TransformerDiffusion.parameters self)
                 /\ ParamAttrs.get (TransformerDiffusion.attrs self) p = ParamAttrs.frozen)
              (Torch.names (Linear.parameters lin)).
Proof.
  apply (freeze_unfreezes_code_converter_only Example.rnd Example.kwargs_frozen).
  - reflexivity.
  - reflexivity.
  - discriminate.
  - apply (bool_decide_unpack _). vm_compute. exact I.
Defined.

(** ** The multi-codec wrapper *)

Section MultiCodec.
Context {R : Type} {SR : Scalar R} {EX : Externals R}.
Implicit Types (t acc : tensor R) (ts : list (tensor R)).

Lemma cat2_last_3d (a b : tensor R) (n m da db : nat) :
  shape a = [n; m; da] -> shape b = [n; m; db] ->
  exists y, Torch.cat2_last a b = Ok y
    /\ shape y = [n; m; da + db]
    /\ forall i j f, data y [i; j; f]
                     = if decide (f < da) then data a [i; j; f] else data b [i; j; f - da].
Proof.
  intros Ha Hb. unfold Torch.cat2_last. rewrite Ha, Hb. simpl.
  rewrite decide_True by reflexivity.
  eexists. split; [reflexivity|]. split; [reflexivity|].
  intros i j f. reflexivity.
Qed.

Lemma cat_last_from_spec ts : forall acc (n m w d : nat),
  shape acc = [n; m; w] ->
  Forall (fun t => shape t = [n; m; d]) ts ->
  exists y, Torch.cat_last_from acc ts = Ok y
    /\ shape y = [n; m; w + length ts * d]
    /\ (forall i j f, f < w -> data y [i; j; f] = data acc [i; j; f])
    /\ (forall k tk i j f, ts !! k = Some tk -> f < d ->
          data y [i; j; w + k * d + f] = data tk [i; j; f]).
Proof.
  induction ts as [|t ts IH]; intros acc n m w d Hacc Hts.
  - exists acc. split; [reflexivity|]. split; [rewrite Hacc; f_equal; f_equal; f_equal; simpl; lia|].
    split; [reflexivity|]. intros k tk i j f Hk. discriminate Hk.
  - apply Forall_cons in Hts as [Ht Hts].
    destruct (cat2_last_3d acc t n m w d Hacc Ht) as (acc' & E & Hs & Hd).
    cbn [Torch.cat_last_from]. rewrite E. cbn [mbind result_bind].
    destruct (IH acc' n m (w + d) d Hs Hts) as (y & Ey & Hsy & Hlo & Hhi).
    exists y. split; [exact Ey|]. split; [rewrite Hsy; f_equal; f_equal; f_equal; simpl; lia|].
    split.
    + intros i j f Hf. rewrite Hlo by lia. rewrite Hd.
      rewrite decide_True by exact Hf. reflexivity.
    + intros k tk i j f Hk Hf. destruct k as [|k].
      * injection Hk as <-. replace (w + 0 * d + f) with (w + f) by lia.
        rewrite Hlo by lia. rewrite Hd. rewrite decide_False by lia.
        f_equal. f_equal. f_equal. f_equal. lia.
      * replace (w + S k * d + f) with (w + d + k * d + f) by lia.
        apply Hhi; assumption.
Qed.

Lemma cat_last_spec ts (n m d : nat) :
  ts <> [] ->
  Forall (fun t => shape t = [n; m; d]) ts ->
  exists y, Torch.cat_last ts = Ok y
    /\ shape y = [n; m; length ts * d]
    /\ (forall k tk i j f, ts !! k = Some tk -> f < d ->
          data y [i; j; k * d + f] = data tk [i; j; f]).
Proof.
  intros Hne Hts. destruct ts as [|t ts]; [contradiction|].
  apply Forall_cons in Hts as [Ht Hts].
  unfold Torch.cat_last. rewrite Ht.
  destruct (cat_last_from_spec ts t n m d d Ht Hts) as (y & Ey & Hsy & Hlo & Hhi).
  exists y. split; [exact Ey|]. split; [rewrite Hsy; reflexivity|].
  intros k tk i j f Hk Hf. destruct k as [|k].
  - injection Hk as <-. simpl. apply Hlo. exact Hf.
  - replace (S k * d + f) with (d + k * d + f) by lia. apply Hhi; assumption.
Qed.


(** The result of [p.permute(0,2,1)] for a three-axis [p]. *)
Lemma permute021_3d (p : tensor R) (a b c : nat) :
  shape p = [a; b; c] ->
  exists y, Torch.permute021 p = Ok y
    /\ shape y = [a; c; b]
    /\ leaves y = leaves p
    /\ forall i j k, data y [i; j; k] = data p [i; k; j].
Proof.
  intros Hp. unfold Torch.permute021. rewrite Hp.
  eexists. split; [reflexivity|]. repeat split.
Qed.

Lemma slice_dim1_3d (mel : tensor R) (b c n lo hi : nat) :
  shape mel = [b; c; n] -> lo <= hi -> hi <= c ->
  exists part, Torch.slice_dim1 mel lo hi = Ok part
    /\ shape part = [b; hi - lo; n]
    /\ leaves part = leaves mel
    /\ forall i j r, data part (i :: j :: r)
                     = if decide (j < hi - lo) then data mel (i :: (lo + j) :: r) else szero.
Proof.
  intros Hm Hlo Hhi. unfold Torch.slice_dim1. rewrite Hm.
  eexists. split; [reflexivity|].
  replace (Nat.min hi c) with hi by lia. replace (Nat.min lo c) with lo by lia.
  split; [reflexivity|]. split; [reflexivity|].
  intros i j r. cbn [data]. destruct (decide (j < hi - lo)); [|reflexivity].
  f_equal. f_equal. f_equal. lia.
Qed.

Section Partitions.
Variables (mel : tensor R) (b c n ps : nat).
Hypothesis Hmel : shape mel = [b; c; n].
Variables (P : nat -> tensor R) (b' d n' : nat).

Local Abbreviation band :=
  (TransformerDiffusionWithMultiPretrainedVqvae.mel_partition mel ps).

Lemma encode_partitions_spec (qs : list (nat * DiscreteVAE.t R)) :
  forall proj,
  (forall i q part, (i, q) ∈ qs -> band i = Ok part ->
     exists r, DiscreteVAE.infer q part = Ok (r, P i) /\ shape (P i) = [b'; d; n']) ->
  exists ys,
    returns (TransformerDiffusionWithMultiPretrainedVqvae.encode_partitions qs mel ps proj)
            (proj ++ ys)
    /\ length ys = length qs
    /\ forall k iq, qs !! k = Some iq ->
         exists y, ys !! k = Some y /\ shape y = [b'; n'; d]
           /\ forall i j f, data y [i; j; f] = data (P iq.1) [i; f; j].
Proof using Hmel.
  induction qs as [|[i q] qs IH]; intros proj Hq.
  - exists []. split; [rewrite app_nil_r; apply returns_ret|]. split; [reflexivity|].
    intros k iq Hk. discriminate Hk.
  - assert (exists part, band i = Ok part) as [part Epart].
    { unfold TransformerDiffusionWithMultiPretrainedVqvae.mel_partition, Torch.slice_dim1.
      rewrite Hmel. eexists. reflexivity. }
    destruct (Hq i q part) as (r & Einf & HP); [apply elem_of_cons; auto|exact Epart|].
    destruct (permute021_3d (P i) b' d n' HP) as (y & Ey & Hsy & _ & Hdy).
    destruct (IH (proj ++ [y])) as (ys & Hret & Hlen & Hys).
    { intros i' q' part' Hin. apply Hq. apply elem_of_cons. auto. }
    exists (y :: ys). split; [|split].
    + cbn [TransformerDiffusionWithMultiPretrainedVqvae.encode_partitions].
      eapply returns_bind; [apply returns_op; exact Epart|].
      eapply returns_bind; [apply returns_op; exact Einf|].
      eapply returns_bind; [apply returns_op; exact Ey|].
      rewrite <- app_assoc in Hret. exact Hret.
    + simpl. rewrite Hlen. reflexivity.
    + intros k iq Hk. destruct k as [|k].
      * injection Hk as <-. exists y. split; [reflexivity|]. split; [exact Hsy|exact Hdy].
      * apply Hys. exact Hk.
Qed.

End Partitions.

Lemma lookup_enumerate {A} (l : list A) (k : nat) (iq : nat * A) :
  TransformerDiffusionWithMultiPretrainedVqvae.enumerate l !! k = Some iq ->
  iq.1 = k /\ l !! k = Some iq.2.
Proof.
  unfold TransformerDiffusionWithMultiPretrainedVqvae.enumerate.
  intros H. apply lookup_zip_with_Some in H as (i & q & -> & Hi & Hq).
  apply lookup_seq in Hi as [-> _]. auto.
Qed.

Lemma elem_of_enumerate {A} (l : list A) (i : nat) (q : A) :
  (i, q) ∈ TransformerDiffusionWithMultiPretrainedVqvae.enumerate l -> l !! i = Some q.
Proof.
  intros H. apply list_elem_of_lookup in H as [k Hk].
  apply lookup_enumerate in Hk as [<- Hk]. exact Hk.
Qed.

Lemma length_enumerate {A} (l : list A) :
  length (TransformerDiffusionWithMultiPretrainedVqvae.enumerate l) = length l.
Proof.
  unfold TransformerDiffusionWithMultiPretrainedVqvae.enumerate.
  rewrite length_zip_with, length_seq. lia.
Qed.

Lemma lookup_enumerate_lt {A} (l : list A) (k : nat) :
  k < length l ->
  exists q, TransformerDiffusionWithMultiPretrainedVqvae.enumerate l !! k = Some (k, q).
Proof.
  intros Hk. destruct (lookup_lt_is_Some_2 l k Hk) as [q Hq]. exists q.
  unfold TransformerDiffusionWithMultiPretrainedVqvae.enumerate.
  apply lookup_zip_with_Some. exists k, q. split; [reflexivity|]. split; [|exact Hq].
  apply lookup_seq. split; [reflexivity|exact Hk].
Qed.

(** The codes computed by the wrapper: the projections of the codecs, each
    transposed, side by side along the last axis in the order of the codecs. *)
Lemma multi_codes_spec (self : TransformerDiffusionWithMultiPretrainedVqvae.t R)
    (mel : tensor R) (b c n : nat) (P : nat -> tensor R) (b' d n' : nat) :
  let qs := TransformerDiffusionWithMultiPretrainedVqvae.quantizers self in
  let ps := c / length qs in
  shape mel = [b; c; n] ->
  0 < length qs ->
  (forall i q part,
     qs !! i = Some q ->
     TransformerDiffusionWithMultiPretrainedVqvae.mel_partition mel ps i = Ok part ->
     exists r, DiscreteVAE.infer q part = Ok (r, P i) /\ shape (P i) = [b'; d; n']) ->
  exists proj,
    returns (TransformerDiffusionWithMultiPretrainedVqvae.codes self mel) proj
    /\ shape proj = [b'; n'; length qs * d]
    /\ leaves proj = ∅
    /\ forall i, i < length qs -> forall k j f, f < d ->
         data proj [k; j; i * d + f] = data (P i) [k; f; j].
Proof.
  intros qs ps Hmel HN Hcodec.
  destruct (encode_partitions_spec mel b c n ps Hmel P b' d n'
              (TransformerDiffusionWithMultiPretrainedVqvae.enumerate qs) [])
    as (ys & Hret & Hlen & Hys).
  { intros i q part Hin. apply Hcodec. apply elem_of_enumerate. exact Hin. }
  rewrite length_enumerate in Hlen.
  assert (Hshapes : Forall (fun t => shape t = [b'; n'; d]) ys).
  { apply Forall_lookup. intros k y Hy.
    assert (Hk : k < length qs) by (rewrite <- Hlen; eapply lookup_lt_Some; exact Hy).
    destruct (lookup_enumerate_lt qs k Hk) as [q Hq].
    destruct (Hys k (k, q) Hq) as (y' & Hy' & Hs & _). congruence. }
  destruct (cat_last_spec ys b' n' d) as (cat & Ecat & Hscat & Hdcat).
  { intros ->. simpl in Hlen. lia. }
  { exact Hshapes. }
  exists (TransformerDiffusionWithMultiPretrainedVqvae.no_grad cat).
  split; [|split; [|split]].
  - unfold TransformerDiffusionWithMultiPretrainedVqvae.codes.
    eapply returns_bind.
    { apply returns_pure. unfold Torch.shape_at. rewrite Hmel. reflexivity. }
    eapply returns_bind.
    { apply returns_pure. unfold py_floordiv. fold qs.
      rewrite decide_False by lia. reflexivity. }
    eapply returns_bind; [exact Hret|].
    eapply returns_bind; [apply returns_op; exact Ecat|].
    apply returns_ret.
  - cbn [TransformerDiffusionWithMultiPretrainedVqvae.no_grad shape].
    rewrite Hscat, Hlen. reflexivity.
  - reflexivity.
  - intros i Hi k j f Hf.
    cbn [TransformerDiffusionWithMultiPretrainedVqvae.no_grad data].
    destruct (lookup_enumerate_lt qs i Hi) as [q Hq].
    destruct (Hys i (i, q) Hq) as (y & Hy & _ & Hdy).
    rewrite (Hdcat i y k j f Hy Hf). apply Hdy.
Qed.

(** Once the codes are computed, [forward] is the call of the denoising
    network on them, with no precomputed embeddings. *)
Lemma multi_forward_after_codes (self : TransformerDiffusionWithMultiPretrainedVqvae.t R)
    (mel proj : tensor R) :
  returns (TransformerDiffusionWithMultiPretrainedVqvae.codes self mel) proj ->
  forall (draw : index -> R) (x timesteps : tensor R)
         (conditioning_input : option (tensor R)) (conditioning_free : bool) (k : nat),
  exists k',
    TransformerDiffusionWithMultiPretrainedVqvae.forward self draw x timesteps mel
      conditioning_input conditioning_free k
    = TransformerDiffusion.forward
        (TransformerDiffusionWithMultiPretrainedVqvae.diff self) draw x timesteps
        (Some proj) conditioning_input None conditioning_free k'.
Proof.
  intros Hret draw x timesteps ci cf k. destruct (Hret k) as [k' Ek]. exists k'.
  unfold TransformerDiffusionWithMultiPretrainedVqvae.forward.
  unfold mbind at 1. unfold M_bind. rewrite Ek. reflexivity.
Qed.

(** Band [i] of a reference with [c] channels, for [N] codecs: it never fails,
    it has [c / N] channels, and its channel [j] is channel [i * (c / N) + j] of
    the reference. *)
Lemma mel_partition_spec (mel : tensor R) (b c n N i : nat) :
  shape mel = [b; c; n] -> i < N ->
  exists part,
    TransformerDiffusionWithMultiPretrainedVqvae.mel_partition mel (c / N) i = Ok part
    /\ shape part = [b; c / N; n]
    /\ forall k j r, data part (k :: j :: r)
                     = if decide (j < c / N) then data mel (k :: (i * (c / N) + j) :: r)
                       else szero.
Proof.
  intros Hmel Hi.
  assert (HN : N * (c / N) <= c) by (apply Nat.Div0.mul_div_le).
  destruct (slice_dim1_3d mel b c n (i * (c / N)) ((i + 1) * (c / N)) Hmel)
    as (part & E & Hs & _ & Hd); [nia|nia|].
  exists part. split; [exact E|].
  replace ((i + 1) * (c / N) - i * (c / N)) with (c / N) in * by nia.
  split; [exact Hs|exact Hd].
Qed.

End MultiCodec.


Ltac example_codecs :=
  let i := fresh "i" in
  let q := fresh "q" in
  let part := fresh "part" in
  let Hq := fresh "Hq" in
  let Hpart := fresh "Hpart" in
  intros i q part Hq Hpart;
  destruct i as [|[|i]]; simpl in Hq; [| |discriminate Hq];
  injection Hq as <-; cbv in Hpart; injection Hpart as <-;
  (eexists; split; reflexivity).

(** C7.  [forward] gives a reference with [c] channels to [N] codecs, [N]
    dividing [c]: band [i] is the slice of channels [i * (c / N)] up to
    [(i + 1) * (c / N)], the [N] bands cover the [c] channels, every channel
    lies in exactly one band, and, when codec [i] maps its band to a
    projection [P i] of shape (batch, features, frames), the codes are the
    transposed projections side by side along the feature axis, codec 0
    first; whatever its other arguments, [forward] then is the call of the
    denoising network with these codes. *)
Theorem multi_vqvae_partitions_evenly {R : Type} {SR : Scalar R} {EX : Externals R}
    (self : TransformerDiffusionWithMultiPretrainedVqvae.t R) (mel : tensor R)
    (b c n : nat) (P : nat -> tensor R) (b' d n' : nat) :
  let qs := TransformerDiffusionWithMultiPretrainedVqvae.quantizers self in
  let N := length qs in
  let ps := c / N in
  shape mel = [b; c; n] ->
  0 < N ->
  c mod N = 0 ->
  (forall i q part,
     qs !! i = Some q ->
     TransformerDiffusionWithMultiPretrainedVqvae.mel_partition mel ps i = Ok part ->
     exists r, DiscreteVAE.infer q part = Ok (r, P i) /\ shape (P i) = [b'; d; n']) ->
  (forall i, i < N ->
     exists part,
       TransformerDiffusionWithMultiPretrainedVqvae.mel_partition mel ps i = Ok part
       /\ shape part = [b; ps; n]
       /\ forall k j r, j < ps -> data part (k :: j :: r) = data mel (k :: (i * ps + j) :: r))
  /\ N * ps = c
  /\ (forall ch, ch < c ->
        exists i, i < N /\ i * ps <= ch < (i + 1) * ps
                  /\ forall i', i' < N -> i' * ps <= ch < (i' + 1) * ps -> i' = i)
  /\ exists proj,
       returns (TransformerDiffusionWithMultiPretrainedVqvae.codes self mel) proj
       /\ shape proj = [b'; n'; N * d]
       /\ (forall i, i < N -> forall k j f, f < d ->
             data proj [k; j; i * d + f] = data (P i) [k; f; j])
       /\ forall (draw : index -> R) (x timesteps : tensor R)
                 (conditioning_input : option (tensor R)) (conditioning_free : bool)
                 (count : nat),
          exists count',
            TransformerDiffusionWithMultiPretrainedVqvae.forward self draw x timesteps mel
              conditioning_input conditioning_free count
            = TransformerDiffusion.forward
                (TransformerDiffusionWithMultiPretrainedVqvae.diff self) draw x timesteps
                (Some proj) conditioning_input None conditioning_free count'.
Proof.
  intros qs N ps Hmel HN Hdiv Hcodec.
  assert (Hc : N * ps = c).
  { subst ps. pose proof (Nat.div_mod_eq c N) as E. lia. }
  split; [|split; [exact Hc|split]].
  - intros i Hi.
    destruct (mel_partition_spec mel b c n N i Hmel Hi) as (part & E & Hs & Hd).
    exists part. split; [exact E|]. split; [exact Hs|].
    intros k j r Hj. rewrite Hd. rewrite decide_True by exact Hj. reflexivity.
  - intros ch Hch.
    assert (Hps : 0 < ps) by (destruct ps; [lia|lia]).
    exists (ch / ps).
    pose proof (Nat.div_mod_eq ch ps) as E.
    pose proof (Nat.mod_upper_bound ch ps ltac:(lia)) as Hm.
    split; [apply Nat.Div0.div_lt_upper_bound; lia|]. split; [nia|].
    intros i' Hi' [Hlo Hhi]. apply Nat.div_unique with (r := ch - i' * ps); lia.
  - destruct (multi_codes_spec self mel b c n P b' d n' Hmel HN Hcodec)
      as (proj & Hret & Hs & _ & Hd).
    exists proj. split; [exact Hret|]. split; [exact Hs|]. split; [exact Hd|].
    exact (multi_forward_after_codes self mel proj Hret).
Qed.


Lemma multi_vqvae_partitions_evenly_witness :
  let mel := Example.mel 4 in
  (forall i, i < 2 ->
     exists part,
       TransformerDiffusionWithMultiPretrainedVqvae.mel_partition mel 2 i = Ok part
       /\ shape part = [1; 2; 3]
       /\ forall k j r, j < 2 -> data part (k :: j :: r) = data mel (k :: (i * 2 + j) :: r))
  /\ 2 * 2 = 4
  /\ (forall ch, ch < 4 ->
        exists i, i < 2 /\ i * 2 <= ch < (i + 1) * 2
                  /\ forall i', i' < 2 -> i' * 2 <= ch < (i' + 1) * 2 -> i' = i)
  /\ exists proj,
       returns (TransformerDiffusionWithMultiPretrainedVqvae.codes Example.multi mel) proj
       /\ shape proj = [1; 3; 2 * 2]
       /\ (forall i, i < 2 -> forall k j f, f < 2 ->
             data proj [k; j; i * 2 + f] = data (Example.projection 4 i) [k; f; j])
       /\ forall (draw : index -> Z) (x timesteps : tensor Z)
                 (conditioning_input : option (tensor Z)) (conditioning_free : bool)
                 (count : nat),
          exists count',
            TransformerDiffusionWithMultiPretrainedVqvae.forward Example.multi draw x
              timesteps mel conditioning_input conditioning_free count
            = TransformerDiffusion.forward Example.model draw x timesteps
                (Some proj) conditioning_input None conditioning_free count'.
Proof.
  apply (multi_vqvae_partitions_evenly Example.multi (Example.mel 4) 1 4 3
           (Example.projection 4) 1 2 3).
  - reflexivity.
  - simpl. lia.
  - reflexivity.
  - example_codecs.
Defined.

(** C10.  When [N] does not divide [c], the partitioning does not fail: band
    [i] is still the slice of channels [i * (c / N)] up to [(i + 1) * (c / N)],
    with [c / N] rounded down; the last [c mod N] channels lie in no band, and
    the bands, hence what the codecs receive, are entry for entry the same for
    two references that differ only in those channels.  The codes are built
    from the projections of the bands as in the divisible case, and [forward]
    raises nothing before it hands them to the denoising network: whatever its
    other arguments, its outcome is that of the denoising network called with
    these codes. *)
Theorem multi_vqvae_uneven_channels {R : Type} {SR : Scalar R} {EX : Externals R}
    (self : TransformerDiffusionWithMultiPretrainedVqvae.t R) (mel : tensor R)
    (b c n : nat) (P : nat -> tensor R) (b' d n' : nat) :
  let qs := TransformerDiffusionWithMultiPretrainedVqvae.quantizers self in
  let N := length qs in
  let ps := c / N in
  shape mel = [b; c; n] ->
  0 < N ->
  c mod N <> 0 ->
  (forall i q part,
     qs !! i = Some q ->
     TransformerDiffusionWithMultiPretrainedVqvae.mel_partition mel ps i = Ok part ->
     exists r, DiscreteVAE.infer q part = Ok (r, P i) /\ shape (P i) = [b'; d; n']) ->
  (forall i, i < N ->
     exists part,
       TransformerDiffusionWithMultiPretrainedVqvae.mel_partition mel ps i = Ok part
       /\ shape part = [b; ps; n]
       /\ forall k j r, j < ps -> data part (k :: j :: r) = data mel (k :: (i * ps + j) :: r))
  /\ (N * ps + c mod N = c /\ 0 < c mod N)
  /\ (forall ch i, N * ps <= ch -> i < N -> ~ (i * ps <= ch < (i + 1) * ps))
  /\ (forall mel' : tensor R,
        shape mel' = shape mel ->
        (forall k ch r, ch < N * ps -> data mel' (k :: ch :: r) = data mel (k :: ch :: r)) ->
        forall i, i < N ->
          exists part part',
            TransformerDiffusionWithMultiPretrainedVqvae.mel_partition mel ps i = Ok part
            /\ TransformerDiffusionWithMultiPretrainedVqvae.mel_partition mel' ps i = Ok part'
            /\ shape part' = shape part
            /\ forall idx, data part' idx = data part idx)
  /\ exists proj,
       returns (TransformerDiffusionWithMultiPretrainedVqvae.codes self mel) proj
       /\ shape proj = [b'; n'; N * d]
       /\ (forall i, i < N -> forall k j f, f < d ->
             data proj [k; j; i * d + f] = data (P i) [k; f; j])
       /\ forall (draw : index -> R) (x timesteps : tensor R)
                 (conditioning_input : option (tensor R)) (conditioning_free : bool)
                 (count : nat),
          exists count',
            TransformerDiffusionWithMultiPretrainedVqvae.forward self draw x timesteps mel
              conditioning_input conditioning_free count
            = TransformerDiffusion.forward
                (TransformerDiffusionWithMultiPretrainedVqvae.diff self) draw x timesteps
                (Some proj) conditioning_input None conditioning_free count'.
Proof.
  intros qs N ps Hmel HN Hdiv Hcodec.
  assert (Hc : N * ps + c mod N = c).
  { subst ps. pose proof (Nat.div_mod_eq c N) as E. lia. }
  split; [|split; [split; [exact Hc|lia]|split; [|split]]].
  - intros i Hi.
    destruct (mel_partition_spec mel b c n N i Hmel Hi) as (part & E & Hs & Hd).
    exists part. split; [exact E|]. split; [exact Hs|].
    intros k j r Hj. rewrite Hd. rewrite decide_True by exact Hj. reflexivity.
  - intros ch i Hch Hi [Hlo Hhi]. nia.
  - intros mel' Hshape Hagree i Hi.
    rewrite Hmel in Hshape.
    destruct (mel_partition_spec mel b c n N i Hmel Hi) as (part & E & Hs & Hd).
    destruct (mel_partition_spec mel' b c n N i Hshape Hi) as (part' & E' & Hs' & Hd').
    exists part, part'. split; [exact E|]. split; [exact E'|].
    split; [rewrite Hs, Hs'; reflexivity|].
    intros idx. destruct idx as [|k [|j r]].
    + revert E E'. unfold TransformerDiffusionWithMultiPretrainedVqvae.mel_partition,
        Torch.slice_dim1. rewrite Hmel, Hshape. intros [= <-] [= <-]. reflexivity.
    + revert E E'. unfold TransformerDiffusionWithMultiPretrainedVqvae.mel_partition,
        Torch.slice_dim1. rewrite Hmel, Hshape. intros [= <-] [= <-]. reflexivity.
    + rewrite Hd, Hd'. fold ps. destruct (decide (j < ps)) as [Hj|Hj]; [|reflexivity].
      apply Hagree. nia.
  - destruct (multi_codes_spec self mel b c n P b' d n' Hmel HN Hcodec)
      as (proj & Hret & Hs & _ & Hd).
    exists proj. split; [exact Hret|]. split; [exact Hs|]. split; [exact Hd|].
    exact (multi_forward_after_codes self mel proj Hret).
Qed.


Lemma multi_vqvae_uneven_channels_witness :
  let mel := Example.mel 5 in
  (forall i, i < 2 ->
     exists part,
       TransformerDiffusionWithMultiPretrainedVqvae.mel_partition mel 2 i = Ok part
       /\ shape part = [1; 2; 3]
       /\ forall k j r, j < 2 -> data part (k :: j :: r) = data mel (k :: (i * 2 + j) :: r))
  /\ (2 * 2 + 1 = 5 /\ 0 < 1)
  /\ (forall ch i, 2 * 2 <= ch -> i < 2 -> ~ (i * 2 <= ch < (i + 1) * 2))
  /\ (forall mel' : tensor Z,
        shape mel' = shape mel ->
        (forall k ch r, ch < 2 * 2 -> data mel' (k :: ch :: r) = data mel (k :: ch :: r)) ->
        forall i, i < 2 ->
          exists part part',
            TransformerDiffusionWithMultiPretrainedVqvae.mel_partition mel 2 i = Ok part
            /\ TransformerDiffusionWithMultiPretrainedVqvae.mel_partition mel' 2 i = Ok part'
            /\ shape part' = shape part
            /\ forall idx, data part' idx = data part idx)
  /\ exists proj,
       returns (TransformerDiffusionWithMultiPretrainedVqvae.codes Example.multi mel) proj
       /\ shape proj = [1; 3; 2 * 2]
       /\ (forall i, i < 2 -> forall k j f, f < 2 ->
             data proj [k; j; i * 2 + f] = data (Example.projection 5 i) [k; f; j])
       /\ forall (draw : index -> Z) (x timesteps : tensor Z)
                 (conditioning_input : option (tensor Z)) (conditioning_free : bool)
                 (count : nat),
          exists count',
            TransformerDiffusionWithMultiPretrainedVqvae.forward Example.multi draw x
              timesteps mel conditioning_input conditioning_free count
            = TransformerDiffusion.forward Example.model draw x timesteps
                (Some proj) conditioning_input None conditioning_free count'.
Proof.
  apply (multi_vqvae_uneven_channels Example.multi (Example.mel 5) 1 5 3
           (Example.projection 5) 1 2 3).
  - reflexivity.
  - simpl. lia.
  - discriminate.
  - example_codecs.
Defined.

(** ** Shapes and entries through the network *)

Section Shapes.
Context {R : Type} {SR : Scalar R} {EX : Externals R}.
Implicit Types (x y t : tensor R) (rnd : string -> index -> R).

Lemma split_last_snoc {A} (pre : list A) (d : A) :
  Torch.split_last (pre ++ [d]) = Some (pre, d).
Proof. induction pre as [|a pre IH]; [reflexivity|]. simpl. rewrite IH. reflexivity. Qed.

Lemma pointwise_ok (f : R -> R) x :
  exists y, Torch.pointwise f x = Ok y /\ shape y = shape x.
Proof. eexists. split; reflexivity. Qed.

Lemma Attention_forward_ok rnd (name : string) (dim out_dim heads dim_head : nat)
    x rot (b n : nat) :
  shape x = [b; n; dim] ->
  exists y, Attention.forward (Attention.init rnd name dim out_dim heads dim_head) x rot = Ok y
            /\ shape y = [b; n; out_dim].
Proof.
  intros Hx. unfold Attention.forward. rewrite Hx. cbn [Attention.init Attention.dim].
  rewrite decide_True by reflexivity. eexists. split; reflexivity.
Qed.

Lemma LayerNorm_forward_ok rnd (name : string) (d : nat) x (pre : list nat) :
  shape x = pre ++ [d] ->
  exists y, LayerNorm.forward (LayerNorm.init rnd name d) x = Ok y /\ shape y = pre ++ [d].
Proof.
  intros Hx. unfold LayerNorm.forward. rewrite Hx.
  cbn [LayerNorm.init LayerNorm.weight LayerNorm.bias Torch.mk_param shape].
  rewrite split_last_snoc.
  rewrite decide_True by (split; reflexivity). eexists. split; reflexivity.
Qed.

Lemma cat_last_pair_ok x y (b n dx dy : nat) :
  shape x = [b; n; dx] -> shape y = [b; n; dy] ->
  exists z, Torch.cat_last [x; y] = Ok z /\ shape z = [b; n; dx + dy].
Proof.
  intros Hx Hy. unfold Torch.cat_last, Torch.cat_last_from, Torch.cat2_last.
  rewrite Hx, Hy. simpl. rewrite decide_True by reflexivity.
  eexists. split; reflexivity.
Qed.

Lemma Conv1d_forward_ok rnd (name : string) (cin cout : nat) x (b c n : nat) :
  shape x = [b; c; n] -> c = cin -> 0 < n ->
  exists y, Conv1d.forward (Conv1d.init rnd name cin cout 3 1) x = Ok y
            /\ shape y = [b; cout; n].
Proof.
  intros Hx Hc Hn. unfold Conv1d.forward. rewrite Hx.
  cbn [Conv1d.init Conv1d.weight Conv1d.bias Conv1d.padding Torch.mk_param shape
       Torch.has_shape_opt].
  rewrite bool_decide_true by lia. rewrite bool_decide_true by reflexivity.
  cbn [andb]. eexists. split; [reflexivity|]. cbn [shape]. f_equal. f_equal. f_equal. lia.
Qed.

Lemma Linear_forward_ok rnd (name : string) (i o : nat) (wb : bool) x (pre : list nat) (d : nat) :
  shape x = pre ++ [d] -> d = i ->
  exists y, Linear.forward (Linear.init rnd name i o wb) x = Ok y /\ shape y = pre ++ [o].
Proof.
  intros Hx Hd. unfold Linear.forward. rewrite Hx.
  cbn [Linear.init Linear.weight Linear.bias Torch.mk_param shape].
  rewrite split_last_snoc.
  rewrite bool_decide_true by exact Hd.
  assert (Torch.has_shape_opt
            (if wb then Some (Torch.mk_param rnd (name +:+ ".bias") [o]) else None) [o]
          = true) as ->.
  { destruct wb; [|reflexivity]. unfold Torch.has_shape_opt. cbn [Torch.mk_param shape].
    apply bool_decide_true. reflexivity. }
  cbn [andb]. eexists. split; reflexivity.
Qed.


Lemma SubBlock_init_inv rnd (name : string) (inp_dim c heads : nat) (sb : SubBlock.t R) :
  SubBlock.__init__ rnd name inp_dim c heads = Ok sb ->
  sb = {| SubBlock.attn := Attention.init rnd (name +:+ ".attn") inp_dim c heads (c / heads);
          SubBlock.attnorm := LayerNorm.init rnd (name +:+ ".attnorm") c;
          SubBlock.ff := Conv1d.init rnd (name +:+ ".ff") (inp_dim + c) c 3 1;
          SubBlock.ffnorm := LayerNorm.init rnd (name +:+ ".ffnorm") c |}.
Proof.
  unfold SubBlock.__init__, py_floordiv.
  destruct (decide (heads = 0)); [discriminate|]. intros [= <-]. reflexivity.
Qed.

(** A sub-block appends twice its contraction width to the feature axis. *)
Lemma SubBlock_forward_shape rnd (name : string) (inp_dim c heads : nat)
    (sb : SubBlock.t R) x rot (b n : nat) :
  SubBlock.__init__ rnd name inp_dim c heads = Ok sb ->
  shape x = [b; n; inp_dim] -> 0 < n ->
  exists h, returns (SubBlock.forward sb x rot) h /\ shape h = [b; n; c + inp_dim + c].
Proof.
  intros Hsb Hx Hn. apply SubBlock_init_inv in Hsb as ->.
  unfold SubBlock.forward, checkpoint.
  cbn [SubBlock.attn SubBlock.attnorm SubBlock.ff SubBlock.ffnorm].
  destruct (Attention_forward_ok rnd (name +:+ ".attn") inp_dim c heads (c / heads)
              x rot b n Hx) as (ah & E1 & H1).
  destruct (LayerNorm_forward_ok rnd (name +:+ ".attnorm") c ah [b; n] H1) as (ah1 & E2 & H2).
  destruct (pointwise_ok gelu ah1) as (ah2 & E3 & H3). rewrite H2 in H3.
  destruct (cat_last_pair_ok ah2 x b n c inp_dim H3 Hx) as (h & E4 & H4).
  destruct (permute021_3d h b n (c + inp_dim) H4) as (hp & E5 & H5 & _).
  destruct (Conv1d_forward_ok rnd (name +:+ ".ff") (inp_dim + c) c hp b (c + inp_dim) n
              H5 ltac:(lia) Hn) as (hf & E6 & H6).
  destruct (permute021_3d hf b c n H6) as (hf1 & E7 & H7 & _).
  destruct (LayerNorm_forward_ok rnd (name +:+ ".ffnorm") c hf1 [b; n] H7) as (hf2 & E8 & H8).
  destruct (pointwise_ok gelu hf2) as (hf3 & E9 & H9). rewrite H8 in H9.
  destruct (cat_last_pair_ok h hf3 b n (c + inp_dim) c H4 H9) as (h' & E10 & H10).
  exists h'. split; [|exact H10].
  eapply returns_bind; [apply returns_op; exact E1|].
  eapply returns_bind; [apply returns_op; exact E2|].
  eapply returns_bind; [apply returns_op; exact E3|].
  eapply returns_bind; [apply returns_op; exact E4|].
  eapply returns_bind; [apply returns_op; exact E5|].
  eapply returns_bind; [apply returns_op; exact E6|].
  eapply returns_bind; [apply returns_op; exact E7|].
  eapply returns_bind; [apply returns_op; exact E8|].
  eapply returns_bind; [apply returns_op; exact E9|].
  eapply returns_bind; [apply returns_op; exact E10|].
  apply returns_ret.
Qed.


Lemma RMSScaleShiftNorm_forward_ok rnd (name : string) (dim e : nat) x emb (b n : nat) :
  shape x = [b; n; dim] -> shape emb = [b; e] ->
  exists y, RMSScaleShiftNorm.forward (RMSScaleShiftNorm.init rnd name dim e) x emb = Ok y
            /\ shape y = [b; n; dim].
Proof.
  intros Hx He. unfold RMSScaleShiftNorm.forward. rewrite Hx, He.
  cbn [RMSScaleShiftNorm.init RMSScaleShiftNorm.dim RMSScaleShiftNorm.embed_dim].
  rewrite decide_True by (repeat split). eexists. split; reflexivity.
Qed.

Lemma slice_last_from_ok x (a b c k : nat) :
  shape x = [a; b; c] ->
  exists y, Torch.slice_last_from x k = Ok y /\ shape y = [a; b; c - k].
Proof.
  intros Hx. unfold Torch.slice_last_from. rewrite Hx. eexists. split; reflexivity.
Qed.

Lemma sum_upto_zero `{!ScalarLaws R} (n : nat) (f : nat -> R) :
  (forall k, k < n -> f k = szero) -> Torch.sum_upto n f = szero.
Proof.
  induction n as [|n IH]; intros Hf; [reflexivity|].
  simpl. rewrite IH by (intros k Hk; apply Hf; lia).
  rewrite (Hf n) by lia. apply sadd_zero_l.
Qed.

(** A linear layer without bias whose weight was zeroed maps everything to
    zero. *)
Lemma Linear_zero_forward rnd (name : string) (i o : nat) x (pre : list nat) (d : nat) :
  shape x = pre ++ [d] -> d = i ->
  exists y, Linear.forward (Linear.zero_weight (Linear.init rnd name i o false)) x = Ok y
            /\ shape y = pre ++ [o]
            /\ (ScalarLaws R -> forall idx, data y idx = szero).
Proof.
  intros Hx Hd. unfold Linear.forward. rewrite Hx.
  cbn [Linear.zero_weight Linear.init Linear.weight Linear.bias Torch.zero_
       Torch.mk_param shape Torch.has_shape_opt].
  rewrite split_last_snoc. rewrite bool_decide_true by exact Hd. cbn [andb].
  eexists. split; [reflexivity|]. split; [reflexivity|].
  intros Laws idx. cbn [data]. destruct (Torch.split_last idx) as [[p j]|]; [|reflexivity].
  apply sum_upto_zero. intros k _. apply smul_zero_r.
Qed.

Lemma bcast_dims_refl (s : list nat) : Torch.bcast_dims s s = Some s.
Proof.
  induction s as [|d s IH]; [reflexivity|]. simpl. rewrite IH.
  unfold Torch.bcast_dim. rewrite decide_True by reflexivity. reflexivity.
Qed.

Lemma broadcast_shapes_refl (s : list nat) : Torch.broadcast_shapes s s = Some s.
Proof.
  unfold Torch.broadcast_shapes, Torch.pad_left.
  rewrite Nat.max_id, Nat.sub_diag. apply bcast_dims_refl.
Qed.

Lemma bidx_3d (a b c i j k : nat) :
  i < a -> j < b -> k < c -> Torch.bidx [a; b; c] [i; j; k] = [i; j; k].
Proof.
  intros Hi Hj Hk. unfold Torch.bidx. simpl.
  repeat (destruct (decide _); [subst|]); repeat f_equal; lia.
Qed.

Lemma add_same_shape x y (s : list nat) :
  shape x = s -> shape y = s ->
  exists z, Torch.add x y = Ok z /\ shape z = s
            /\ forall idx, data z idx
                           = sadd (data x (Torch.bidx s idx)) (data y (Torch.bidx s idx)).
Proof.
  intros Hx Hy. unfold Torch.add. rewrite Hx, Hy, broadcast_shapes_refl.
  eexists. split; [reflexivity|]. split; reflexivity.
Qed.

Lemma ConcatAttentionBlock_init_inv rnd (name : string) (m c e heads : nat)
    (l : ConcatAttentionBlock.t R) :
  ConcatAttentionBlock.__init__ rnd name m c e heads = Ok l ->
  exists b1 b2,
    SubBlock.__init__ rnd (name +:+ ".block1") m c heads = Ok b1
    /\ SubBlock.__init__ rnd (name +:+ ".block2") (m + c * 2) c heads = Ok b2
    /\ l = {| ConcatAttentionBlock.prenorm :=
                RMSScaleShiftNorm.init rnd (name +:+ ".prenorm") m e;
              ConcatAttentionBlock.block1 := b1;
              ConcatAttentionBlock.block2 := b2;
              ConcatAttentionBlock.out :=
                Linear.zero_weight (Linear.init rnd (name +:+ ".out") (c * 4) m false) |}.
Proof.
  unfold ConcatAttentionBlock.__init__. intros H.
  destruct (SubBlock.__init__ rnd (name +:+ ".block1") m c heads) as [b1|] eqn:E1;
    [|discriminate].
  destruct (SubBlock.__init__ rnd (name +:+ ".block2") (m + c * 2) c heads) as [b2|] eqn:E2;
    [|discriminate].
  injection H as <-. exists b1, b2. repeat split.
Qed.

(** A freshly constructed block keeps the shape of its input and, in exact
    arithmetic, its entries. *)
Lemma ConcatAttentionBlock_forward_init rnd (name : string) (m c e heads : nat)
    (l : ConcatAttentionBlock.t R) x emb rot (b n : nat) :
  ConcatAttentionBlock.__init__ rnd name m c e heads = Ok l ->
  shape x = [b; n; m] -> shape emb = [b; e] -> 0 < n ->
  exists y, returns (ConcatAttentionBlock.forward l x emb rot) y
            /\ shape y = [b; n; m]
            /\ (ScalarLaws R -> forall i j k, i < b -> j < n -> k < m ->
                  data y [i; j; k] = data x [i; j; k]).
Proof.
  intros Hl Hx He Hn.
  apply ConcatAttentionBlock_init_inv in Hl as (b1 & b2 & Hb1 & Hb2 & ->).
  unfold ConcatAttentionBlock.forward.
  cbn [ConcatAttentionBlock.prenorm ConcatAttentionBlock.block1
       ConcatAttentionBlock.block2 ConcatAttentionBlock.out].
  destruct (RMSScaleShiftNorm_forward_ok rnd (name +:+ ".prenorm") m e x emb b n Hx He)
    as (h0 & E0 & H0).
  destruct (SubBlock_forward_shape rnd _ m c heads b1 h0 rot b n Hb1 H0 Hn)
    as (h1 & R1 & H1).
  assert (H1' : shape h1 = [b; n; m + c * 2]) by (rewrite H1; f_equal; f_equal; f_equal; lia).
  destruct (SubBlock_forward_shape rnd _ (m + c * 2) c heads b2 h1 rot b n Hb2 H1' Hn)
    as (h2 & R2 & H2).
  destruct (slice_last_from_ok h2 b n _ m H2) as (h3 & E3 & H3).
  destruct (Linear_zero_forward rnd (name +:+ ".out") (c * 4) m h3 [b; n] _ H3 ltac:(lia))
    as (h4 & E4 & H4 & D4).
  destruct (add_same_shape h4 x [b; n; m] H4 Hx) as (y & E5 & H5 & D5).
  exists y. split; [|split; [exact H5|]].
  - eapply returns_bind; [apply returns_op; exact E0|].
    eapply returns_bind; [exact R1|].
    eapply returns_bind; [exact R2|].
    eapply returns_bind.
    { apply returns_pure. unfold Torch.shape_last. rewrite Hx. reflexivity. }
    eapply returns_bind; [apply returns_op; exact E3|].
    eapply returns_bind; [apply returns_op; exact E4|].
    apply returns_op. exact E5.
  - intros Laws i j k Hi Hj Hk. rewrite D5, (D4 Laws), sadd_zero_l.
    rewrite bidx_3d by assumption. reflexivity.
Qed.


Lemma Encoder_forward_ok rnd (name : string) (dim depth heads : nat) x (b n : nat) :
  shape x = [b; n; dim] ->
  exists y, Encoder.forward (Encoder.init rnd name dim depth heads) x = Ok y
            /\ shape y = [b; n; dim].
Proof.
  intros Hx. unfold Encoder.forward. rewrite Hx. cbn [Encoder.init Encoder.dim].
  rewrite decide_True by reflexivity. eexists. split; reflexivity.
Qed.

Lemma GroupNorm_forward_ok rnd (name : string) (ch : nat) x (b n : nat) :
  shape x = [b; ch; n] ->
  exists y, GroupNorm.forward (GroupNorm.normalization rnd name ch) x = Ok y
            /\ shape y = [b; ch; n].
Proof.
  intros Hx. unfold GroupNorm.forward. rewrite Hx.
  cbn [GroupNorm.normalization GroupNorm.channels].
  rewrite decide_True by reflexivity. eexists. split; reflexivity.
Qed.

Lemma timestep_embedding_ok (ts : tensor R) (b dim : nat) :
  shape ts = [b] ->
  exists y, Torch.timestep_embedding ts dim = Ok y /\ shape y = [b; dim].
Proof.
  intros Hts. unfold Torch.timestep_embedding. rewrite Hts. eexists. split; reflexivity.
Qed.

(** [u.repeat(b, n, 1)] for a (1, 1, p) tensor [u]: every row is [u]'s. *)
Lemma repeat_row_ok (u : tensor R) (p b n : nat) :
  shape u = [1; 1; p] ->
  exists y, Torch.repeat_ u [b; n; 1] = Ok y
            /\ shape y = [b; n; p]
            /\ forall i j k, k < p -> data y [i; j; k] = data u [0; 0; k].
Proof.
  intros Hu. unfold Torch.repeat_. rewrite Hu. cbn [length].
  rewrite decide_True by lia. eexists. split; [reflexivity|]. split.
  - cbn [shape Torch.pad_left length Nat.sub repeat app zip_with].
    f_equal; [lia|]. f_equal; [lia|]. f_equal. lia.
  - intros i j k Hk.
    cbn [data Torch.pad_left length Nat.sub repeat app zip_with skipn].
    rewrite !Nat.mod_1_r, (Nat.mod_small k p Hk). reflexivity.
Qed.

Lemma bcast_dim_one_l (y : nat) : Torch.bcast_dim 1 y = Some y.
Proof.
  unfold Torch.bcast_dim. destruct (decide (1 = y)) as [<-|]; [reflexivity|].
  rewrite decide_True by reflexivity. reflexivity.
Qed.

Lemma bcast_dim_one_r (x : nat) : Torch.bcast_dim x 1 = Some x.
Proof.
  unfold Torch.bcast_dim. destruct (decide (x = 1)) as [->|]; [reflexivity|].
  rewrite decide_True by reflexivity. reflexivity.
Qed.

Lemma bcast_dim_refl (x : nat) : Torch.bcast_dim x x = Some x.
Proof. unfold Torch.bcast_dim. rewrite decide_True by reflexivity. reflexivity. Qed.

(** [torch.where] with a per-batch mask, one row per batch element on the
    true side and a full tensor on the false side. *)
Lemma where_batch_mask (c : btensor) (a w : tensor R) (b n p : nat) :
  bshape c = [b; 1; 1] -> shape a = [b; 1; p] -> shape w = [b; n; p] ->
  exists y, Torch.where_ c a w = Ok y
            /\ shape y = [b; n; p]
            /\ forall i j k, i < b -> j < n -> k < p ->
                 data y [i; j; k]
                 = if bdata c [i; 0; 0] then data a [i; 0; k] else data w [i; j; k].
Proof.
  intros Hc Ha Hw. unfold Torch.where_. rewrite Hc, Ha, Hw.
  unfold Torch.broadcast_shapes, Torch.pad_left.
  cbn [length Nat.max Nat.sub repeat app Torch.bcast_dims].
  rewrite !bcast_dim_refl, !bcast_dim_one_l.
  cbn [length Nat.max Nat.sub repeat app Torch.bcast_dims].
  rewrite !bcast_dim_refl, !bcast_dim_one_l.
  eexists. split; [reflexivity|]. split; [reflexivity|].
  intros i j k Hi Hj Hk. cbn [data]. rewrite (bidx_3d b n p i j k Hi Hj Hk).
  assert (Torch.bidx [b; 1; 1] [i; j; k] = [i; 0; 0]) as ->.
  { unfold Torch.bidx. simpl. destruct (decide (b = 1)); [|reflexivity].
    f_equal. lia. }
  assert (Torch.bidx [b; 1; p] [i; j; k] = [i; 0; k]) as ->.
  { unfold Torch.bidx. simpl. destruct (decide (b = 1)), (decide (p = 1));
      repeat f_equal; lia. }
  reflexivity.
Qed.

(** The position read lies on the input axis. *)
Lemma nearest_idx_lt (len size j : nat) :
  0 < len -> j < size -> Torch.nearest_idx len size j < len.
Proof.
  intros Hlen Hj. unfold Torch.nearest_idx.
  destruct (decide (size = len)) as [->|_]; [exact Hj|].
  destruct (decide (size = 2 * len)) as [->|_].
  - apply Nat.Div0.div_lt_upper_bound. lia.
  - lia.
Qed.

Lemma interpolate_nearest_ok x (a c len size : nat) :
  shape x = [a; c; len] -> 0 < len -> 0 < size ->
  exists y, Torch.interpolate_nearest x size = Ok y
            /\ shape y = [a; c; size]
            /\ forall i k j, data y [i; k; j]
                             = data x [i; k; Torch.nearest_idx len size j].
Proof.
  intros Hx Hlen Hsize. unfold Torch.interpolate_nearest. rewrite Hx.
  rewrite decide_True by (split; assumption).
  eexists. split; [reflexivity|]. split; reflexivity.
Qed.


Lemma init_inv rnd (kw : TransformerDiffusion.kwargs R) (m : TransformerDiffusion.t R) :
  TransformerDiffusion.__init__ rnd kw = Ok m ->
  exists ls st,
    TransformerDiffusion.make_layers rnd kw 0 (TransformerDiffusion.kw_num_layers kw) = Ok ls
    /\ m = TransformerDiffusion.set_attrs
             (TransformerDiffusion.assign rnd kw
                (TransformerDiffusion.kw_prenet_channels kw / 64) ls) st.
Proof.
  unfold TransformerDiffusion.__init__, py_floordiv.
  rewrite decide_False by discriminate. cbn [mbind result_bind].
  destruct (TransformerDiffusion.make_layers rnd kw 0 _) as [ls|] eqn:Els; [|discriminate].
  cbn [mbind result_bind].
  match goal with |- (?r ≫= _) = _ -> _ => destruct r as [st|] end; [|discriminate].
  cbn [mbind result_bind mret result_ret]. intros [= <-]. exists ls, st. split; reflexivity.
Qed.

Ltac model_fields :=
  cbn [TransformerDiffusion.train TransformerDiffusion.set_attrs TransformerDiffusion.assign
       TransformerDiffusion.in_channels TransformerDiffusion.model_channels
       TransformerDiffusion.prenet_channels TransformerDiffusion.time_embed_dim
       TransformerDiffusion.out_channels TransformerDiffusion.unconditioned_percentage
       TransformerDiffusion.inp_block TransformerDiffusion.time_embed
       TransformerDiffusion.ar_prior TransformerDiffusion.ar_input
       TransformerDiffusion.ar_prior_intg TransformerDiffusion.input_converter
       TransformerDiffusion.code_converter TransformerDiffusion.unconditioned_embedding
       TransformerDiffusion.rotary_embeddings TransformerDiffusion.intg
       TransformerDiffusion.layers TransformerDiffusion.out TransformerDiffusion.training
       fst snd].

Lemma timestep_independent_spec rnd (kw : TransformerDiffusion.kwargs R)
    (m : TransformerDiffusion.t R) (mode : bool) (draw : index -> R)
    (prior : tensor R) (b s n : nat) :
  let self := TransformerDiffusion.train m mode in
  let p := TransformerDiffusion.kw_prenet_channels kw in
  let pct := TransformerDiffusion.kw_unconditioned_percentage kw in
  TransformerDiffusion.__init__ rnd kw = Ok m ->
  shape prior = [b; s; TransformerDiffusion.kw_input_vec_dim kw] -> 0 < s -> 0 < n ->
  exists lin enc e0 code_emb out,
    TransformerDiffusion.converters self = Ok (lin, enc)
    /\ Linear.forward lin prior = Ok e0
    /\ Encoder.forward enc e0 = Ok code_emb
    /\ shape code_emb = [b; s; p]
    /\ returns (TransformerDiffusion.timestep_independent self draw (Some prior) n) out
    /\ shape out = [b; n; p]
    /\ forall i j k, i < b -> j < n -> k < p ->
         data out [i; j; k]
         = if mode && sltb (sof_Z 0) pct && sltb (draw [i; 0; 0]) pct
           then data (TransformerDiffusion.unconditioned_embedding self) [0; 0; k]
           else data code_emb [i; Torch.nearest_idx s n j; k].
Proof.
  intros self p pct Hinit Hprior Hs Hn.
  apply init_inv in Hinit as (ls & st & _ & ->). subst self.
  set (lin := Linear.init rnd
                (if TransformerDiffusion.kw_ar_prior kw then "ar_input" else "input_converter")
                (TransformerDiffusion.kw_input_vec_dim kw) p true).
  set (enc := Encoder.init rnd
                (if TransformerDiffusion.kw_ar_prior kw then "ar_prior_intg"
                 else "code_converter")
                p (TransformerDiffusion.kw_prenet_layers kw) (p / 64)).
  destruct (Linear_forward_ok rnd
              (if TransformerDiffusion.kw_ar_prior kw then "ar_input" else "input_converter")
              (TransformerDiffusion.kw_input_vec_dim kw) p true prior [b; s] _
              Hprior eq_refl) as (e0 & Elin & H0).
  destruct (Encoder_forward_ok rnd
              (if TransformerDiffusion.kw_ar_prior kw then "ar_prior_intg" else "code_converter")
              p (TransformerDiffusion.kw_prenet_layers kw) (p / 64) e0 b s H0)
    as (ce & Eenc & H1).
  fold lin in Elin. fold enc in Eenc.
  (* the masked embedding *)
  assert (Hmask : exists w,
    returns
      (if mode && sltb (sof_Z 0) pct
       then
         bb ← pure (Torch.shape_at ce 0);
         r ← op (Torch.rand draw [bb; 1; 1]);
         unconditioned_batches ← op (Torch.lt_number r pct);
         pb ← pure (TransformerDiffusion.shape0_opt (Some prior));
         u ← op (Torch.repeat_ (Torch.mk_param rnd "unconditioned_embedding" [1; 1; p])
                               [pb; 1; 1]);
         op (Torch.where_ unconditioned_batches u ce)
       else mret ce) w
    /\ shape w = [b; s; p]
    /\ forall i j k, i < b -> j < s -> k < p ->
         data w [i; j; k]
         = if mode && sltb (sof_Z 0) pct && sltb (draw [i; 0; 0]) pct
           then data (Torch.mk_param rnd "unconditioned_embedding" [1; 1; p]) [0; 0; k]
           else data ce [i; j; k]).
  { destruct (mode && sltb (sof_Z 0) pct).
    - destruct (repeat_row_ok (Torch.mk_param rnd "unconditioned_embedding" [1; 1; p])
                  p b 1 eq_refl) as (u & Eu & Hu & Du).
      destruct (where_batch_mask
                  (BTensor [b; 1; 1] (fun idx => sltb (draw idx) pct)) u ce b s p
                  eq_refl Hu H1) as (w & Ew & Hw & Dw).
      exists w. split; [|split; [exact Hw|]].
      + eapply returns_bind.
        { apply returns_pure. unfold Torch.shape_at. rewrite H1. reflexivity. }
        eapply returns_bind; [apply returns_op; reflexivity|].
        eapply returns_bind; [apply returns_op; reflexivity|].
        eapply returns_bind.
        { apply returns_pure. unfold TransformerDiffusion.shape0_opt, Torch.shape_at.
          rewrite Hprior. reflexivity. }
        eapply returns_bind; [apply returns_op; exact Eu|].
        apply returns_op. exact Ew.
      + intros i j k Hi Hj Hk. rewrite (Dw i j k Hi Hj Hk). cbn [bdata andb].
        rewrite (Du i 0 k Hk). reflexivity.
    - exists ce. split; [apply returns_ret|]. split; [exact H1|].
      intros i j k _ _ _. reflexivity. }
  destruct Hmask as (w & Rw & Hw & Dw).
  destruct (permute021_3d w b s p Hw) as (w1 & E2 & H2 & _ & D2).
  destruct (interpolate_nearest_ok w1 b p s n H2 Hs Hn) as (w2 & E3 & H3 & D3).
  destruct (permute021_3d w2 b p n H3) as (out & E4 & H4 & _ & D4).
  exists lin, enc, e0, ce, out.
  split.
  { unfold TransformerDiffusion.converters. model_fields. subst lin enc.
    destruct (TransformerDiffusion.kw_ar_prior kw); reflexivity. }
  split; [exact Elin|]. split; [exact Eenc|]. split; [exact H1|].
  split; [|split; [exact H4|]].
  - unfold TransformerDiffusion.timestep_independent. model_fields.
    eapply returns_bind.
    { instantiate (1 := e0). subst lin.
      destruct (TransformerDiffusion.kw_ar_prior kw);
        (eapply returns_bind; [apply returns_pure; reflexivity|]);
        apply returns_op; exact Elin. }
    eapply returns_bind.
    { instantiate (1 := ce). subst enc.
      destruct (TransformerDiffusion.kw_ar_prior kw);
        (eapply returns_bind; [apply returns_pure; reflexivity|]);
        apply returns_op; exact Eenc. }
    eapply returns_bind; [exact Rw|].
    eapply returns_bind; [apply returns_op; exact E2|].
    eapply returns_bind; [apply returns_op; exact E3|].
    eapply returns_bind; [apply returns_op; exact E4|].
    apply returns_ret.
  - intros i j k Hi Hj Hk. model_fields.
    rewrite D4, D3, D2. apply Dw; [exact Hi| |exact Hk].
    apply nearest_idx_lt; assumption.
Qed.

Lemma make_layers_inv rnd (kw : TransformerDiffusion.kwargs R) (n : nat) :
  forall (i : nat) (ls : list (ConcatAttentionBlock.t R)),
  TransformerDiffusion.make_layers rnd kw i n = Ok ls ->
  length ls = n
  /\ Forall (fun l => exists name,
               ConcatAttentionBlock.__init__ rnd name
                 (TransformerDiffusion.kw_model_channels kw)
                 (TransformerDiffusion.kw_contraction_dim kw)
                 (TransformerDiffusion.kw_time_embed_dim kw)
                 (TransformerDiffusion.kw_num_heads kw) = Ok l) ls.
Proof.
  induction n as [|n IH]; intros i ls; cbn [TransformerDiffusion.make_layers].
  - intros [= <-]. split; [reflexivity|constructor].
  - destruct (ConcatAttentionBlock.__init__ rnd ("layers." +:+ pretty i) _ _ _ _)
      as [l|] eqn:El; [|discriminate].
    cbn [mbind result_bind].
    destruct (TransformerDiffusion.make_layers rnd kw (S i) n) as [ls'|] eqn:Els;
      [|discriminate].
    cbn [mbind result_bind mret result_ret]. intros [= <-].
    destruct (IH (S i) ls' Els) as [Hlen Hall].
    split; [simpl; rewrite Hlen; reflexivity|].
    constructor; [eexists; exact El|exact Hall].
Qed.

(** A stack of freshly constructed blocks keeps the shape of its input and, in
    exact arithmetic, its entries. *)
Lemma run_layers_init rnd (m c e heads : nat) (ls : list (ConcatAttentionBlock.t R))
    emb rot (b n : nat) :
  Forall (fun l => exists name,
            ConcatAttentionBlock.__init__ rnd name m c e heads = Ok l) ls ->
  shape emb = [b; e] -> 0 < n ->
  forall x, shape x = [b; n; m] ->
  exists y, returns (TransformerDiffusion.run_layers ls x emb rot) y
            /\ shape y = [b; n; m]
            /\ (ScalarLaws R -> forall i j k, i < b -> j < n -> k < m ->
                  data y [i; j; k] = data x [i; j; k]).
Proof.
  intros Hls He Hn. induction Hls as [|l ls [name Hl] _ IH]; intros x Hx.
  - exists x. split; [apply returns_ret|]. split; [exact Hx|]. reflexivity.
  - destruct (ConcatAttentionBlock_forward_init rnd name m c e heads l x emb rot b n
                Hl Hx He Hn) as (x1 & R1 & H1 & D1).
    destruct (IH x1 H1) as (y & Ry & Hy & Dy).
    exists y. split; [|split; [exact Hy|]].
    + cbn [TransformerDiffusion.run_layers]. unfold checkpoint.
      eapply returns_bind; [exact R1|exact Ry].
    + intros Laws i j k Hi Hj Hk. rewrite (Dy Laws) by assumption.
      apply (D1 Laws); assumption.
Qed.

(** The zeroed output convolution maps everything to zero. *)
Lemma Conv1d_zero_forward rnd (name : string) (cin cout : nat) x (b n : nat) :
  shape x = [b; cin; n] -> 0 < n ->
  exists y,
    Conv1d.forward (TransformerDiffusion.zero_module (Conv1d.init rnd name cin cout 3 1)) x
    = Ok y
    /\ shape y = [b; cout; n]
    /\ (ScalarLaws R -> forall idx, data y idx = szero).
Proof.
  intros Hx Hn. unfold Conv1d.forward. rewrite Hx.
  cbn [TransformerDiffusion.zero_module Conv1d.init Conv1d.weight Conv1d.bias
       Conv1d.padding Torch.zero_ Torch.mk_param shape Torch.has_shape_opt fmap option_fmap
       option_map].
  rewrite bool_decide_true by lia. rewrite bool_decide_true by reflexivity. cbn [andb].
  eexists. split; [reflexivity|]. split.
  - cbn [shape]. f_equal. f_equal. f_equal. lia.
  - intros Laws idx. cbn [data]. destruct idx as [|i [|o [|j [|? ?]]]]; try reflexivity.
    rewrite sum_upto_zero.
    + apply sadd_zero_l.
    + intros ic _. apply sum_upto_zero. intros kk _. apply smul_zero_l.
Qed.

Lemma sum_means_scalar (ps : list (tensor R)) :
  forall acc, TransformerDiffusion.scalar_value acc ->
  exists v, returns (TransformerDiffusion.sum_means acc ps) v /\ TransformerDiffusion.scalar_value v.
Proof.
  induction ps as [|p ps IH]; intros acc Hacc.
  - exists acc. split; [apply returns_ret|exact Hacc].
  - cbn [TransformerDiffusion.sum_means]. unfold TransformerDiffusion.add_mean.
    destruct acc as [k|a].
    + destruct (IH (PyTensor (Tensor [] (fun idx =>
                  sadd (sdiv_nat (Torch.sum_all (shape p) (data p)) (Torch.numel (shape p)))
                       (sof_Z k)) (leaves p)))) as (v & Rv & Hv); [reflexivity|].
      exists v. split; [|exact Hv].
      eapply returns_bind; [|exact Rv].
      eapply returns_bind; [apply returns_op; reflexivity|].
      apply (returns_fmap PyTensor). apply returns_op. reflexivity.
    + cbn [TransformerDiffusion.scalar_value] in Hacc.
      destruct (add_same_shape a
                  (Tensor [] (fun _ => sdiv_nat (Torch.sum_all (shape p) (data p))
                                                (Torch.numel (shape p))) (leaves p))
                  [] Hacc eq_refl) as (z & Ez & Hz & _).
      destruct (IH (PyTensor z) Hz) as (v & Rv & Hv).
      exists v. split; [|exact Hv].
      eapply returns_bind; [|exact Rv].
      eapply returns_bind; [apply returns_op; reflexivity|].
      apply (returns_fmap PyTensor). apply returns_op. exact Ez.
Qed.

Lemma add_zero_weighted_ok (out : tensor R) (v : pyvalue R) (b c n : nat) :
  shape out = [b; c; n] -> TransformerDiffusion.scalar_value v ->
  exists y, returns (TransformerDiffusion.add_zero_weighted out v) y
            /\ shape y = [b; c; n]
            /\ (ScalarLaws R -> forall i j k, i < b -> j < c -> k < n ->
                  data y [i; j; k] = data out [i; j; k]).
Proof.
  intros Hout Hv. unfold TransformerDiffusion.add_zero_weighted. destruct v as [k|e].
  - eexists. split; [apply returns_op; reflexivity|]. split; [exact Hout|].
    intros Laws i j l _ _ _. cbn [data]. rewrite Z.mul_0_r, sof_Z_zero. apply sadd_zero_r.
  - cbn [TransformerDiffusion.scalar_value] in Hv.
    assert (Hb : Torch.broadcast_shapes [b; c; n] [] = Some [b; c; n]).
    { unfold Torch.broadcast_shapes, Torch.pad_left.
      cbn [length Nat.max Nat.sub repeat app Torch.bcast_dims].
      rewrite !bcast_dim_one_r. reflexivity. }
    eexists. split; [|split].
    + eapply returns_bind; [apply returns_op; reflexivity|].
      apply returns_op. unfold Torch.add. cbn [Torch.mul_number shape].
      rewrite Hout, Hv, Hb. reflexivity.
    + reflexivity.
    + intros Laws i j l Hi Hj Hl. cbn [data].
      rewrite sof_Z_zero, smul_zero_r, sadd_zero_r.
      rewrite bidx_3d by assumption. reflexivity.
Qed.


Lemma trunk_spec rnd (kw : TransformerDiffusion.kwargs R) (m : TransformerDiffusion.t R)
    (mode : bool) (x ts code_emb : tensor R) (unused : list (tensor R)) (b n : nat) :
  TransformerDiffusion.__init__ rnd kw = Ok m ->
  shape x = [b; TransformerDiffusion.kw_in_channels kw; n] ->
  shape ts = [b] ->
  shape code_emb = [b; n; TransformerDiffusion.kw_prenet_channels kw] ->
  0 < n ->
  exists out,
    returns (TransformerDiffusion.trunk (TransformerDiffusion.train m mode)
               x ts code_emb unused) out
    /\ shape out = [b; TransformerDiffusion.kw_out_channels kw; n]
    /\ (ScalarLaws R -> forall i j k,
          i < b -> j < TransformerDiffusion.kw_out_channels kw -> k < n ->
          data out [i; j; k] = szero).
Proof.
  intros Hinit Hx Hts Hce Hn.
  apply init_inv in Hinit as (ls & st & Hls & ->).
  apply make_layers_inv in Hls as [_ Hls].
  set (P := TransformerDiffusion.kw_prenet_channels kw) in *.
  set (E := TransformerDiffusion.kw_time_embed_dim kw) in *.
  set (M := TransformerDiffusion.kw_model_channels kw) in *.
  destruct (timestep_embedding_ok ts b E Hts) as (te & E1 & H1).
  destruct (Linear_forward_ok rnd "time_embed.0" E E true te [b] E H1 eq_refl)
    as (t1 & E2 & H2).
  destruct (pointwise_ok silu t1) as (t2 & E3 & H3). rewrite H2 in H3.
  destruct (Linear_forward_ok rnd "time_embed.2" E E true t2 [b] E H3 eq_refl)
    as (blk_emb & E4 & H4).
  destruct (Conv1d_forward_ok rnd "inp_block" (TransformerDiffusion.kw_in_channels kw) P
              x b _ n Hx eq_refl Hn) as (x1 & E5 & H5).
  destruct (permute021_3d x1 b P n H5) as (x2 & E6 & H6 & _).
  destruct (cat_last_pair_ok x2 code_emb b n P P H6 Hce) as (c & E7 & H7).
  destruct (Linear_forward_ok rnd "intg" (P * 2) M true c [b; n] (P + P) H7 ltac:(lia))
    as (x3 & E8 & H8).
  destruct (run_layers_init rnd M (TransformerDiffusion.kw_contraction_dim kw) E
              (TransformerDiffusion.kw_num_heads kw) ls blk_emb
              (Tensor [n; TransformerDiffusion.kw_rotary_emb_dim kw]
                 (rotary_data (TransformerDiffusion.kw_rotary_emb_dim kw) n) ∅)
              b n Hls H4 Hn x3 H8) as (x4 & R9 & H9 & _).
  destruct (permute021_3d x4 b n M H9) as (x5 & E10 & H10 & _).
  destruct (GroupNorm_forward_ok rnd "out.0" M x5 b n H10) as (g & E11 & H11).
  destruct (pointwise_ok silu g) as (g1 & E12 & H12). rewrite H11 in H12.
  destruct (Conv1d_zero_forward rnd "out.2" M (TransformerDiffusion.kw_out_channels kw)
              g1 b n H12 Hn) as (o & E13 & H13 & D13).
  destruct (sum_means_scalar unused (PyInt 0) I) as (v & R14 & H14).
  destruct (add_zero_weighted_ok o v b _ n H13 H14) as (out & R15 & H15 & D15).
  exists out. split; [|split; [exact H15|]].
  - unfold TransformerDiffusion.trunk, TransformerDiffusion.time_embed_forward,
      TransformerDiffusion.out_forward.
    model_fields.
    eapply returns_bind; [apply returns_op; exact E1|].
    eapply returns_bind.
    { eapply returns_bind; [apply returns_op; exact E2|].
      eapply returns_bind; [apply returns_op; exact E3|].
      apply returns_op; exact E4. }
    eapply returns_bind; [apply returns_op; exact E5|].
    eapply returns_bind; [apply returns_op; exact E6|].
    eapply returns_bind.
    { apply returns_pure. unfold Torch.shape_at. rewrite H6. reflexivity. }
    eapply returns_bind; [apply returns_op; reflexivity|].
    eapply returns_bind; [apply returns_op; exact E7|].
    eapply returns_bind; [apply returns_op; exact E8|].
    eapply returns_bind; [exact R9|].
    eapply returns_bind; [apply returns_op; exact E10|].
    eapply returns_bind.
    { eapply returns_bind; [apply returns_op; exact E11|].
      eapply returns_bind; [apply returns_op; exact E12|].
      apply returns_op; exact E13. }
    eapply returns_bind; [exact R14|].
    eapply returns_bind; [exact R15|].
    apply returns_ret.
  - intros Laws i j k Hi Hj Hk. rewrite (D15 Laws) by assumption. apply (D13 Laws).
Qed.

Lemma conditioning_spec rnd (kw : TransformerDiffusion.kwargs R)
    (m : TransformerDiffusion.t R) (mode : bool) (draw : index -> R) (x : tensor R)
    (codes ci pce : option (tensor R)) (cf : bool) (b c n s : nat) :
  TransformerDiffusion.__init__ rnd kw = Ok m ->
  shape x = [b; c; n] -> 0 < n ->
  (cf = true /\ TransformerDiffusion.arguments_ok codes ci pce)
  \/ (cf = false /\ codes = None /\ ci = None
      /\ exists e, pce = Some e
                   /\ shape e = [b; n; TransformerDiffusion.kw_prenet_channels kw])
  \/ (cf = false /\ pce = None
      /\ exists p, codes = Some p
                   /\ shape p = [b; s; TransformerDiffusion.kw_input_vec_dim kw] /\ 0 < s) ->
  exists cu,
    returns (TransformerDiffusion.conditioning (TransformerDiffusion.train m mode)
               draw x codes ci pce cf) cu
    /\ shape cu.1 = [b; n; TransformerDiffusion.kw_prenet_channels kw].
Proof.
  intros Hinit Hx Hn Hcall.
  assert (Hlast : Torch.shape_last x = Ok n).
  { unfold Torch.shape_last. rewrite Hx. reflexivity. }
  destruct Hcall as [[-> Hargs]|[(-> & -> & -> & e & -> & He)|(-> & -> & p & -> & Hp & Hs)]].
  - apply init_inv in Hinit as (ls & st & _ & ->).
    destruct (repeat_row_ok
                (Torch.mk_param rnd "unconditioned_embedding"
                   [1; 1; TransformerDiffusion.kw_prenet_channels kw])
                (TransformerDiffusion.kw_prenet_channels kw) b n eq_refl)
      as (u & Eu & Hu & _).
    exists (u, []). split; [|exact Hu].
    intros k. rewrite (conditioning_free_eq _ draw x codes ci pce k Hargs).
    revert k. unfold TransformerDiffusion.conditioning. model_fields.
    eapply returns_bind; [apply returns_ret|].
    eapply returns_bind.
    { apply returns_pure. unfold Torch.shape_at. rewrite Hx. reflexivity. }
    eapply returns_bind; [apply returns_pure; exact Hlast|].
    eapply returns_bind; [apply returns_op; exact Eu|].
    apply returns_ret.
  - eexists (e, _). split; [|exact He].
    unfold TransformerDiffusion.conditioning.
    eapply returns_bind; [apply returns_ret|].
    eapply returns_bind; [apply returns_ret|].
    apply returns_ret.
  - destruct (timestep_independent_spec rnd kw m mode draw p b s n Hinit Hp Hs Hn)
      as (lin & enc & e0 & ce & out & _ & _ & _ & _ & Rout & Hout & _).
    eexists (out, _). split; [|exact Hout].
    unfold TransformerDiffusion.conditioning.
    eapply returns_bind; [apply returns_ret|].
    eapply returns_bind.
    { eapply returns_bind; [apply returns_pure; exact Hlast|]. exact Rout. }
    apply returns_ret.
Qed.

Lemma forward_spec rnd (kw : TransformerDiffusion.kwargs R)
    (m : TransformerDiffusion.t R) (mode : bool) (draw : index -> R) (x ts : tensor R)
    (codes ci pce : option (tensor R)) (cf : bool) (b n s : nat) :
  TransformerDiffusion.__init__ rnd kw = Ok m ->
  shape x = [b; TransformerDiffusion.kw_in_channels kw; n] ->
  shape ts = [b] -> 0 < n ->
  (cf = true /\ TransformerDiffusion.arguments_ok codes ci pce)
  \/ (cf = false /\ codes = None /\ ci = None
      /\ exists e, pce = Some e
                   /\ shape e = [b; n; TransformerDiffusion.kw_prenet_channels kw])
  \/ (cf = false /\ pce = None
      /\ exists p, codes = Some p
                   /\ shape p = [b; s; TransformerDiffusion.kw_input_vec_dim kw] /\ 0 < s) ->
  exists out,
    returns (TransformerDiffusion.forward (TransformerDiffusion.train m mode)
               draw x ts codes ci pce cf) out
    /\ shape out = [b; TransformerDiffusion.kw_out_channels kw; n]
    /\ (ScalarLaws R -> forall i j k,
          i < b -> j < TransformerDiffusion.kw_out_channels kw -> k < n ->
          data out [i; j; k] = szero).
Proof.
  intros Hinit Hx Hts Hn Hcall.
  destruct (conditioning_spec rnd kw m mode draw x codes ci pce cf b _ n s
              Hinit Hx Hn Hcall) as (cu & Rcu & Hcu).
  destruct (trunk_spec rnd kw m mode x ts cu.1 cu.2 b n Hinit Hx Hts Hcu Hn)
    as (out & Rout & Hout & Dout).
  exists out. split; [|split; [exact Hout|exact Dout]].
  unfold TransformerDiffusion.forward. eapply returns_bind; [exact Rcu|exact Rout].
Qed.

End Shapes.
(** The small model is what the constructor returns on the small keyword
    arguments. *)
Lemma example_model_init :
  TransformerDiffusion.__init__ Example.rnd Example.kwargs = Ok Example.model.
Proof.
  exact (eq_refl (Ok Example.model)
         <: @TransformerDiffusion.__init__ Z Example.Z_scalar Example.Z_externals
              Example.rnd Example.kwargs = Ok Example.model).
Qed.

(** C3.  On a model built by the constructor, in training or in evaluation
    mode, a call of [forward] with an input of shape
    (batch, in_channels, length), one timestep per batch element, a positive
    length and a valid conditioning (conditioning-free; or precomputed
    embeddings of shape (batch, length, prenet_channels) and nothing else; or
    codes of shape (batch, code_length, input_vec_dim) with a positive code
    length) returns a tensor of shape (batch, out_channels, length). *)
Theorem forward_output_shape {R : Type} {SR : Scalar R} {EX : Externals R}
    (rnd : string -> index -> R) (kw : TransformerDiffusion.kwargs R)
    (m : TransformerDiffusion.t R) (mode : bool) (draw : index -> R)
    (x timesteps : tensor R)
    (codes conditioning_input precomputed_code_embeddings : option (tensor R))
    (conditioning_free : bool) (batch length code_length : nat) :
  TransformerDiffusion.__init__ rnd kw = Ok m ->
  shape x = [batch; TransformerDiffusion.kw_in_channels kw; length] ->
  shape timesteps = [batch] ->
  0 < length ->
  (conditioning_free = true
   /\ TransformerDiffusion.arguments_ok codes conditioning_input precomputed_code_embeddings)
  \/ (conditioning_free = false /\ codes = None /\ conditioning_input = None
      /\ exists e, precomputed_code_embeddings = Some e
                   /\ shape e = [batch; length; TransformerDiffusion.kw_prenet_channels kw])
  \/ (conditioning_free = false /\ precomputed_code_embeddings = None
      /\ exists p, codes = Some p
                   /\ shape p = [batch; code_length; TransformerDiffusion.kw_input_vec_dim kw]
                   /\ 0 < code_length) ->
  exists out,
    returns (TransformerDiffusion.forward (TransformerDiffusion.train m mode) draw
               x timesteps codes conditioning_input precomputed_code_embeddings
               conditioning_free) out
    /\ shape out = [batch; TransformerDiffusion.kw_out_channels kw; length].
Proof.
  intros Hinit Hx Hts Hn Hcall.
  destruct (forward_spec rnd kw m mode draw x timesteps codes conditioning_input
              precomputed_code_embeddings conditioning_free batch length code_length
              Hinit Hx Hts Hn Hcall) as (out & Rout & Hout & _).
  exists out. split; [exact Rout|exact Hout].
Qed.

Lemma forward_output_shape_witness :
  exists out,
    returns (TransformerDiffusion.forward (TransformerDiffusion.train Example.model true)
               (fun _ => 0%Z) (Example.full [2; 2; 5] 3%Z) (Example.full [2] 7%Z)
               (Some (Example.full [2; 3; 2] 1%Z)) None None false) out
    /\ shape out = [2; 4; 5].
Proof.
  apply (forward_output_shape Example.rnd Example.kwargs Example.model true
           (fun _ => 0%Z) (Example.full [2; 2; 5] 3%Z) (Example.full [2] 7%Z)
           (Some (Example.full [2; 3; 2] 1%Z)) None None false 2 5 3).
  - exact example_model_init.
  - reflexivity.
  - reflexivity.
  - lia.
  - right. right. split; [reflexivity|]. split; [reflexivity|].
    eexists. split; [reflexivity|]. split; [reflexivity|lia].
Defined.




(** C8.  On a model fresh from the constructor, hence in training mode, with
    [unconditioned_percentage > 0], and a prior of shape
    (batch, code_length, input_vec_dim): [timestep_independent] returns a
    tensor of shape (batch, length, prenet_channels) and, whatever [torch.rand]
    drew, each batch element is decided by its own single draw; when the draw
    is below the percentage every position of the element holds the
    unconditioned embedding, otherwise every position holds a frame of the
    computed code embedding of that same element, the frame that
    [F.interpolate] selects for the position ([Torch.nearest_idx], which lies
    within the code sequence). *)
Theorem unconditioned_mask_per_batch_element {R : Type} {SR : Scalar R} {EX : Externals R}
    (rnd : string -> index -> R) (kw : TransformerDiffusion.kwargs R)
    (m : TransformerDiffusion.t R) (draw : index -> R) (prior : tensor R)
    (batch code_length length : nat) :
  let pct := TransformerDiffusion.kw_unconditioned_percentage kw in
  let p := TransformerDiffusion.kw_prenet_channels kw in
  TransformerDiffusion.__init__ rnd kw = Ok m ->
  sltb (sof_Z 0) pct = true ->
  shape prior = [batch; code_length; TransformerDiffusion.kw_input_vec_dim kw] ->
  0 < code_length -> 0 < length ->
  TransformerDiffusion.training m = true
  /\ TransformerDiffusion.unconditioned_percentage m = pct
  /\ exists lin enc e0 code_emb out,
       TransformerDiffusion.converters m = Ok (lin, enc)
       /\ Linear.forward lin prior = Ok e0
       /\ Encoder.forward enc e0 = Ok code_emb
       /\ returns (TransformerDiffusion.timestep_independent m draw (Some prior) length) out
       /\ shape out = [batch; length; p]
       /\ forall i, i < batch ->
            (sltb (draw [i; 0; 0]) pct = true
             /\ forall j k, j < length -> k < p ->
                  data out [i; j; k]
                  = data (TransformerDiffusion.unconditioned_embedding m) [0; 0; k])
            \/ (sltb (draw [i; 0; 0]) pct = false
                /\ forall j k, j < length -> k < p ->
                     Torch.nearest_idx code_length length j < code_length
                     /\ data out [i; j; k]
                        = data code_emb [i; Torch.nearest_idx code_length length j; k]).
Proof.
  intros pct p Hinit Hpct Hprior Hs Hn.
  destruct (timestep_independent_spec rnd kw m true draw prior batch code_length length
              Hinit Hprior Hs Hn)
    as (lin & enc & e0 & ce & out & Hconv & Elin & Eenc & _ & Rout & Hout & Dout).
  apply init_inv in Hinit as (ls & st & _ & ->).
  split; [reflexivity|]. split; [reflexivity|].
  exists lin, enc, e0, ce, out.
  split; [exact Hconv|]. split; [exact Elin|]. split; [exact Eenc|].
  split; [exact Rout|]. split; [exact Hout|].
  intros i Hi. fold pct in Dout. rewrite Hpct in Dout. cbn [andb] in Dout.
  destruct (sltb (draw [i; 0; 0]) pct) eqn:Hd; [left|right]; (split; [reflexivity|]);
    intros j k Hj Hk; [|split; [apply nearest_idx_lt; assumption|]];
    rewrite (Dout i j k Hi Hj Hk), Hd; reflexivity.
Qed.

Lemma unconditioned_mask_per_batch_element_witness :
  let m := Example.model in
  let draw : index -> Z := fun idx => match idx with 0 :: _ => 0%Z | _ => 5%Z end in
  let prior := Example.full [2; 3; 2] 1%Z in
  TransformerDiffusion.training m = true
  /\ TransformerDiffusion.unconditioned_percentage m = 1%Z
  /\ exists lin enc e0 code_emb out,
       TransformerDiffusion.converters m = Ok (lin, enc)
       /\ Linear.forward lin prior = Ok e0
       /\ Encoder.forward enc e0 = Ok code_emb
       /\ returns (TransformerDiffusion.timestep_independent m draw (Some prior) 5) out
       /\ shape out = [2; 5; 2]
       /\ forall i, i < 2 ->
            (sltb (draw [i; 0; 0]) 1%Z = true
             /\ forall j k, j < 5 -> k < 2 ->
                  data out [i; j; k]
                  = data (TransformerDiffusion.unconditioned_embedding m) [0; 0; k])
            \/ (sltb (draw [i; 0; 0]) 1%Z = false
                /\ forall j k, j < 5 -> k < 2 ->
                     Torch.nearest_idx 3 5 j < 3
                     /\ data out [i; j; k] = data code_emb [i; Torch.nearest_idx 3 5 j; k]).
Proof.
  apply (unconditioned_mask_per_batch_element Example.rnd Example.kwargs Example.model
           (fun idx => match idx with 0 :: _ => 0%Z | _ => 5%Z end)
           (Example.full [2; 3; 2] 1%Z) 2 3 5).
  - exact example_model_init.
  - reflexivity.
  - reflexivity.
  - lia.
  - lia.
Defined.

(** * Further properties

    Properties of the parts of the file that the statements above leave out:
    the failure modes of the constructor and of [forward], the values that
    [forward] and [timestep_independent] compute, the parameter groups, the
    embedding of grouped token ids and the wrappers. *)

Ltac diffusion_fields :=
  cbn [TransformerDiffusion.train TransformerDiffusion.set_attrs TransformerDiffusion.assign
       TransformerDiffusion.in_channels TransformerDiffusion.model_channels
       TransformerDiffusion.prenet_channels TransformerDiffusion.time_embed_dim
       TransformerDiffusion.out_channels TransformerDiffusion.unconditioned_percentage
       TransformerDiffusion.inp_block TransformerDiffusion.time_embed
       TransformerDiffusion.ar_prior TransformerDiffusion.ar_input
       TransformerDiffusion.ar_prior_intg TransformerDiffusion.input_converter
       TransformerDiffusion.code_converter TransformerDiffusion.unconditioned_embedding
       TransformerDiffusion.rotary_embeddings TransformerDiffusion.intg
       TransformerDiffusion.layers TransformerDiffusion.out TransformerDiffusion.training
       TransformerDiffusion.attrs fst snd].

(** ** Exceptions and operation counts *)

Section RaiseLemmas.
Context {A B : Type}.

Lemma raises_op (r : result A) (e : exn) : r = Raise e -> raises (op r) e.
Proof. intros -> n. exists (S n). reflexivity. Qed.

Lemma raises_pure (r : result A) (e : exn) : r = Raise e -> raises (pure r) e.
Proof. intros -> n. exists n. reflexivity. Qed.

Lemma raises_bind (m : M A) (k : A -> M B) (e : exn) :
  raises m e -> raises (m ≫= k) e.
Proof. intros Hm n. destruct (Hm n) as [n' E]. exists n'. apply bind_raise. exact E. Qed.

Lemma raises_bind_ok (m : M A) (k : A -> M B) (a : A) (e : exn) :
  returns m a -> raises (k a) e -> raises (m ≫= k) e.
Proof.
  intros Hm Hk n. destruct (Hm n) as [n1 E1]. destruct (Hk n1) as [n2 E2].
  exists n2. rewrite (bind_ok _ _ _ _ _ E1). exact E2.
Qed.

Lemma raises_inj (m : M A) (e e' : exn) : raises m e -> raises m e' -> e = e'.
Proof.
  intros H H'. destruct (H 0) as [n E]. destruct (H' 0) as [n' E'].
  rewrite E in E'. congruence.
Qed.

End RaiseLemmas.

Section CountIndependence.
Context {A B : Type}.

Lemma count_independent_ret (a : A) : count_independent (mret a).
Proof. intros n n'. reflexivity. Qed.

Lemma count_independent_op (r : result A) : count_independent (op r).
Proof. intros n n'. reflexivity. Qed.

Lemma count_independent_pure (r : result A) : count_independent (pure r).
Proof. intros n n'. reflexivity. Qed.

Lemma count_independent_bind (m : M A) (k : A -> M B) :
  count_independent m -> (forall a, count_independent (k a)) ->
  count_independent (m ≫= k).
Proof.
  intros Hm Hk n n'. specialize (Hm n n'). unfold mbind, M_bind.
  destruct (m n) as [[a|e] n1], (m n') as [[a'|e'] n1']; cbn [fst] in Hm;
    try discriminate Hm.
  - injection Hm as <-. apply Hk.
  - cbn [fst]. congruence.
Qed.

Lemma count_independent_fmap (f : A -> B) (m : M A) :
  count_independent m -> count_independent (f <$> m).
Proof.
  intros Hm n n'. specialize (Hm n n'). unfold fmap, M_fmap.
  destruct (m n) as [[a|e] n1], (m n') as [[a'|e'] n1']; cbn [fst] in Hm |- *;
    congruence.
Qed.

End CountIndependence.

Section ForwardCountIndependence.
Context {R : Type} {SR : Scalar R} {EX : Externals R}.

Ltac ci_step :=
  first
    [ apply count_independent_ret
    | apply count_independent_op
    | apply count_independent_pure
    | apply count_independent_fmap
    | apply count_independent_bind; [|intros ?] ].

Lemma SubBlock_forward_ci (b : SubBlock.t R) (x rot : tensor R) :
  count_independent (SubBlock.forward b x rot).
Proof. unfold SubBlock.forward, checkpoint. repeat ci_step. Qed.

Lemma ConcatAttentionBlock_forward_ci (l : ConcatAttentionBlock.t R) (x emb rot : tensor R) :
  count_independent (ConcatAttentionBlock.forward l x emb rot).
Proof.
  unfold ConcatAttentionBlock.forward.
  repeat first [apply SubBlock_forward_ci | ci_step].
Qed.

Lemma run_layers_ci (ls : list (ConcatAttentionBlock.t R)) (x emb rot : tensor R) :
  count_independent (TransformerDiffusion.run_layers ls x emb rot).
Proof.
  revert x. induction ls as [|l ls IH]; intros x; cbn [TransformerDiffusion.run_layers].
  - apply count_independent_ret.
  - apply count_independent_bind; [apply ConcatAttentionBlock_forward_ci|].
    intros y. apply IH.
Qed.

Lemma sum_means_ci (ps : list (tensor R)) (acc : pyvalue R) :
  count_independent (TransformerDiffusion.sum_means acc ps).
Proof.
  revert acc. induction ps as [|p ps IH]; intros acc; cbn [TransformerDiffusion.sum_means].
  - apply count_independent_ret.
  - apply count_independent_bind; [|intros a; apply IH].
    unfold TransformerDiffusion.add_mean. ci_step; [ci_step|].
    destruct acc; repeat ci_step.
Qed.

Lemma trunk_ci (self : TransformerDiffusion.t R) (x ts code_emb : tensor R)
    (unused : list (tensor R)) :
  count_independent (TransformerDiffusion.trunk self x ts code_emb unused).
Proof.
  unfold TransformerDiffusion.trunk, TransformerDiffusion.time_embed_forward,
    TransformerDiffusion.out_forward, TransformerDiffusion.add_zero_weighted.
  repeat first [apply run_layers_ci | apply sum_means_ci | ci_step | case_match].
Qed.

End ForwardCountIndependence.

(** ** The stand-in objects are what the constructors return *)

Lemma example_ar_model_init :
  TransformerDiffusion.__init__ Example.rnd (Example.kwargs_with 1 true false)
  = Ok Example.ar_model.
Proof.
  exact (eq_refl (Ok Example.ar_model)
         <: @TransformerDiffusion.__init__ Z Example.Z_scalar Example.Z_externals
              Example.rnd (Example.kwargs_with 1 true false) = Ok Example.ar_model).
Qed.

Lemma example_block_init :
  SubBlock.__init__ Example.rnd "block" 3 2 1 = Ok Example.block.
Proof.
  exact (eq_refl (Ok Example.block)
         <: @SubBlock.__init__ Z Example.Z_externals
              Example.rnd "block" 3 2 1 = Ok Example.block).
Qed.

Lemma example_ar_wrapper_init :
  TransformerDiffusionWithARPrior.__init__ Example.rnd Example.prior_model true Example.kwargs
  = Ok Example.ar_wrapper.
Proof.
  exact (eq_refl (Ok Example.ar_wrapper)
         <: @TransformerDiffusionWithARPrior.__init__ Z Example.Z_scalar Example.Z_externals
              Example.rnd Example.prior_model true Example.kwargs = Ok Example.ar_wrapper).
Qed.

(** ** Failure modes of the constructor *)

(** X1.  With [num_heads = 0] and at least one layer the constructor raises
    ZeroDivisionError: the first block divides [contraction_dim] by the number
    of heads. *)
Theorem init_zero_heads_raises {R : Type} {SR : Scalar R} {EX : Externals R}
    (rnd : string -> index -> R) (kw : TransformerDiffusion.kwargs R) :
  TransformerDiffusion.kw_num_heads kw = 0 ->
  0 < TransformerDiffusion.kw_num_layers kw ->
  TransformerDiffusion.__init__ rnd kw = Raise ZeroDivisionError.
Proof.
  intros Hh Hl. unfold TransformerDiffusion.__init__.
  destruct (TransformerDiffusion.kw_num_layers kw) as [|n]; [lia|].
  cbn [TransformerDiffusion.make_layers].
  unfold ConcatAttentionBlock.__init__, SubBlock.__init__. rewrite Hh.
  reflexivity.
Qed.

Lemma init_zero_heads_raises_witness :
  TransformerDiffusion.__init__ Example.rnd (Example.kwargs_with 0 false false)
  = Raise ZeroDivisionError.
Proof.
  apply (init_zero_heads_raises Example.rnd (Example.kwargs_with 0 false false)).
  - reflexivity.
  - simpl. lia.
Defined.

(** X2.  With [ar_prior=True] and [freeze_except_code_converters=True] the
    constructor raises AttributeError: after freezing every parameter it reads
    [self.input_converter], which exists only when [ar_prior] is false.  (The
    layers must be constructible: a positive number of heads, or no layer.) *)
Theorem init_freeze_with_ar_prior_raises {R : Type} {SR : Scalar R} {EX : Externals R}
    (rnd : string -> index -> R) (kw : TransformerDiffusion.kwargs R) :
  TransformerDiffusion.kw_ar_prior kw = true ->
  TransformerDiffusion.kw_freeze_except_code_converters kw = true ->
  TransformerDiffusion.kw_num_heads kw <> 0 \/ TransformerDiffusion.kw_num_layers kw = 0 ->
  TransformerDiffusion.__init__ rnd kw = Raise (AttributeError "input_converter").
Proof.
  intros Har Hfr Hh. unfold TransformerDiffusion.__init__.
  assert (exists ls, TransformerDiffusion.make_layers rnd kw 0
                       (TransformerDiffusion.kw_num_layers kw) = Ok ls) as [ls ->].
  { destruct Hh as [Hh| ->]; [apply make_layers_ok; exact Hh|]. eexists. reflexivity. }
  rewrite Hfr. cbn [py_floordiv mbind result_bind].
  unfold py_floordiv. cbn [decide].
  diffusion_fields. rewrite Har. reflexivity.
Qed.

Lemma init_freeze_with_ar_prior_raises_witness :
  TransformerDiffusion.__init__ Example.rnd (Example.kwargs_with 1 true true)
  = Raise (AttributeError "input_converter").
Proof.
  apply (init_freeze_with_ar_prior_raises Example.rnd (Example.kwargs_with 1 true true)).
  - reflexivity.
  - reflexivity.
  - left. discriminate.
Defined.

(** ** Calls of [forward] that fail *)

Section Errors.
Context {R : Type} {SR : Scalar R} {EX : Externals R}.

Lemma shape_last_ok (x : tensor R) : shape x <> [] -> exists n, Torch.shape_last x = Ok n.
Proof.
  intros Hx. unfold Torch.shape_last.
  destruct (shape x) as [|d s]; [congruence|].
  cbn [Torch.split_last]. destruct (Torch.split_last s) as [[p l]|]; eexists; reflexivity.
Qed.

Lemma split_last_Some {A} (l p : list A) (d : A) :
  Torch.split_last l = Some (p, d) -> l = p ++ [d].
Proof.
  revert p. induction l as [|a l IH]; intros p H; [discriminate|].
  cbn [Torch.split_last] in H. destruct (Torch.split_last l) as [[q y]|] eqn:E.
  - injection H as <- <-. rewrite (IH q eq_refl). reflexivity.
  - injection H as <- <-. destruct l as [|a' l]; [reflexivity|].
    cbn [Torch.split_last] in E. destruct (Torch.split_last l) as [[]|]; discriminate.
Qed.

(** The time embedding and the input projection at the head of [trunk]. *)
Lemma trunk_head rnd (kw : TransformerDiffusion.kwargs R) (ls : list (ConcatAttentionBlock.t R))
    (st : ParamAttrs.store) (mode : bool) (x ts : tensor R) (b n : nat) :
  let m := TransformerDiffusion.set_attrs
             (TransformerDiffusion.assign rnd kw
                (TransformerDiffusion.kw_prenet_channels kw / 64) ls) st in
  let self := TransformerDiffusion.train m mode in
  shape x = [b; TransformerDiffusion.kw_in_channels kw; n] ->
  shape ts = [b] -> 0 < n ->
  exists blk_emb x2,
    shape blk_emb = [b; TransformerDiffusion.kw_time_embed_dim kw]
    /\ shape x2 = [b; n; TransformerDiffusion.kw_prenet_channels kw]
    /\ forall (code_emb : tensor R) (unused : list (tensor R)) (k : nat),
         exists k',
           TransformerDiffusion.trunk self x ts code_emb unused k
           = (c ← op (Torch.cat_last [x2; code_emb]);
              x ← op (Linear.forward (TransformerDiffusion.intg self) c);
              x ← TransformerDiffusion.run_layers (TransformerDiffusion.layers self) x blk_emb
                    (Tensor [n; TransformerDiffusion.kw_rotary_emb_dim kw]
                       (rotary_data (TransformerDiffusion.kw_rotary_emb_dim kw) n) ∅);
              x ← op (Torch.permute021 x);
              out ← TransformerDiffusion.out_forward self x;
              extraneous_addition ← TransformerDiffusion.sum_means (PyInt 0) unused;
              out ← TransformerDiffusion.add_zero_weighted out extraneous_addition;
              mret out) k'.
Proof.
  intros m self Hx Hts Hn. subst m self.
  set (P := TransformerDiffusion.kw_prenet_channels kw) in *.
  set (E := TransformerDiffusion.kw_time_embed_dim kw) in *.
  destruct (timestep_embedding_ok ts b E Hts) as (te & E1 & H1).
  destruct (Linear_forward_ok rnd "time_embed.0" E E true te [b] E H1 eq_refl)
    as (t1 & E2 & H2).
  destruct (pointwise_ok silu t1) as (t2 & E3 & H3). rewrite H2 in H3.
  destruct (Linear_forward_ok rnd "time_embed.2" E E true t2 [b] E H3 eq_refl)
    as (blk_emb & E4 & H4).
  destruct (Conv1d_forward_ok rnd "inp_block" (TransformerDiffusion.kw_in_channels kw) P
              x b _ n Hx eq_refl Hn) as (x1 & E5 & H5).
  destruct (permute021_3d x1 b P n H5) as (x2 & E6 & H6 & _).
  exists blk_emb, x2. split; [exact H4|]. split; [exact H6|].
  intros ce unused k.
  exists (S (S (S (S (S (S (S k))))))).
  unfold TransformerDiffusion.trunk, TransformerDiffusion.time_embed_forward. diffusion_fields.
  unfold mbind, M_bind, mret, M_ret, op, pure.
  fold E P. rewrite E1; cbv beta iota. rewrite E2; cbv beta iota.
  rewrite E3; cbv beta iota. rewrite E4; cbv beta iota.
  rewrite E5; cbv beta iota. rewrite E6; cbv beta iota.
  unfold Torch.shape_at. rewrite H6. cbn [lookup list_lookup]. cbv beta iota.
  unfold RotaryEmbedding.forward, RotaryEmbedding.init. cbn [RotaryEmbedding.dim].
  reflexivity.
Qed.

End Errors.

(** X3.  A call of [forward] on a constructed model with no conditioning at
    all (no codes, no precomputed embeddings, not conditioning-free) raises
    TypeError: the code converter is applied to [None].  The input needs at
    least one axis, since [x.shape[-1]] is read first. *)
Theorem forward_without_conditioning_raises {R : Type} {SR : Scalar R} {EX : Externals R}
    (rnd : string -> index -> R) (kw : TransformerDiffusion.kwargs R)
    (m : TransformerDiffusion.t R) (mode : bool) (draw : index -> R)
    (x ts : tensor R) (ci : option (tensor R)) :
  TransformerDiffusion.__init__ rnd kw = Ok m -> shape x <> [] ->
  raises (TransformerDiffusion.forward (TransformerDiffusion.train m mode)
            draw x ts None ci None false) TypeError.
Proof.
  intros Hinit Hx. apply init_inv in Hinit as (ls & st & _ & ->).
  destruct (shape_last_ok x Hx) as [n Hn].
  unfold TransformerDiffusion.forward. apply raises_bind.
  unfold TransformerDiffusion.conditioning.
  eapply raises_bind_ok; [apply returns_ret|].
  apply raises_bind.
  eapply raises_bind_ok; [apply returns_pure; exact Hn|].
  unfold TransformerDiffusion.timestep_independent. diffusion_fields.
  apply raises_bind.
  destruct (TransformerDiffusion.kw_ar_prior kw);
    (eapply raises_bind_ok; [apply returns_pure; reflexivity|]);
    apply raises_op; reflexivity.
Qed.

Lemma forward_without_conditioning_raises_witness :
  raises (TransformerDiffusion.forward (TransformerDiffusion.train Example.model true)
            (fun _ => 0%Z) (Example.full [2; 2; 5] 3%Z) (Example.full [2] 7%Z)
            None None None false) TypeError.
Proof.
  apply (forward_without_conditioning_raises Example.rnd Example.kwargs Example.model true).
  - exact example_model_init.
  - discriminate.
Defined.

(** X4.  Precomputed code embeddings whose shape is not
    (batch, length, prenet_channels) are rejected with a RuntimeError, by the
    concatenation with the projected input or by the linear layer that
    follows it; they are never broadcast or cut to fit. *)
Theorem forward_rejects_misshapen_embeddings {R : Type} {SR : Scalar R} {EX : Externals R}
    (rnd : string -> index -> R) (kw : TransformerDiffusion.kwargs R)
    (m : TransformerDiffusion.t R) (mode : bool) (draw : index -> R)
    (x ts e : tensor R) (b n : nat) :
  TransformerDiffusion.__init__ rnd kw = Ok m ->
  shape x = [b; TransformerDiffusion.kw_in_channels kw; n] ->
  shape ts = [b] -> 0 < n ->
  shape e <> [b; n; TransformerDiffusion.kw_prenet_channels kw] ->
  raises (TransformerDiffusion.forward (TransformerDiffusion.train m mode)
            draw x ts None None (Some e) false) RuntimeError.
Proof.
  intros Hinit Hx Hts Hn He. apply init_inv in Hinit as (ls & st & _ & ->).
  destruct (trunk_head rnd kw ls st mode x ts b n Hx Hts Hn)
    as (blk & x2 & Hblk & Hx2 & Htrunk).
  unfold TransformerDiffusion.forward. eapply raises_bind_ok.
  { unfold TransformerDiffusion.conditioning.
    eapply returns_bind; [apply returns_ret|].
    eapply returns_bind; [apply returns_ret|].
    apply returns_ret. }
  cbn [fst snd]. intros k. destruct (Htrunk e ([] ++ [TransformerDiffusion.unconditioned_embedding
           (TransformerDiffusion.train
              (TransformerDiffusion.set_attrs
                 (TransformerDiffusion.assign rnd kw
                    (TransformerDiffusion.kw_prenet_channels kw / 64) ls) st) mode)]) k)
    as [k' ->].
  diffusion_fields.
  set (P := TransformerDiffusion.kw_prenet_channels kw) in *.
  assert (Hcat : Torch.cat_last [x2; e] = Raise RuntimeError
                 \/ exists c d, Torch.cat_last [x2; e] = Ok c
                                /\ shape c = [b; n] ++ [P + d] /\ d <> P).
  { unfold Torch.cat_last. rewrite Hx2. cbn [Torch.cat_last_from].
    unfold Torch.cat2_last. rewrite Hx2. cbn [Torch.split_last].
    destruct (Torch.split_last (shape e)) as [[pb db]|] eqn:Es; [|left; reflexivity].
    destruct (decide ([b; n] = pb)) as [<-|Hne]; [|left; reflexivity].
    right. eexists _, db. split; [reflexivity|]. split; [reflexivity|].
    intros ->. apply He. apply split_last_Some in Es. exact Es. }
  unfold mbind at 1. unfold M_bind at 1. unfold op at 1.
  destruct Hcat as [->|(c & d & -> & Hc & Hd)].
  - eexists. reflexivity.
  - unfold mbind at 1. unfold M_bind at 1. unfold op at 1.
    assert (Hlin : Linear.forward (Linear.init rnd "intg" (P * 2)
                      (TransformerDiffusion.kw_model_channels kw) true) c
                   = Raise RuntimeError).
    { unfold Linear.forward. cbn [Linear.init Linear.weight Torch.mk_param shape].
      rewrite Hc, split_last_snoc.
      rewrite bool_decide_eq_false_2 by lia. reflexivity. }
    rewrite Hlin. eexists. reflexivity.
Qed.

Lemma forward_rejects_misshapen_embeddings_witness :
  raises (TransformerDiffusion.forward (TransformerDiffusion.train Example.model false)
            (fun _ => 0%Z) (Example.full [2; 2; 5] 3%Z) (Example.full [2] 7%Z)
            None None (Some (Example.full [2; 4; 2] 9%Z)) false) RuntimeError.
Proof.
  apply (forward_rejects_misshapen_embeddings Example.rnd Example.kwargs Example.model false
           (fun _ => 0%Z) (Example.full [2; 2; 5] 3%Z) (Example.full [2] 7%Z)
           (Example.full [2; 4; 2] 9%Z) 2 5).
  - exact example_model_init.
  - reflexivity.
  - reflexivity.
  - lia.
  - discriminate.
Defined.

(** X5.  An input whose number of channels is not [in_channels] is rejected
    with a RuntimeError by the input convolution, whatever valid conditioning
    comes with it. *)
Theorem forward_rejects_wrong_channels {R : Type} {SR : Scalar R} {EX : Externals R}
    (rnd : string -> index -> R) (kw : TransformerDiffusion.kwargs R)
    (m : TransformerDiffusion.t R) (mode : bool) (draw : index -> R) (x ts : tensor R)
    (codes ci pce : option (tensor R)) (cf : bool) (b c n s : nat) :
  TransformerDiffusion.__init__ rnd kw = Ok m ->
  shape x = [b; c; n] -> c <> TransformerDiffusion.kw_in_channels kw ->
  shape ts = [b] -> 0 < n ->
  (cf = true /\ TransformerDiffusion.arguments_ok codes ci pce)
  \/ (cf = false /\ codes = None /\ ci = None
      /\ exists e, pce = Some e
                   /\ shape e = [b; n; TransformerDiffusion.kw_prenet_channels kw])
  \/ (cf = false /\ pce = None
      /\ exists p, codes = Some p
                   /\ shape p = [b; s; TransformerDiffusion.kw_input_vec_dim kw] /\ 0 < s) ->
  raises (TransformerDiffusion.forward (TransformerDiffusion.train m mode)
            draw x ts codes ci pce cf) RuntimeError.
Proof.
  intros Hinit Hx Hc Hts Hn Hcall.
  destruct (conditioning_spec rnd kw m mode draw x codes ci pce cf b c n s
              Hinit Hx Hn Hcall) as (cu & Rcu & _).
  apply init_inv in Hinit as (ls & st & _ & ->).
  unfold TransformerDiffusion.forward. eapply raises_bind_ok; [exact Rcu|].
  set (E := TransformerDiffusion.kw_time_embed_dim kw) in *.
  destruct (timestep_embedding_ok ts b E Hts) as (te & E1 & H1).
  destruct (Linear_forward_ok rnd "time_embed.0" E E true te [b] E H1 eq_refl)
    as (t1 & E2 & H2).
  destruct (pointwise_ok silu t1) as (t2 & E3 & H3). rewrite H2 in H3.
  destruct (Linear_forward_ok rnd "time_embed.2" E E true t2 [b] E H3 eq_refl)
    as (blk_emb & E4 & H4).
  unfold TransformerDiffusion.trunk, TransformerDiffusion.time_embed_forward. diffusion_fields.
  eapply raises_bind_ok; [apply returns_op; exact E1|].
  eapply raises_bind_ok.
  { eapply returns_bind; [apply returns_op; exact E2|].
    eapply returns_bind; [apply returns_op; exact E3|].
    apply returns_op; exact E4. }
  apply raises_bind. apply raises_op.
  unfold Conv1d.forward. cbn [Conv1d.init Conv1d.weight Torch.mk_param shape].
  rewrite Hx. rewrite bool_decide_eq_false_2 by (intros [? _]; contradiction).
  reflexivity.
Qed.

Lemma forward_rejects_wrong_channels_witness :
  raises (TransformerDiffusion.forward (TransformerDiffusion.train Example.model false)
            (fun _ => 0%Z) (Example.full [2; 3; 5] 3%Z) (Example.full [2] 7%Z)
            (Some (Example.full [2; 3; 2] 1%Z)) None None false) RuntimeError.
Proof.
  apply (forward_rejects_wrong_channels Example.rnd Example.kwargs Example.model false
           (fun _ => 0%Z) (Example.full [2; 3; 5] 3%Z) (Example.full [2] 7%Z)
           (Some (Example.full [2; 3; 2] 1%Z)) None None false 2 3 5 3).
  - exact example_model_init.
  - reflexivity.
  - discriminate.
  - reflexivity.
  - lia.
  - right. right. split; [reflexivity|]. split; [reflexivity|].
    eexists. split; [reflexivity|]. split; [reflexivity|lia].
Defined.

(** ** What [forward] computes *)

(** X6.  In exact arithmetic, a model fresh from the constructor returns the
    all-zero tensor on every valid call, in training and in evaluation mode:
    the blocks are identities, the final convolution is zero and the
    zero-weighted term adds nothing. *)
Theorem forward_zero_at_initialisation {R : Type} {SR : Scalar R} {EX : Externals R}
    {Laws : ScalarLaws R}
    (rnd : string -> index -> R) (kw : TransformerDiffusion.kwargs R)
    (m : TransformerDiffusion.t R) (mode : bool) (draw : index -> R)
    (x timesteps : tensor R)
    (codes conditioning_input precomputed_code_embeddings : option (tensor R))
    (conditioning_free : bool) (batch length code_length : nat) :
  TransformerDiffusion.__init__ rnd kw = Ok m ->
  shape x = [batch; TransformerDiffusion.kw_in_channels kw; length] ->
  shape timesteps = [batch] ->
  0 < length ->
  (conditioning_free = true
   /\ TransformerDiffusion.arguments_ok codes conditioning_input precomputed_code_embeddings)
  \/ (conditioning_free = false /\ codes = None /\ conditioning_input = None
      /\ exists e, precomputed_code_embeddings = Some e
                   /\ shape e = [batch; length; TransformerDiffusion.kw_prenet_channels kw])
  \/ (conditioning_free = false /\ precomputed_code_embeddings = None
      /\ exists p, codes = Some p
                   /\ shape p = [batch; code_length; TransformerDiffusion.kw_input_vec_dim kw]
                   /\ 0 < code_length) ->
  exists out,
    returns (TransformerDiffusion.forward (TransformerDiffusion.train m mode) draw
               x timesteps codes conditioning_input precomputed_code_embeddings
               conditioning_free) out
    /\ forall i j k, i < batch -> j < TransformerDiffusion.kw_out_channels kw -> k < length ->
         data out [i; j; k] = szero.
Proof.
  intros Hinit Hx Hts Hn Hcall.
  destruct (forward_spec rnd kw m mode draw x timesteps codes conditioning_input
              precomputed_code_embeddings conditioning_free batch length code_length
              Hinit Hx Hts Hn Hcall) as (out & Rout & _ & Dout).
  exists out. split; [exact Rout|exact (Dout Laws)].
Qed.

Lemma forward_zero_at_initialisation_witness :
  exists out,
    returns (TransformerDiffusion.forward (TransformerDiffusion.train Example.model false)
               (fun _ => 0%Z) (Example.full [2; 2; 5] 3%Z) (Example.full [2] 7%Z)
               None None (Some (Example.full [2; 5; 2] 9%Z)) false) out
    /\ forall i j k, i < 2 -> j < 4 -> k < 5 -> data out [i; j; k] = 0%Z.
Proof.
  apply (@forward_zero_at_initialisation Z Example.Z_scalar Example.Z_externals
           Example.Z_laws Example.rnd Example.kwargs Example.model false
           (fun _ => 0%Z) (Example.full [2; 2; 5] 3%Z) (Example.full [2] 7%Z)
           None None (Some (Example.full [2; 5; 2] 9%Z)) false 2 5 1).
  - exact example_model_init.
  - reflexivity.
  - reflexivity.
  - lia.
  - right. left. split; [reflexivity|]. split; [reflexivity|]. split; [reflexivity|].
    eexists. split; reflexivity.
Defined.

(** X7.  With [conditioning_free=True] and arguments that pass the check, the
    code embedding is the unconditioned embedding at every batch element and
    every position, and the list of unused parameters stays empty. *)
Theorem conditioning_free_embedding {R : Type} {SR : Scalar R} {EX : Externals R}
    (rnd : string -> index -> R) (kw : TransformerDiffusion.kwargs R)
    (m : TransformerDiffusion.t R) (mode : bool) (draw : index -> R) (x : tensor R)
    (codes conditioning_input precomputed_code_embeddings : option (tensor R))
    (batch channels length : nat) :
  TransformerDiffusion.__init__ rnd kw = Ok m ->
  shape x = [batch; channels; length] ->
  TransformerDiffusion.arguments_ok codes conditioning_input precomputed_code_embeddings ->
  exists code_emb,
    returns (TransformerDiffusion.conditioning (TransformerDiffusion.train m mode) draw x
               codes conditioning_input precomputed_code_embeddings true)
            (code_emb, [])
    /\ shape code_emb = [batch; length; TransformerDiffusion.kw_prenet_channels kw]
    /\ forall i j k, k < TransformerDiffusion.kw_prenet_channels kw ->
         data code_emb [i; j; k]
         = data (TransformerDiffusion.unconditioned_embedding m) [0; 0; k].
Proof.
  intros Hinit Hx Hargs.
  apply init_inv in Hinit as (ls & st & _ & ->).
  destruct (repeat_row_ok
              (Torch.mk_param rnd "unconditioned_embedding"
                 [1; 1; TransformerDiffusion.kw_prenet_channels kw])
              (TransformerDiffusion.kw_prenet_channels kw) batch length eq_refl)
    as (u & Eu & Hu & Du).
  exists u. split; [|split; [exact Hu|]].
  - intros k. rewrite (conditioning_free_eq _ draw x codes conditioning_input
                         precomputed_code_embeddings k Hargs).
    revert k. unfold TransformerDiffusion.conditioning. diffusion_fields.
    eapply returns_bind; [apply returns_ret|].
    eapply returns_bind.
    { apply returns_pure. unfold Torch.shape_at. rewrite Hx. reflexivity. }
    eapply returns_bind.
    { apply returns_pure. unfold Torch.shape_last. rewrite Hx. reflexivity. }
    eapply returns_bind; [apply returns_op; exact Eu|].
    apply returns_ret.
  - intros i j k Hk. diffusion_fields. apply Du. exact Hk.
Qed.

Lemma conditioning_free_embedding_witness :
  exists code_emb,
    returns (TransformerDiffusion.conditioning (TransformerDiffusion.train Example.model true)
               (fun _ => 0%Z) (Example.full [2; 2; 5] 3%Z)
               (Some (Example.full [2; 3; 2] 1%Z)) None None true)
            (code_emb, [])
    /\ shape code_emb = [2; 5; 2]
    /\ forall i j k, k < 2 ->
         data code_emb [i; j; k]
         = data (TransformerDiffusion.unconditioned_embedding Example.model) [0; 0; k].
Proof.
  apply (conditioning_free_embedding Example.rnd Example.kwargs Example.model true
           (fun _ => 0%Z) (Example.full [2; 2; 5] 3%Z)
           (Some (Example.full [2; 3; 2] 1%Z)) None None 2 2 5).
  - exact example_model_init.
  - reflexivity.
  - left. reflexivity.
Defined.

(** X8.  The code embeddings can be computed once and passed back: when
    [timestep_independent(codes, x.shape[-1])] returns [code_emb], the call
    [forward(x, timesteps, codes)] and the call
    [forward(x, timesteps, precomputed_code_embeddings=code_emb)] have the same
    outcome (with the same random draws, for any model and mode). *)
Theorem precomputed_code_embeddings_equivalent {R : Type} {SR : Scalar R} {EX : Externals R}
    (self : TransformerDiffusion.t R) (draw : index -> R) (x timesteps : tensor R)
    (codes : option (tensor R)) (length : nat) (code_emb : tensor R) :
  Torch.shape_last x = Ok length ->
  run (TransformerDiffusion.timestep_independent self draw codes length) = Ok code_emb ->
  run (TransformerDiffusion.forward self draw x timesteps codes None None false)
  = run (TransformerDiffusion.forward self draw x timesteps None None (Some code_emb) false).
Proof.
  intros Hlen Hti. unfold run in *.
  destruct (TransformerDiffusion.timestep_independent self draw codes length 0)
    as [[e|ex] k] eqn:E; cbn [fst] in Hti; [|discriminate Hti].
  injection Hti as ->.
  unfold TransformerDiffusion.forward.
  erewrite (bind_ok (TransformerDiffusion.conditioning self draw x codes None None false)).
  2:{ unfold TransformerDiffusion.conditioning.
      rewrite bool_decide_false by (intros H; apply H; reflexivity).
      unfold mbind, M_bind, mret, M_ret, pure. rewrite Hlen, E. reflexivity. }
  erewrite (bind_ok (TransformerDiffusion.conditioning self draw x None None
                       (Some code_emb) false)).
  2:{ reflexivity. }
  apply trunk_ci.
Qed.

Lemma precomputed_code_embeddings_equivalent_witness :
  let self := TransformerDiffusion.train Example.model false in
  let x := Example.full [2; 2; 5] 3%Z in
  let timesteps := Example.full [2] 7%Z in
  let codes := Some (Example.full [2; 3; 2] 1%Z) in
  exists code_emb,
    run (TransformerDiffusion.timestep_independent self (fun _ => 0%Z) codes 5) = Ok code_emb
    /\ run (TransformerDiffusion.forward self (fun _ => 0%Z) x timesteps codes None None false)
       = run (TransformerDiffusion.forward self (fun _ => 0%Z) x timesteps None None
                (Some code_emb) false).
Proof.
  intros self x timesteps codes.
  destruct (timestep_independent_spec Example.rnd Example.kwargs Example.model false
              (fun _ => 0%Z) (Example.full [2; 3; 2] 1%Z) 2 3 5
              example_model_init eq_refl ltac:(lia) ltac:(lia))
    as (lin & enc & e0 & ce & out & _ & _ & _ & _ & Rout & _).
  exists out.
  assert (Hrun : run (TransformerDiffusion.timestep_independent self (fun _ => 0%Z) codes 5)
                 = Ok out).
  { destruct (Rout 0) as [k E]. unfold run, self, codes. rewrite E. reflexivity. }
  split; [exact Hrun|].
  apply (precomputed_code_embeddings_equivalent self (fun _ => 0%Z) x timesteps codes 5 out).
  - reflexivity.
  - exact Hrun.
Defined.

Section ZeroWeighted.
Context {R : Type} {SR : Scalar R} {EX : Externals R}.

Lemma leaves_of_cons (p : tensor R) (ps : list (tensor R)) :
  Torch.leaves_of (p :: ps) = leaves p ∪ Torch.leaves_of ps.
Proof. reflexivity. Qed.



End ZeroWeighted.



Section TrunkLeaves.
Context {R : Type} {SR : Scalar R} {EX : Externals R}.


End TrunkLeaves.





(** ** [timestep_independent] without masking *)

(** X11.  In evaluation mode, or with [unconditioned_percentage] not above
    zero, [timestep_independent] masks nothing and draws nothing: whatever the
    random source would give, every position of every batch element holds a
    frame of that element's code embedding, the frame [F.interpolate] selects
    for the position ([Torch.nearest_idx], within the code sequence). *)
Theorem timestep_independent_without_masking {R : Type} {SR : Scalar R} {EX : Externals R}
    (rnd : string -> index -> R) (kw : TransformerDiffusion.kwargs R)
    (m : TransformerDiffusion.t R) (mode : bool) (draw : index -> R) (prior : tensor R)
    (batch code_length length : nat) :
  let self := TransformerDiffusion.train m mode in
  let pct := TransformerDiffusion.kw_unconditioned_percentage kw in
  let p := TransformerDiffusion.kw_prenet_channels kw in
  TransformerDiffusion.__init__ rnd kw = Ok m ->
  mode = false \/ sltb (sof_Z 0) pct = false ->
  shape prior = [batch; code_length; TransformerDiffusion.kw_input_vec_dim kw] ->
  0 < code_length -> 0 < length ->
  exists lin enc e0 code_emb out,
    TransformerDiffusion.converters self = Ok (lin, enc)
    /\ Linear.forward lin prior = Ok e0
    /\ Encoder.forward enc e0 = Ok code_emb
    /\ returns (TransformerDiffusion.timestep_independent self draw (Some prior) length) out
    /\ shape out = [batch; length; p]
    /\ forall i j k, i < batch -> j < length -> k < p ->
         Torch.nearest_idx code_length length j < code_length
         /\ data out [i; j; k]
            = data code_emb [i; Torch.nearest_idx code_length length j; k].
Proof.
  intros self pct p Hinit Hoff Hprior Hs Hn.
  destruct (timestep_independent_spec rnd kw m mode draw prior batch code_length length
              Hinit Hprior Hs Hn)
    as (lin & enc & e0 & ce & out & Hconv & Elin & Eenc & _ & Rout & Hout & Dout).
  exists lin, enc, e0, ce, out.
  split; [exact Hconv|]. split; [exact Elin|]. split; [exact Eenc|].
  split; [exact Rout|]. split; [exact Hout|].
  intros i j k Hi Hj Hk. split; [apply nearest_idx_lt; assumption|].
  rewrite (Dout i j k Hi Hj Hk).
  fold pct. destruct Hoff as [-> | ->]; [reflexivity|]. rewrite andb_false_r. reflexivity.
Qed.

Lemma timestep_independent_without_masking_witness :
  exists lin enc e0 code_emb out,
    TransformerDiffusion.converters (TransformerDiffusion.train Example.model false)
    = Ok (lin, enc)
    /\ Linear.forward lin (Example.full [2; 3; 2] 1%Z) = Ok e0
    /\ Encoder.forward enc e0 = Ok code_emb
    /\ returns (TransformerDiffusion.timestep_independent
                  (TransformerDiffusion.train Example.model false) (fun _ => 0%Z)
                  (Some (Example.full [2; 3; 2] 1%Z)) 5) out
    /\ shape out = [2; 5; 2]
    /\ forall i j k, i < 2 -> j < 5 -> k < 2 ->
         Torch.nearest_idx 3 5 j < 3
         /\ data out [i; j; k] = data code_emb [i; Torch.nearest_idx 3 5 j; k].
Proof.
  apply (timestep_independent_without_masking Example.rnd Example.kwargs Example.model false
           (fun _ => 0%Z) (Example.full [2; 3; 2] 1%Z) 2 3 5).
  - exact example_model_init.
  - left. reflexivity.
  - reflexivity.
  - lia.
  - lia.
Defined.

(** The frame read can be the one before [floor (j * len / size)]: the
    single-precision scale of 2/82 and of 6/74 lies below the quotient. *)
Lemma nearest_idx_below_quotient :
  Torch.nearest_idx 2 82 41 = 0 /\ 41 * 2 / 82 = 1
  /\ Torch.nearest_idx 6 74 37 = 2 /\ 37 * 6 / 74 = 3.
Proof. vm_compute. repeat split. Qed.

(** X12.  When the expected length is the code length, an unmasked batch
    element is its code embedding as it is; when it is twice the code length,
    position [j] holds code frame [j / 2], each frame twice.  (For other
    ratios the frame follows the single-precision scale, see
    [nearest_idx_below_quotient].) *)
Theorem copy_and_doubling_resample {R : Type} {SR : Scalar R} {EX : Externals R}
    (rnd : string -> index -> R) (kw : TransformerDiffusion.kwargs R)
    (m : TransformerDiffusion.t R) (mode : bool) (draw : index -> R) (prior : tensor R)
    (batch code_length factor : nat) :
  let self := TransformerDiffusion.train m mode in
  let pct := TransformerDiffusion.kw_unconditioned_percentage kw in
  let p := TransformerDiffusion.kw_prenet_channels kw in
  TransformerDiffusion.__init__ rnd kw = Ok m ->
  shape prior = [batch; code_length; TransformerDiffusion.kw_input_vec_dim kw] ->
  0 < code_length -> factor = 1 \/ factor = 2 ->
  exists lin enc e0 code_emb out,
    TransformerDiffusion.converters self = Ok (lin, enc)
    /\ Linear.forward lin prior = Ok e0
    /\ Encoder.forward enc e0 = Ok code_emb
    /\ returns (TransformerDiffusion.timestep_independent self draw (Some prior)
                  (factor * code_length)) out
    /\ shape out = [batch; factor * code_length; p]
    /\ forall i j k, i < batch -> j < factor * code_length -> k < p ->
         mode && sltb (sof_Z 0) pct && sltb (draw [i; 0; 0]) pct = false ->
         data out [i; j; k] = data code_emb [i; j / factor; k].
Proof.
  intros self pct p Hinit Hprior Hs Hf.
  destruct (timestep_independent_spec rnd kw m mode draw prior batch code_length
              (factor * code_length) Hinit Hprior Hs ltac:(nia))
    as (lin & enc & e0 & ce & out & Hconv & Elin & Eenc & _ & Rout & Hout & Dout).
  exists lin, enc, e0, ce, out.
  split; [exact Hconv|]. split; [exact Elin|]. split; [exact Eenc|].
  split; [exact Rout|]. split; [exact Hout|].
  intros i j k Hi Hj Hk Hmask. rewrite (Dout i j k Hi Hj Hk). fold pct. rewrite Hmask.
  unfold Torch.nearest_idx. destruct Hf as [-> | ->].
  - rewrite decide_True by lia. rewrite Nat.div_1_r. reflexivity.
  - rewrite decide_False by lia. rewrite decide_True by lia. reflexivity.
Qed.

Lemma copy_and_doubling_resample_witness :
  exists lin enc e0 code_emb out,
    TransformerDiffusion.converters (TransformerDiffusion.train Example.model false)
    = Ok (lin, enc)
    /\ Linear.forward lin (Example.full [2; 3; 2] 1%Z) = Ok e0
    /\ Encoder.forward enc e0 = Ok code_emb
    /\ returns (TransformerDiffusion.timestep_independent
                  (TransformerDiffusion.train Example.model false) (fun _ => 0%Z)
                  (Some (Example.full [2; 3; 2] 1%Z)) (2 * 3)) out
    /\ shape out = [2; 2 * 3; 2]
    /\ forall i j k, i < 2 -> j < 2 * 3 -> k < 2 ->
         false && sltb (sof_Z 0) 1%Z && sltb 0%Z 1%Z = false ->
         data out [i; j; k] = data code_emb [i; j / 2; k].
Proof.
  apply (copy_and_doubling_resample Example.rnd Example.kwargs Example.model false
           (fun _ => 0%Z) (Example.full [2; 3; 2] 1%Z) 2 3 2).
  - exact example_model_init.
  - reflexivity.
  - lia.
  - right. reflexivity.
Defined.

(** ** [SubBlock] and [TimestepRotaryEmbedSequential] *)

Section SubBlockLayout.
Context {R : Type} {SR : Scalar R} {EX : Externals R}.

Lemma cat_last_pair_data (x y : tensor R) (b n dx dy : nat) :
  shape x = [b; n; dx] -> shape y = [b; n; dy] ->
  exists z, Torch.cat_last [x; y] = Ok z
    /\ shape z = [b; n; dx + dy]
    /\ forall i j f, data z [i; j; f]
                     = if decide (f < dx) then data x [i; j; f] else data y [i; j; f - dx].
Proof.
  intros Hx Hy. destruct (cat2_last_3d x y b n dx dy Hx Hy) as (z & Ez & Hz & Dz).
  exists z. split; [|split; [exact Hz|exact Dz]].
  unfold Torch.cat_last. rewrite Hx. cbn [Torch.cat_last_from]. rewrite Ez. reflexivity.
Qed.

End SubBlockLayout.

(** X13.  A constructed [SubBlock] widens its input from [inp_dim] to
    [inp_dim + 2 * contraction_dim] features and keeps the input itself: the
    features [contraction_dim .. contraction_dim + inp_dim) of the result are
    the features of the input, between the attention features and the
    convolution features. *)
Theorem subblock_keeps_input_features {R : Type} {SR : Scalar R} {EX : Externals R}
    (rnd : string -> index -> R) (name : string) (inp_dim c heads : nat)
    (sb : SubBlock.t R) (x rot : tensor R) (b n : nat) :
  SubBlock.__init__ rnd name inp_dim c heads = Ok sb ->
  shape x = [b; n; inp_dim] -> 0 < n ->
  exists h, returns (SubBlock.forward sb x rot) h
    /\ shape h = [b; n; c + inp_dim + c]
    /\ forall i j f, f < inp_dim -> data h [i; j; c + f] = data x [i; j; f].
Proof.
  intros Hinit Hx Hn. apply SubBlock_init_inv in Hinit as ->.
  destruct (Attention_forward_ok rnd (name +:+ ".attn") inp_dim c heads (c / heads)
              x rot b n Hx) as (a1 & E1 & H1).
  destruct (LayerNorm_forward_ok rnd (name +:+ ".attnorm") c a1 [b; n] H1)
    as (a2 & E2 & H2).
  destruct (pointwise_ok gelu a2) as (a3 & E3 & H3). rewrite H2 in H3.
  destruct (cat_last_pair_data a3 x b n c inp_dim H3 Hx) as (h1 & E4 & H4 & D4).
  destruct (permute021_3d h1 b n (c + inp_dim) H4) as (h2 & E5 & H5 & _).
  destruct (Conv1d_forward_ok rnd (name +:+ ".ff") (inp_dim + c) c h2 b _ n H5
              ltac:(lia) Hn) as (f1 & E6 & H6).
  destruct (permute021_3d f1 b c n H6) as (f2 & E7 & H7 & _).
  destruct (LayerNorm_forward_ok rnd (name +:+ ".ffnorm") c f2 [b; n] H7)
    as (f3 & E8 & H8).
  destruct (pointwise_ok gelu f3) as (f4 & E9 & H9). rewrite H8 in H9.
  destruct (cat_last_pair_data h1 f4 b n (c + inp_dim) c H4 H9) as (h & E10 & H10 & D10).
  exists h. split; [|split; [exact H10|]].
  - unfold SubBlock.forward, checkpoint.
    cbn [SubBlock.attn SubBlock.attnorm SubBlock.ff SubBlock.ffnorm].
    eapply returns_bind; [apply returns_op; exact E1|].
    eapply returns_bind; [apply returns_op; exact E2|].
    eapply returns_bind; [apply returns_op; exact E3|].
    eapply returns_bind; [apply returns_op; exact E4|].
    eapply returns_bind; [apply returns_op; exact E5|].
    eapply returns_bind; [apply returns_op; exact E6|].
    eapply returns_bind; [apply returns_op; exact E7|].
    eapply returns_bind; [apply returns_op; exact E8|].
    eapply returns_bind; [apply returns_op; exact E9|].
    eapply returns_bind; [apply returns_op; exact E10|].
    apply returns_ret.
  - intros i j f Hf. rewrite D10, decide_True by lia.
    rewrite D4, decide_False by lia. f_equal. f_equal. f_equal. f_equal. lia.
Qed.

Lemma subblock_keeps_input_features_witness :
  exists h,
    returns (SubBlock.forward Example.block (Example.full [2; 5; 3] 4%Z)
               (Example.full [5; 2] 0%Z)) h
    /\ shape h = [2; 5; 2 + 3 + 2]
    /\ forall i j f, f < 3 ->
         data h [i; j; 2 + f] = data (Example.full [2; 5; 3] 4%Z) [i; j; f].
Proof.
  apply (subblock_keeps_input_features Example.rnd "block" 3 2 1 Example.block
           (Example.full [2; 5; 3] 4%Z) (Example.full [5; 2] 0%Z) 2 5).
  - exact example_block_init.
  - reflexivity.
  - lia.
Defined.

(** X14.  Calling the layer container on a stack of [ConcatAttentionBlock]s
    gives the same outcome, after the same number of tensor operations, as the
    loop over the layers that [TransformerDiffusion.forward] runs itself. *)
Theorem sequential_forward_is_layer_loop {R : Type} {SR : Scalar R} {EX : Externals R}
    (ls : list (ConcatAttentionBlock.t R)) (x emb rotary_emb : tensor R) (n : nat) :
  TimestepRotaryEmbedSequential.forward
    (TimestepRotaryEmbedSequential.TimestepBlock <$> ls) x emb rotary_emb n
  = TransformerDiffusion.run_layers ls x emb rotary_emb n.
Proof.
  revert x n. induction ls as [|l ls IH]; intros x n; [reflexivity|].
  cbn [fmap list_fmap TimestepRotaryEmbedSequential.forward TransformerDiffusion.run_layers].
  unfold checkpoint, mbind, M_bind.
  destruct (ConcatAttentionBlock.forward l x emb rotary_emb n) as [[y|e] n']; [|reflexivity].
  apply IH.
Qed.

(** ** [get_grad_norm_parameter_groups] *)

Section ParameterGroups.
Context {R : Type} {SR : Scalar R} {EX : Externals R}.

(** Parameter names by their first character. *)
Lemma names_head (c : ascii) (ps : list (tensor R)) :
  Forall (fun t => exists s, leaves t = {[String c s]}) ps ->
  Forall (fun p => exists s, p = String c s) (Torch.names ps).
Proof.
  induction 1 as [|t ps [s Ht] _ IH]; [constructor|].
  unfold Torch.names in *. cbn [mbind list_bind]. rewrite Ht, elements_singleton.
  constructor; [exists s; reflexivity|exact IH].
Qed.

Lemma register_head (c : ascii) rnd (s0 : string) (specs : list (string * list nat)) :
  Forall (fun t : tensor R => exists s, leaves t = {[String c s]})
         (Torch.register rnd (String c s0) specs).
Proof.
  unfold Torch.register. apply Forall_forall. intros t Ht.
  apply list_elem_of_In, in_map_iff in Ht as (ns & <- & _).
  eexists. reflexivity.
Qed.

Lemma SubBlock_parameters_head (c : ascii) rnd (s0 : string) (inp_dim cd heads : nat)
    (sb : SubBlock.t R) :
  SubBlock.__init__ rnd (String c s0) inp_dim cd heads = Ok sb ->
  Forall (fun t => exists s, leaves t = {[String c s]}) (SubBlock.parameters sb).
Proof.
  intros Hinit. apply SubBlock_init_inv in Hinit as ->.
  unfold SubBlock.parameters.
  cbn [SubBlock.attn SubBlock.attnorm SubBlock.ff SubBlock.ffnorm].
  apply Forall_app. split; [apply (register_head c rnd (s0 +:+ ".attn"))|].
  repeat (constructor; [eexists; reflexivity|]). constructor.
Qed.

Lemma ConcatAttentionBlock_parameters_head (c : ascii) rnd (s0 : string)
    (m cd e heads : nat) (l : ConcatAttentionBlock.t R) :
  ConcatAttentionBlock.__init__ rnd (String c s0) m cd e heads = Ok l ->
  Forall (fun t => exists s, leaves t = {[String c s]}) (ConcatAttentionBlock.parameters l).
Proof.
  intros Hinit.
  apply ConcatAttentionBlock_init_inv in Hinit as (b1 & b2 & H1 & H2 & ->).
  unfold ConcatAttentionBlock.parameters.
  cbn [ConcatAttentionBlock.prenorm ConcatAttentionBlock.block1
       ConcatAttentionBlock.block2 ConcatAttentionBlock.out].
  apply Forall_app. split; [apply (register_head c rnd (s0 +:+ ".prenorm"))|].
  apply Forall_app. split; [apply (SubBlock_parameters_head c rnd _ _ _ _ _ H1)|].
  apply Forall_app. split; [apply (SubBlock_parameters_head c rnd _ _ _ _ _ H2)|].
  repeat (constructor; [eexists; reflexivity|]). constructor.
Qed.

Lemma make_layers_head rnd (kw : TransformerDiffusion.kwargs R) (n : nat) :
  forall (i : nat) (ls : list (ConcatAttentionBlock.t R)),
  TransformerDiffusion.make_layers rnd kw i n = Ok ls ->
  Forall (fun t => exists s, leaves t = {[String "l" s]})
         (concat (map ConcatAttentionBlock.parameters ls)).
Proof.
  induction n as [|n IH]; intros i ls; cbn [TransformerDiffusion.make_layers].
  - intros [= <-]. constructor.
  - destruct (ConcatAttentionBlock.__init__ rnd ("layers." +:+ pretty i) _ _ _ _)
      as [l|] eqn:El; [|discriminate].
    cbn [mbind result_bind].
    destruct (TransformerDiffusion.make_layers rnd kw (S i) n) as [ls'|] eqn:Els;
      [|discriminate].
    cbn [mbind result_bind mret result_ret]. intros [= <-].
    cbn [map concat]. apply Forall_app. split; [|apply (IH (S i) ls' Els)].
    apply (ConcatAttentionBlock_parameters_head "l" rnd ("ayers." +:+ pretty i) _ _ _ _ l El).
Qed.

End ParameterGroups.

(** X15.  On a model built with [ar_prior=True],
    [TransformerDiffusion.get_grad_norm_parameter_groups] raises
    AttributeError: it reads [self.input_converter]. *)
Theorem grad_norm_groups_need_code_converters {R : Type} {SR : Scalar R} {EX : Externals R}
    (rnd : string -> index -> R) (kw : TransformerDiffusion.kwargs R)
    (m : TransformerDiffusion.t R) :
  TransformerDiffusion.__init__ rnd kw = Ok m ->
  TransformerDiffusion.kw_ar_prior kw = true ->
  TransformerDiffusion.get_grad_norm_parameter_groups m
  = Raise (AttributeError "input_converter").
Proof.
  intros Hinit Har. apply init_inv in Hinit as (ls & st & _ & ->).
  unfold TransformerDiffusion.get_grad_norm_parameter_groups. diffusion_fields.
  rewrite Har. reflexivity.
Qed.

Lemma grad_norm_groups_need_code_converters_witness :
  TransformerDiffusion.get_grad_norm_parameter_groups Example.ar_model
  = Raise (AttributeError "input_converter").
Proof.
  apply (grad_norm_groups_need_code_converters Example.rnd (Example.kwargs_with 1 true false)
           Example.ar_model).
  - exact example_ar_model_init.
  - reflexivity.
Defined.

(** X16.  On a model built with [ar_prior=False] it returns the three groups
    layers, code_converters and time_embed, in this order; every grouped
    parameter is a parameter of the model, and the groups do not cover the
    model: [unconditioned_embedding], the parameters of [intg] and those of
    the output head [out] are in no group. *)
Theorem grad_norm_groups_leave_parameters_out
    {R : Type} {SR : Scalar R} {EX : Externals R}
    (rnd : string -> index -> R) (kw : TransformerDiffusion.kwargs R)
    (m : TransformerDiffusion.t R) :
  TransformerDiffusion.__init__ rnd kw = Ok m ->
  TransformerDiffusion.kw_ar_prior kw = false ->
  exists groups,
    TransformerDiffusion.get_grad_norm_parameter_groups m = Ok groups
    /\ groups.*1 = ["layers"; "code_converters"; "time_embed"]
    /\ (forall k ps p, (k, ps) ∈ groups -> p ∈ Torch.names ps ->
          p ∈ Torch.names (TransformerDiffusion.parameters m))
    /\ (forall q,
          q ∈ Torch.names ([TransformerDiffusion.unconditioned_embedding m]
                           ++ Linear.parameters (TransformerDiffusion.intg m)
                           ++ GroupNorm.parameters (TransformerDiffusion.out m).1
                           ++ Conv1d.parameters (TransformerDiffusion.out m).2) ->
          q ∈ Torch.names (TransformerDiffusion.parameters m)
          /\ forall k ps, (k, ps) ∈ groups -> q ∉ Torch.names ps).
Proof.
  intros Hinit Har. apply init_inv in Hinit as (ls & st & Hls & ->).
  apply make_layers_head in Hls. apply names_head in Hls.
  unfold TransformerDiffusion.get_grad_norm_parameter_groups. diffusion_fields. rewrite Har.
  cbn [getattr mbind result_bind mret result_ret].
  eexists. split; [reflexivity|]. split; [reflexivity|].
  set (P := TransformerDiffusion.kw_prenet_channels kw) in *.
  set (lyr := Torch.names (concat (map ConcatAttentionBlock.parameters ls))) in *.
  set (enc := Torch.names (Encoder.parameters
                 (Encoder.init rnd "code_converter" P
                    (TransformerDiffusion.kw_prenet_layers kw) (P / 64)))).
  set (gn := Torch.names (GroupNorm.parameters
                 (GroupNorm.normalization rnd "out.0"
                    (TransformerDiffusion.kw_model_channels kw)))).
  assert (Henc : Forall (fun p => exists s, p = String "c" s) enc).
  { subst enc. apply names_head. apply (register_head "c" rnd "ode_converter"). }
  assert (Hgn : Forall (fun p => exists s, p = String "o" s) gn).
  { subst gn. apply names_head. apply (register_head "o" rnd "ut.0"). }
  assert (Hall : Torch.names (TransformerDiffusion.parameters
                   (TransformerDiffusion.set_attrs
                      (TransformerDiffusion.assign rnd kw (P / 64) ls) st))
                 = ["unconditioned_embedding"; "inp_block.weight"; "inp_block.bias";
                    "time_embed.0.weight"; "time_embed.0.bias";
                    "time_embed.2.weight"; "time_embed.2.bias";
                    "input_converter.weight"; "input_converter.bias"]
                   ++ enc ++ ["intg.weight"; "intg.bias"] ++ lyr
                   ++ gn ++ ["out.2.weight"; "out.2.bias"]).
  { unfold TransformerDiffusion.parameters. diffusion_fields. rewrite Har.
    cbn [TransformerDiffusion.opt_parameters from_option RotaryEmbedding.parameters].
    rewrite !names_app. fold lyr enc gn.
    unfold Torch.names, Conv1d.parameters, Linear.parameters, TransformerDiffusion.zero_module.
    cbn. rewrite !elements_singleton. reflexivity. }
  rewrite Hall. clear Hall.
  assert (Egroups : forall k ps p,
    (k, ps) ∈ [("layers"%string,
                concat (map ConcatAttentionBlock.parameters ls)
                ++ Conv1d.parameters (Conv1d.init rnd "inp_block"
                     (TransformerDiffusion.kw_in_channels kw) P 3 1));
               ("code_converters"%string,
                Linear.parameters (Linear.init rnd "input_converter"
                     (TransformerDiffusion.kw_input_vec_dim kw) P true)
                ++ Encoder.parameters (Encoder.init rnd "code_converter" P
                     (TransformerDiffusion.kw_prenet_layers kw) (P / 64)));
               ("time_embed"%string,
                Linear.parameters (Linear.init rnd "time_embed.0"
                     (TransformerDiffusion.kw_time_embed_dim kw)
                     (TransformerDiffusion.kw_time_embed_dim kw) true)
                ++ Linear.parameters (Linear.init rnd "time_embed.2"
                     (TransformerDiffusion.kw_time_embed_dim kw)
                     (TransformerDiffusion.kw_time_embed_dim kw) true))] ->
    p ∈ Torch.names ps ->
    p ∈ lyr \/ p ∈ enc
    \/ p ∈ ["inp_block.weight"; "inp_block.bias"; "input_converter.weight";
            "input_converter.bias"; "time_embed.0.weight"; "time_embed.0.bias";
            "time_embed.2.weight"; "time_embed.2.bias"]).
  { intros k ps p Hk Hp.
    apply elem_of_cons in Hk as [Hk|Hk].
    { apply (f_equal snd) in Hk; cbn [snd] in Hk; subst ps.
      rewrite names_app in Hp. apply elem_of_app in Hp as [Hp|Hp].
      - left. exact Hp.
      - right. right. revert Hp. unfold Torch.names, Conv1d.parameters. cbn.
        rewrite !elements_singleton. cbn. rewrite !elem_of_cons. tauto. }
    apply elem_of_cons in Hk as [Hk|Hk].
    { apply (f_equal snd) in Hk; cbn [snd] in Hk; subst ps.
      rewrite names_app in Hp. apply elem_of_app in Hp as [Hp|Hp].
      - right. right. revert Hp. rewrite names_Linear_init. rewrite !elem_of_cons. tauto.
      - right. left. exact Hp. }
    apply elem_of_cons in Hk as [Hk|Hk]; [|by apply not_elem_of_nil in Hk].
    apply (f_equal snd) in Hk; cbn [snd] in Hk; subst ps.
      rewrite names_app in Hp. apply elem_of_app in Hp as [Hp|Hp].
    - right. right. revert Hp. rewrite names_Linear_init. rewrite !elem_of_cons. tauto.
    - right. right. revert Hp. rewrite names_Linear_init. rewrite !elem_of_cons. tauto. }
  split.
  - clearbody lyr enc gn. intros k ps p Hk Hp. destruct (Egroups k ps p Hk Hp) as [H|[H|H]];
      rewrite !elem_of_app; [tauto|tauto|].
    left. revert H. rewrite !elem_of_cons. tauto.
  - intros q Hq. rewrite !names_app in Hq. fold gn in Hq. clearbody lyr enc gn.
    assert (Hq' : q ∈ ["unconditioned_embedding"; "intg.weight"; "intg.bias";
                       "out.2.weight"; "out.2.bias"] \/ q ∈ gn).
    { revert Hq. unfold Torch.names, Linear.parameters, Conv1d.parameters,
        TransformerDiffusion.zero_module. cbn. rewrite !elements_singleton. cbn.
      change ("intg" +:+ ".weight") with "intg.weight".
      change ("intg" +:+ ".bias") with "intg.bias".
      change ("out.2" +:+ ".weight") with "out.2.weight".
      change ("out.2" +:+ ".bias") with "out.2.bias".
      rewrite !elem_of_cons, elem_of_app, !elem_of_cons. tauto. }
    clear Hq. split.
    + rewrite !elem_of_app. destruct Hq' as [H|H]; [|tauto].
      revert H. rewrite !elem_of_cons. tauto.
    + intros k ps Hk Hin. destruct (Egroups k ps q Hk Hin) as [H|[H|H]].
      * rewrite Forall_forall in Hls. destruct (Hls q H) as [s ->].
        destruct Hq' as [Hq'|Hq'].
        -- revert Hq'. rewrite !elem_of_cons.
           intros [E|[E|[E|[E|[E|E]]]]]; try discriminate E.
           by apply not_elem_of_nil in E.
        -- rewrite Forall_forall in Hgn. destruct (Hgn _ Hq') as [s' E]. discriminate E.
      * rewrite Forall_forall in Henc. destruct (Henc q H) as [s ->].
        destruct Hq' as [Hq'|Hq'].
        -- revert Hq'. rewrite !elem_of_cons.
           intros [E|[E|[E|[E|[E|E]]]]]; try discriminate E.
           by apply not_elem_of_nil in E.
        -- rewrite Forall_forall in Hgn. destruct (Hgn _ Hq') as [s' E]. discriminate E.
      * destruct Hq' as [Hq'|Hq'].
        -- revert H Hq'. rewrite !elem_of_cons.
           intros [->|[->|[->|[->|[->|[->|[->|[->|E']]]]]]]];
             try (by apply not_elem_of_nil in E');
             intros [E|[E|[E|[E|[E|E]]]]]; try discriminate E;
             by apply not_elem_of_nil in E.
        -- rewrite Forall_forall in Hgn. destruct (Hgn _ Hq') as [s' ->].
           revert H. rewrite !elem_of_cons.
           intros [E|[E|[E|[E|[E|[E|[E|[E|E]]]]]]]]; try discriminate E.
           by apply not_elem_of_nil in E.
Qed.

Lemma grad_norm_groups_leave_parameters_out_witness :
  let m := Example.model in
  exists groups,
    TransformerDiffusion.get_grad_norm_parameter_groups m = Ok groups
    /\ groups.*1 = ["layers"; "code_converters"; "time_embed"]
    /\ (forall k ps p, (k, ps) ∈ groups -> p ∈ Torch.names ps ->
          p ∈ Torch.names (TransformerDiffusion.parameters m))
    /\ (forall q,
          q ∈ Torch.names ([TransformerDiffusion.unconditioned_embedding m]
                           ++ Linear.parameters (TransformerDiffusion.intg m)
                           ++ GroupNorm.parameters (TransformerDiffusion.out m).1
                           ++ Conv1d.parameters (TransformerDiffusion.out m).2) ->
          q ∈ Torch.names (TransformerDiffusion.parameters m)
          /\ forall k ps, (k, ps) ∈ groups -> q ∉ Torch.names ps).
Proof.
  apply (grad_norm_groups_leave_parameters_out Example.rnd Example.kwargs Example.model).
  - exact example_model_init.
  - reflexivity.
Defined.

(** ** [MultiGroupEmbedding] *)

Section GroupEmbedding.
Context {R : Type} {SR : Scalar R}.

Lemma elem_of_indices (s : list nat) (idx : index) :
  idx ∈ Embedding.indices s <-> Forall2 lt idx s.
Proof.
  revert idx. induction s as [|d s IH]; intros idx; cbn [Embedding.indices].
  - rewrite list_elem_of_singleton. split; [intros ->; constructor|].
    intros H. inversion H. reflexivity.
  - rewrite list_elem_of_bind. split.
    + intros (i & Hin & Hi). apply list_elem_of_fmap in Hin as (t & -> & Ht).
      apply elem_of_seq in Hi. constructor; [lia|]. apply IH. exact Ht.
    + intros H. inversion H as [|i d' t s' Hi Ht]; subst.
      exists i. split; [|apply elem_of_seq; lia].
      apply list_elem_of_fmap. exists t. split; [reflexivity|]. apply IH. exact Ht.
Qed.

Lemma select2_ok (x : ltensor) (b s g i : nat) :
  lshape x = [b; s; g] -> i < g ->
  MultiGroupEmbedding.select2 x i
  = Ok (LTensor [b; s] (fun idx => match idx with
                                   | p :: q :: r => ldata x (p :: q :: i :: r)
                                   | _ => 0%Z
                                   end)).
Proof.
  intros Hx Hi. unfold MultiGroupEmbedding.select2. rewrite Hx.
  rewrite decide_True by exact Hi. reflexivity.
Qed.

Lemma select2_out_of_range (x : ltensor) (b s g i : nat) :
  lshape x = [b; s; g] -> g <= i ->
  MultiGroupEmbedding.select2 x i = Raise IndexError.
Proof.
  intros Hx Hi. unfold MultiGroupEmbedding.select2. rewrite Hx.
  rewrite decide_False by lia. reflexivity.
Qed.

(** A lookup in a table of [tokens] rows: it succeeds exactly when every id
    is a row of the table. *)
Lemma Embedding_forward_ok rnd (name : string) (tokens d : nat) (ids : ltensor) :
  (forall idx, Forall2 lt idx (lshape ids) -> (0 <= ldata ids idx < Z.of_nat tokens)%Z) ->
  exists y, Embedding.forward (Embedding.init rnd name tokens d) ids = Ok y
    /\ shape y = lshape ids ++ [d]
    /\ forall p f, data y (p ++ [f]) = rnd (name +:+ ".weight") [Z.to_nat (ldata ids p); f].
Proof.
  intros Hids. unfold Embedding.forward.
  cbn [Embedding.init Embedding.weight Torch.mk_param shape data leaves].
  assert (Hall : forallb (fun p => bool_decide (0 <= ldata ids p < Z.of_nat tokens)%Z)
                   (Embedding.indices (lshape ids)) = true).
  { apply forallb_forall. intros idx Hin. apply bool_decide_eq_true_2. apply Hids.
    apply elem_of_indices. apply list_elem_of_In. exact Hin. }
  rewrite Hall. eexists. split; [reflexivity|]. split; [reflexivity|].
  intros p f. cbn [data]. rewrite split_last_snoc. reflexivity.
Qed.

Lemma Embedding_forward_bad rnd (name : string) (tokens d : nat) (ids : ltensor)
    (idx : index) :
  0 < tokens ->
  Forall2 lt idx (lshape ids) -> ~ (0 <= ldata ids idx < Z.of_nat tokens)%Z ->
  Embedding.forward (Embedding.init rnd name tokens d) ids = Raise IndexError.
Proof.
  intros Htokens Hidx Hbad. unfold Embedding.forward.
  cbn [Embedding.init Embedding.weight Torch.mk_param shape].
  destruct (forallb _ _) eqn:Hall; [|rewrite decide_False by lia; reflexivity].
  exfalso. apply Hbad. rewrite forallb_forall in Hall.
  assert (Hin : In idx (Embedding.indices (lshape ids))).
  { apply list_elem_of_In. apply elem_of_indices. exact Hidx. }
  specialize (Hall idx Hin). apply bool_decide_eq_true in Hall. exact Hall.
Qed.

Lemma Embedding_forward_cases rnd (name : string) (tokens d : nat) (ids : ltensor) :
  0 < tokens ->
  (exists y, Embedding.forward (Embedding.init rnd name tokens d) ids = Ok y)
  \/ Embedding.forward (Embedding.init rnd name tokens d) ids = Raise IndexError.
Proof.
  intros Htokens.
  unfold Embedding.forward. cbn [Embedding.init Embedding.weight Torch.mk_param shape].
  destruct (forallb _ _); [left; eexists; reflexivity|right].
  rewrite decide_False by lia. reflexivity.
Qed.

Lemma make_ok (rnd : string -> index -> R) (tokens groups dim : nat) (n : nat) : forall i,
  0 < groups ->
  MultiGroupEmbedding.make rnd tokens groups dim i n
  = Ok ((fun j => Embedding.init rnd ("m." +:+ pretty j) tokens (dim / groups)) <$> seq i n).
Proof.
  induction n as [|n IH]; intros i Hg; [reflexivity|].
  cbn [MultiGroupEmbedding.make]. unfold py_floordiv. rewrite decide_False by lia.
  cbn [mbind result_bind]. rewrite (IH (S i) Hg). reflexivity.
Qed.

Lemma zip_fmap_self {A B} (f : A -> B) (l : list A) :
  zip l (f <$> l) = (fun a => (a, f a)) <$> l.
Proof. induction l as [|a l IH]; [reflexivity|]. cbn. rewrite IH. reflexivity. Qed.

Lemma enumerate_fmap_seq {B} (f : nat -> B) (n : nat) :
  TransformerDiffusionWithMultiPretrainedVqvae.enumerate (f <$> seq 0 n)
  = (fun j => (j, f j)) <$> seq 0 n.
Proof.
  unfold TransformerDiffusionWithMultiPretrainedVqvae.enumerate.
  rewrite length_fmap, length_seq. apply zip_fmap_self.
Qed.

Section Groups.
Variables (rnd : string -> index -> R) (tokens d : nat) (x : ltensor) (b s g : nat).
Hypothesis Hx : lshape x = [b; s; g].
Hypothesis Htokens : 0 < tokens.

Local Abbreviation table j := (Embedding.init rnd ("m." +:+ pretty j) tokens d).

Lemma group_lookup_ok (j : nat) :
  (j < g /\ forall p q, p < b -> q < s ->
             (0 <= ldata x [p; q; j] < Z.of_nat tokens)%Z) ->
  exists xi y, MultiGroupEmbedding.select2 x j = Ok xi
    /\ Embedding.forward (table j) xi = Ok y
    /\ shape y = [b; s; d]
    /\ forall p q f, data y [p; q; f]
         = rnd ("m." +:+ pretty j +:+ ".weight") [Z.to_nat (ldata x [p; q; j]); f].
Proof using Hx.
  intros [Hj Hv].
  destruct (Embedding_forward_ok rnd ("m." +:+ pretty j) tokens d
              (LTensor [b; s] (fun idx => match idx with
                                          | p :: q :: r => ldata x (p :: q :: j :: r)
                                          | _ => 0%Z
                                          end))) as (y & Ey & Hy & Dy).
  { cbn [lshape ldata]. intros idx Hidx.
    inversion Hidx as [|p b' t1 s1 Hp Ht1]; subst.
    inversion Ht1 as [|q s' t2 s2 Hq Ht2]; subst.
    inversion Ht2; subst. apply Hv; assumption. }
  eexists _, y. split; [apply (select2_ok x b s g j Hx Hj)|].
  split; [exact Ey|]. split; [exact Hy|].
  intros p q f. exact (Dy [p; q] f).
Qed.

Lemma group_lookup_bad (j : nat) :
  ~ (j < g /\ forall p q, p < b -> q < s ->
             (0 <= ldata x [p; q; j] < Z.of_nat tokens)%Z) ->
  forall xi, MultiGroupEmbedding.select2 x j = Ok xi ->
  Embedding.forward (table j) xi = Raise IndexError.
Proof using Hx Htokens.
  intros Hbad xi Exi.
  destruct (decide (j < g)) as [Hj|Hj].
  - rewrite (select2_ok x b s g j Hx Hj) in Exi. injection Exi as <-.
    destruct (Embedding_forward_cases rnd ("m." +:+ pretty j) tokens d
                (LTensor [b; s] (fun idx => match idx with
                                            | p :: q :: r => ldata x (p :: q :: j :: r)
                                            | _ => 0%Z
                                            end)) Htokens) as [[y Ey]|E]; [|exact E].
    exfalso. apply Hbad. split; [exact Hj|]. intros p q Hp Hq.
    unfold Embedding.forward in Ey.
    cbn [Embedding.init Embedding.weight Torch.mk_param shape lshape ldata] in Ey.
    destruct (forallb _ _) eqn:Hall; [|destruct (decide (tokens = 0)); discriminate Ey].
    rewrite forallb_forall in Hall.
    assert (Hin : In [p; q] (Embedding.indices [b; s])).
    { apply list_elem_of_In. apply elem_of_indices.
      constructor; [exact Hp|]. constructor; [exact Hq|]. constructor. }
    specialize (Hall [p; q] Hin). apply bool_decide_eq_true in Hall. exact Hall.
  - rewrite (select2_out_of_range x b s g j Hx) in Exi by lia. discriminate Exi.
Qed.

Lemma embed_groups_ok (js : list nat) : forall h,
  Forall (fun j => (j < g /\ forall p q, p < b -> q < s ->
             (0 <= ldata x [p; q; j] < Z.of_nat tokens)%Z)) js ->
  exists ys,
    returns (MultiGroupEmbedding.embed_groups ((fun j => (j, table j)) <$> js) x h) (h ++ ys)
    /\ length ys = length js
    /\ Forall (fun y => shape y = [b; s; d]) ys
    /\ forall k j, js !! k = Some j ->
         exists y, ys !! k = Some y
           /\ forall p q f, data y [p; q; f]
                = rnd ("m." +:+ pretty j +:+ ".weight") [Z.to_nat (ldata x [p; q; j]); f].
Proof using Hx.
  induction js as [|j js IH]; intros h Hv.
  - exists []. split; [rewrite app_nil_r; apply returns_ret|]. split; [reflexivity|].
    split; [constructor|]. intros k j Hk. discriminate Hk.
  - apply Forall_cons in Hv as [Hj Hv].
    destruct (group_lookup_ok j Hj) as (xi & y & Exi & Ey & Hy & Dy).
    destruct (IH (h ++ [y]) Hv) as (ys & Rys & Hlen & Hsh & Hys).
    exists (y :: ys). split; [|split; [|split]].
    + cbn [fmap list_fmap MultiGroupEmbedding.embed_groups].
      eapply returns_bind; [apply returns_op; exact Exi|].
      eapply returns_bind; [apply returns_op; exact Ey|].
      rewrite <- app_assoc in Rys. exact Rys.
    + cbn [length]. rewrite Hlen. reflexivity.
    + constructor; assumption.
    + intros [|k] j' Hk.
      * injection Hk as <-. exists y. split; [reflexivity|exact Dy].
      * apply (Hys k j' Hk).
Qed.

Lemma embed_groups_bad (js : list nat) : forall h,
  Exists (fun j => ~ (j < g /\ forall p q, p < b -> q < s ->
             (0 <= ldata x [p; q; j] < Z.of_nat tokens)%Z)) js ->
  raises (MultiGroupEmbedding.embed_groups ((fun j => (j, table j)) <$> js) x h) IndexError.
Proof using Hx Htokens.
  induction js as [|j js IH]; intros h Hbad; [inversion Hbad|].
  cbn [fmap list_fmap MultiGroupEmbedding.embed_groups].
  destruct (MultiGroupEmbedding.select2 x j) as [xi|e] eqn:Exi.
  - eapply raises_bind_ok; [apply returns_op; reflexivity|].
    destruct (Embedding.forward (table j) xi) as [y|e] eqn:Ey.
    + eapply raises_bind_ok; [apply returns_op; reflexivity|].
      apply IH. apply Exists_cons in Hbad as [Hj|Hjs]; [|exact Hjs].
      rewrite (group_lookup_bad j Hj xi Exi) in Ey. discriminate Ey.
    + apply raises_bind. apply raises_op.
      destruct (Embedding_forward_cases rnd ("m." +:+ pretty j) tokens d xi Htokens)
        as [[y Ey']|E]; congruence.
  - apply raises_bind. apply raises_op.
    unfold MultiGroupEmbedding.select2 in Exi. rewrite Hx in Exi.
    destruct (decide (j < g)); [discriminate Exi|]. congruence.
Qed.

End Groups.

End GroupEmbedding.

(** X17.  For a positive number of groups and ids of shape
    (batch, length, channels) with at least [groups] channels, all of whose
    first [groups] channels hold ids below [tokens]: the result has shape
    (batch, length, groups * (dim // groups)), its features
    [i * (dim // groups) ..] are row [x[p, q, i]] of table [i], and its width
    is [dim] exactly when [groups] divides [dim]. *)
Theorem multi_group_embedding_lookup {R : Type} {SR : Scalar R}
    (rnd : string -> index -> R) (tokens groups dim : nat) (x : ltensor)
    (batch length channels : nat) :
  0 < groups ->
  lshape x = [batch; length; channels] ->
  groups <= channels ->
  (forall p q i, p < batch -> q < length -> i < groups ->
     (0 <= ldata x [p; q; i] < Z.of_nat tokens)%Z) ->
  exists self y,
    MultiGroupEmbedding.__init__ rnd tokens groups dim = Ok self
    /\ returns (MultiGroupEmbedding.forward self x) y
    /\ shape y = [batch; length; groups * (dim / groups)]
    /\ (forall p q i f, i < groups -> f < dim / groups ->
          data y [p; q; i * (dim / groups) + f]
          = rnd ("m." +:+ pretty i +:+ ".weight") [Z.to_nat (ldata x [p; q; i]); f])
    /\ (groups * (dim / groups) = dim <-> dim mod groups = 0).
Proof.
  intros Hg Hx Hch Hv.
  set (d := dim / groups).
  destruct (embed_groups_ok rnd tokens d x batch length channels Hx (seq 0 groups) [])
    as (ys & Rys & Hlen & Hsh & Hys).
  { apply Forall_forall. intros j Hj. apply elem_of_seq in Hj.
    split; [lia|]. intros p q Hp Hq. apply Hv; lia. }
  rewrite length_seq in Hlen.
  destruct (cat_last_spec ys batch length d) as (y & Ey & Hy & Dy).
  { intros ->. cbn in Hlen. lia. }
  { exact Hsh. }
  eexists _, y. split; [|split; [|split; [|split]]].
  - unfold MultiGroupEmbedding.__init__. rewrite (make_ok rnd tokens groups dim groups 0 Hg).
    reflexivity.
  - unfold MultiGroupEmbedding.forward. cbn [MultiGroupEmbedding.m].
    rewrite enumerate_fmap_seq.
    eapply returns_bind; [exact Rys|]. apply returns_op. exact Ey.
  - rewrite Hy, Hlen. reflexivity.
  - intros p q i f Hi Hf.
    destruct (Hys i i) as (yi & Hyi & Dyi).
    { apply lookup_seq. lia. }
    rewrite (Dy i yi p q f Hyi Hf). apply Dyi.
  - subst d. split.
    + intros H. pose proof (Nat.div_mod_eq dim groups). lia.
    + intros H. pose proof (Nat.div_mod_eq dim groups). lia.
Qed.

Lemma multi_group_embedding_lookup_witness :
  exists self y,
    MultiGroupEmbedding.__init__ Example.rnd 3 2 5 = Ok self
    /\ returns (MultiGroupEmbedding.forward self Example.ids) y
    /\ shape y = [1; 2; 2 * (5 / 2)]
    /\ (forall p q i f, i < 2 -> f < 5 / 2 ->
          data y [p; q; i * (5 / 2) + f]
          = Example.rnd ("m." +:+ pretty i +:+ ".weight")
              [Z.to_nat (ldata Example.ids [p; q; i]); f])
    /\ (2 * (5 / 2) = 5 <-> 5 mod 2 = 0).
Proof.
  apply (multi_group_embedding_lookup Example.rnd 3 2 5 Example.ids 1 2 2).
  - lia.
  - reflexivity.
  - lia.
  - intros p q i Hp Hq Hi. simpl. lia.
Defined.

(** X18.  The failures of [MultiGroupEmbedding]: with no group the
    constructor succeeds (the quotient [dim // groups] is never computed) and
    every call raises ValueError, the concatenation of an empty list; with
    groups and tables that have rows ([tokens > 0]), ids with fewer channels
    than groups, or with an id outside [0, tokens) in one of the first
    [groups] channels, raise IndexError. *)
Theorem multi_group_embedding_errors {R : Type} {SR : Scalar R}
    (rnd : string -> index -> R) (tokens groups dim : nat) (x : ltensor)
    (batch length channels : nat) :
  lshape x = [batch; length; channels] ->
  groups = 0
  \/ (0 < tokens
      /\ (channels < groups
          \/ exists p q i, p < batch /\ q < length /\ i < groups
                           /\ ~ (0 <= ldata x [p; q; i] < Z.of_nat tokens)%Z)) ->
  exists self,
    MultiGroupEmbedding.__init__ rnd tokens groups dim = Ok self
    /\ raises (MultiGroupEmbedding.forward self x)
              (if decide (groups = 0) then ValueError else IndexError).
Proof.
  intros Hx Hcase.
  destruct (decide (groups = 0)) as [->|Hg].
  - eexists. split; [reflexivity|].
    unfold MultiGroupEmbedding.forward. cbn.
    eapply raises_bind_ok; [apply returns_ret|]. apply raises_op. reflexivity.
  - eexists. split.
    { unfold MultiGroupEmbedding.__init__.
      rewrite (make_ok rnd tokens groups dim groups 0) by lia. reflexivity. }
    unfold MultiGroupEmbedding.forward. cbn [MultiGroupEmbedding.m].
    rewrite enumerate_fmap_seq. apply raises_bind.
    destruct Hcase as [H0|[Htokens Hcase]]; [contradiction|].
    apply (embed_groups_bad rnd tokens (dim / groups) x batch length channels Hx Htokens).
    apply Exists_exists.
    destruct Hcase as [Hch|(p & q & i & Hp & Hq & Hi & Hbad)].
    + exists channels. split; [apply elem_of_seq; lia|]. intros [Hlt _]. lia.
    + exists i. split; [apply elem_of_seq; lia|]. intros [_ Hv]. apply Hbad.
      apply Hv; assumption.
Qed.

Lemma multi_group_embedding_errors_witness :
  exists self,
    MultiGroupEmbedding.__init__ Example.rnd 2 2 5 = Ok self
    /\ raises (MultiGroupEmbedding.forward self Example.ids) IndexError.
Proof.
  apply (multi_group_embedding_errors Example.rnd 2 2 5 Example.ids 1 2 2).
  - reflexivity.
  - right. split; [lia|]. right. exists 0, 1, 1. simpl. lia.
Defined.

(** ** The wrappers around pretrained codecs *)

(** X19.  [TransformerDiffusionWithMultiPretrainedVqvae.forward] composes:
    when each of the [N] codecs projects its band to (batch, d, code_length)
    and [N * d = input_vec_dim], the call returns a tensor of shape
    (batch, out_channels, length), whatever [conditioning_input] and
    [conditioning_free] are. *)
Theorem multi_vqvae_forward_shape {R : Type} {SR : Scalar R} {EX : Externals R}
    (rnd : string -> index -> R) (kw : TransformerDiffusion.kwargs R)
    (m : TransformerDiffusion.t R) (mode : bool)
    (self : TransformerDiffusionWithMultiPretrainedVqvae.t R) (draw : index -> R)
    (x timesteps truth_mel : tensor R) (conditioning_input : option (tensor R))
    (conditioning_free : bool) (P : nat -> tensor R)
    (batch length b c n d code_length : nat) :
  let qs := TransformerDiffusionWithMultiPretrainedVqvae.quantizers self in
  TransformerDiffusion.__init__ rnd kw = Ok m ->
  TransformerDiffusionWithMultiPretrainedVqvae.diff self = TransformerDiffusion.train m mode ->
  shape x = [batch; TransformerDiffusion.kw_in_channels kw; length] ->
  shape timesteps = [batch] ->
  0 < length ->
  shape truth_mel = [b; c; n] ->
  0 < List.length qs ->
  (forall i q part,
     qs !! i = Some q ->
     TransformerDiffusionWithMultiPretrainedVqvae.mel_partition
       truth_mel (c / List.length qs) i = Ok part ->
     exists r, DiscreteVAE.infer q part = Ok (r, P i)
               /\ shape (P i) = [batch; d; code_length]) ->
  List.length qs * d = TransformerDiffusion.kw_input_vec_dim kw ->
  0 < code_length ->
  exists out,
    returns (TransformerDiffusionWithMultiPretrainedVqvae.forward self draw x timesteps
               truth_mel conditioning_input conditioning_free) out
    /\ shape out = [batch; TransformerDiffusion.kw_out_channels kw; length].
Proof.
  intros qs Hinit Hdiff Hx Hts Hlen Hmel HN Hq Hd Hs.
  destruct (multi_codes_spec self truth_mel b c n P batch d code_length Hmel HN Hq)
    as (proj & Rproj & Hproj & _ & _).
  fold qs in Hproj. rewrite Hd in Hproj.
  destruct (forward_spec rnd kw m mode draw x timesteps (Some proj) conditioning_input None
              conditioning_free batch length code_length Hinit Hx Hts Hlen)
    as (out & Rout & Hout & _).
  { destruct conditioning_free.
    - left. split; [reflexivity|]. left. reflexivity.
    - right. right. split; [reflexivity|]. split; [reflexivity|].
      exists proj. split; [reflexivity|]. split; [exact Hproj|exact Hs]. }
  exists out. split; [|exact Hout].
  unfold TransformerDiffusionWithMultiPretrainedVqvae.forward. rewrite Hdiff.
  eapply returns_bind; [exact Rproj|exact Rout].
Qed.

Lemma multi_vqvae_forward_shape_witness :
  exists out,
    returns (TransformerDiffusionWithMultiPretrainedVqvae.forward Example.single
               (fun _ => 0%Z) (Example.full [2; 2; 5] 3%Z) (Example.full [2] 7%Z)
               (Example.full [2; 4; 3] 1%Z) None false) out
    /\ shape out = [2; 4; 5].
Proof.
  apply (multi_vqvae_forward_shape Example.rnd Example.kwargs Example.model true
           Example.single (fun _ => 0%Z) (Example.full [2; 2; 5] 3%Z) (Example.full [2] 7%Z)
           (Example.full [2; 4; 3] 1%Z) None false (fun _ => Example.full [2; 2; 3] 1%Z)
           2 5 2 4 3 2 3).
  - exact example_model_init.
  - reflexivity.
  - reflexivity.
  - reflexivity.
  - lia.
  - reflexivity.
  - simpl. lia.
  - intros i q part Hq _. destruct i as [|i]; [|discriminate Hq].
    injection Hq as <-. eexists. split; reflexivity.
  - reflexivity.
  - lia.
Defined.

(** X20.  With an empty list of codecs the call raises ZeroDivisionError
    before any tensor operation: the partition size divides by the number of
    codecs. *)
Theorem multi_vqvae_without_codecs {R : Type} {SR : Scalar R} {EX : Externals R}
    (self : TransformerDiffusionWithMultiPretrainedVqvae.t R) (draw : index -> R)
    (x timesteps truth_mel : tensor R) (conditioning_input : option (tensor R))
    (conditioning_free : bool) (b c : nat) (rest : list nat) (n : nat) :
  TransformerDiffusionWithMultiPretrainedVqvae.quantizers self = [] ->
  shape truth_mel = b :: c :: rest ->
  TransformerDiffusionWithMultiPretrainedVqvae.forward self draw x timesteps truth_mel
    conditioning_input conditioning_free n
  = (Raise ZeroDivisionError, n).
Proof.
  intros Hq Hmel.
  unfold TransformerDiffusionWithMultiPretrainedVqvae.forward,
    TransformerDiffusionWithMultiPretrainedVqvae.codes.
  rewrite Hq. unfold Torch.shape_at. rewrite Hmel. reflexivity.
Qed.

Lemma multi_vqvae_without_codecs_witness :
  TransformerDiffusionWithMultiPretrainedVqvae.forward
    {| TransformerDiffusionWithMultiPretrainedVqvae.internal_step := 0;
       TransformerDiffusionWithMultiPretrainedVqvae.diff := Example.model;
       TransformerDiffusionWithMultiPretrainedVqvae.quantizers := [] |}
    (fun _ => 0%Z) (Example.full [2; 2; 5] 3%Z) (Example.full [2] 7%Z)
    (Example.full [2; 4; 3] 1%Z) None false 0
  = (Raise ZeroDivisionError, 0).
Proof.
  apply (multi_vqvae_without_codecs _ (fun _ => 0%Z) (Example.full [2; 2; 5] 3%Z)
           (Example.full [2] 7%Z) (Example.full [2; 4; 3] 1%Z) None false 2 4 [3] 0).
  - reflexivity.
  - reflexivity.
Defined.

(** ** [TransformerDiffusionWithQuantizer]: forward, before_step, schedule *)

Section QuantizerCodes.
Context {R : Type} {SR : Scalar R} {EX : Externals R} {Laws : ScalarLaws R}.

Lemma sum_zero_means_spec (ps : list (tensor R)) :
  forall acc,
  match acc with
  | PyInt k => k = 0%Z
  | PyTensor t => shape t = [] /\ forall idx, data t idx = szero
  end ->
  exists v,
    returns (TransformerDiffusionWithQuantizerNet.sum_zero_means acc ps) v
    /\ match v with
       | PyInt k => k = 0%Z
       | PyTensor t => shape t = [] /\ forall idx, data t idx = szero
       end
    /\ match v with PyInt _ => ∅ | PyTensor t => leaves t end
       = match acc with PyInt _ => ∅ | PyTensor t => leaves t end ∪ Torch.leaves_of ps.
Proof.
  induction ps as [|p ps IH]; intros acc Hacc.
  - exists acc. split; [apply returns_ret|]. split; [exact Hacc|].
    unfold Torch.leaves_of. cbn [fmap list_fmap union_list foldr].
    rewrite (right_id_L ∅ (∪)). reflexivity.
  - cbn [TransformerDiffusionWithQuantizerNet.sum_zero_means].
    rewrite leaves_of_cons.
    destruct acc as [k|a].
    + subst k.
      destruct (IH (PyTensor (Tensor [] (fun idx =>
                  sadd (smul (sdiv_nat (Torch.sum_all (shape p) (data p))
                                       (Torch.numel (shape p))) (sof_Z 0))
                       (sof_Z 0)) (leaves p)))) as (v & Rv & Hv & Lv).
      { split; [reflexivity|]. intros idx. cbn [data].
        rewrite sof_Z_zero, smul_zero_r, sadd_zero_r. reflexivity. }
      exists v. split; [|split; [exact Hv|]].
      * eapply returns_bind; [apply returns_op; reflexivity|].
        eapply returns_bind; [apply returns_op; reflexivity|].
        eapply returns_bind; [|exact Rv].
        apply (returns_fmap PyTensor). apply returns_op. reflexivity.
      * rewrite Lv. cbn [leaves]. rewrite (left_id_L ∅ (∪)). reflexivity.
    + destruct Hacc as [Hsa Hda].
      destruct (add_same_shape a
                  (Tensor [] (fun _ => smul (sdiv_nat (Torch.sum_all (shape p) (data p))
                                                      (Torch.numel (shape p))) (sof_Z 0))
                          (leaves p))
                  [] Hsa eq_refl) as (z & Ez & Hz & Dz).
      assert (Lz : leaves z = leaves a ∪ leaves p).
      { unfold Torch.add in Ez. cbn [shape] in Ez. rewrite Hsa in Ez.
        cbn in Ez. injection Ez as <-. reflexivity. }
      destruct (IH (PyTensor z)) as (v & Rv & Hv & Lv).
      { split; [exact Hz|]. intros idx. rewrite Dz, Hda. cbn [data].
        rewrite sof_Z_zero, smul_zero_r, sadd_zero_r. reflexivity. }
      exists v. split; [|split; [exact Hv|]].
      * eapply returns_bind; [apply returns_op; reflexivity|].
        eapply returns_bind; [apply returns_op; reflexivity|].
        eapply returns_bind; [|exact Rv].
        apply (returns_fmap PyTensor). apply returns_op. exact Ez.
      * rewrite Lv, Lz. rewrite (assoc_L (∪)). reflexivity.
Qed.

Lemma add_value_spec (t : tensor R) (v : pyvalue R) (b c n : nat) :
  shape t = [b; c; n] ->
  match v with
  | PyInt k => k = 0%Z
  | PyTensor u => shape u = [] /\ forall idx, data u idx = szero
  end ->
  exists y, returns (TransformerDiffusionWithQuantizerNet.add_value t v) y
    /\ shape y = [b; c; n]
    /\ leaves y = leaves t ∪ match v with PyInt _ => ∅ | PyTensor u => leaves u end
    /\ forall i j k, i < b -> j < c -> k < n -> data y [i; j; k] = data t [i; j; k].
Proof.
  intros Ht Hv. unfold TransformerDiffusionWithQuantizerNet.add_value.
  destruct v as [k|u].
  - subst k. eexists. split; [apply returns_op; reflexivity|]. split; [exact Ht|].
    split; [cbn [leaves]; rewrite (right_id_L ∅ (∪)); reflexivity|].
    intros i j l _ _ _. cbn [data]. rewrite sof_Z_zero. apply sadd_zero_r.
  - destruct Hv as [Hsu Hdu].
    assert (Hb : Torch.broadcast_shapes [b; c; n] [] = Some [b; c; n]).
    { unfold Torch.broadcast_shapes, Torch.pad_left.
      cbn [length Nat.max Nat.sub repeat app Torch.bcast_dims].
      rewrite !bcast_dim_one_r. reflexivity. }
    eexists. split; [|split; [|split]].
    + apply returns_op. unfold Torch.add. rewrite Ht, Hsu, Hb. reflexivity.
    + reflexivity.
    + reflexivity.
    + intros i j l Hi Hj Hl. cbn [data]. rewrite Hdu, sadd_zero_r.
      rewrite bidx_3d by assumption. reflexivity.
Qed.

End QuantizerCodes.

Lemma quantizer_codes_spec
    {R : Type} {SR : Scalar R} {EX : Externals R} {Laws : ScalarLaws R}
    (self : TransformerDiffusionWithQuantizerNet.t R) (truth_mel p dl : tensor R)
    (batch d code_length : nat) :
  MusicQuantizer2Net.forward (TransformerDiffusionWithQuantizerNet.quantizer self) truth_mel
  = Ok (p, dl) ->
  shape p = [batch; d; code_length] ->
  exists proj diversity_loss,
    returns (TransformerDiffusionWithQuantizerNet.codes self truth_mel) (proj, diversity_loss)
    /\ shape proj = [batch; code_length; d]
    /\ (forall i j k, i < batch -> j < code_length -> k < d ->
          data proj [i; j; k] = data p [i; k; j])
    /\ if bool_decide
            (TransformerDiffusionWithQuantizer.freeze_quantizer_until
               (TransformerDiffusionWithQuantizerNet.schedule self)
             < TransformerDiffusionWithQuantizer.internal_step
                 (TransformerDiffusionWithQuantizerNet.schedule self))%Z
       then leaves proj = leaves p /\ diversity_loss = dl
       else leaves proj
            = Torch.leaves_of (MusicQuantizer2Net.parameters
                                 (TransformerDiffusionWithQuantizerNet.quantizer self))
            /\ shape diversity_loss = shape dl
            /\ leaves diversity_loss = ∅
            /\ forall idx, data diversity_loss idx = szero.
Proof.
  intros Eq Hp.
  unfold TransformerDiffusionWithQuantizerNet.codes,
    TransformerDiffusionWithQuantizerNet.quant_grad_enabled.
  destruct (bool_decide _) eqn:Hen.
  - destruct (permute021_3d p batch d code_length Hp) as (proj & Eproj & Hproj & Lproj & Dproj).
    exists proj, dl. split; [|split; [exact Hproj|split; [|split; [exact Lproj|reflexivity]]]].
    + cbn [TransformerDiffusionWithQuantizerNet.set_grad_enabled negb].
      eapply returns_bind; [apply returns_op; exact Eq|]. cbn [fst snd].
      eapply returns_bind; [apply returns_op; exact Eproj|].
      apply returns_ret.
    + intros i j k _ _ _. apply Dproj.
  - cbn [TransformerDiffusionWithQuantizerNet.set_grad_enabled negb].
    destruct (permute021_3d (TransformerDiffusionWithMultiPretrainedVqvae.no_grad p)
                batch d code_length Hp) as (proj & Eproj & Hproj & Lproj & Dproj).
    destruct (sum_zero_means_spec
                (MusicQuantizer2Net.parameters
                   (TransformerDiffusionWithQuantizerNet.quantizer self))
                (PyInt 0) eq_refl) as (v & Rv & Hv & Lv).
    destruct (add_value_spec proj v batch code_length d Hproj Hv)
      as (y & Ry & Hy & Ly & Dy).
    eexists y, _. split; [|split; [exact Hy|split; [|split; [|split; [|split]]]]].
    + eapply returns_bind; [apply returns_op; exact Eq|]. cbn [fst snd].
      eapply returns_bind; [apply returns_op; exact Eproj|].
      eapply returns_bind; [exact Rv|].
      eapply returns_bind; [exact Ry|].
      eapply returns_bind; [apply returns_op; reflexivity|].
      apply returns_ret.
    + intros i j k Hi Hj Hk. rewrite (Dy i j k Hi Hj Hk). rewrite Dproj. reflexivity.
    + rewrite Ly, Lv, Lproj. cbn [TransformerDiffusionWithMultiPretrainedVqvae.no_grad leaves].
      rewrite !(left_id_L ∅ (∪)). reflexivity.
    + reflexivity.
    + reflexivity.
    + intros idx. cbn [data]. rewrite sof_Z_zero. apply smul_zero_r.
Qed.

(** X21.  The codes that the wrapper hands to the denoising network are the
    projection of the quantizer, transposed to (batch, code_length, d).  While
    [internal_step <= freeze_quantizer_until] the projection is detached, a
    zero-weighted mean of every quantizer parameter is added, which in exact
    arithmetic changes no entry and makes the codes reach exactly the
    quantizer's parameters, and the diversity loss is zero and detached.  From
    the next step on the projection keeps its graph and the diversity loss is
    the quantizer's. *)
Theorem quantizer_codes_frozen_or_trained
    {R : Type} {SR : Scalar R} {EX : Externals R} {Laws : ScalarLaws R}
    (self : TransformerDiffusionWithQuantizerNet.t R) (truth_mel p dl : tensor R)
    (batch d code_length : nat) :
  MusicQuantizer2Net.forward (TransformerDiffusionWithQuantizerNet.quantizer self) truth_mel
  = Ok (p, dl) ->
  shape p = [batch; d; code_length] ->
  exists proj diversity_loss,
    returns (TransformerDiffusionWithQuantizerNet.codes self truth_mel) (proj, diversity_loss)
    /\ shape proj = [batch; code_length; d]
    /\ (forall i j k, i < batch -> j < code_length -> k < d ->
          data proj [i; j; k] = data p [i; k; j])
    /\ if bool_decide
            (TransformerDiffusionWithQuantizer.freeze_quantizer_until
               (TransformerDiffusionWithQuantizerNet.schedule self)
             < TransformerDiffusionWithQuantizer.internal_step
                 (TransformerDiffusionWithQuantizerNet.schedule self))%Z
       then leaves proj = leaves p /\ diversity_loss = dl
       else leaves proj
            = Torch.leaves_of (MusicQuantizer2Net.parameters
                                 (TransformerDiffusionWithQuantizerNet.quantizer self))
            /\ shape diversity_loss = shape dl
            /\ leaves diversity_loss = ∅
            /\ forall idx, data diversity_loss idx = szero.
Proof.
  intros Eq Hp.
  exact (quantizer_codes_spec self truth_mel p dl batch d code_length Eq Hp).
Qed.

Lemma quantizer_codes_frozen_or_trained_witness :
  let self := Example.with_quantizer 100 in
  let truth_mel := Example.full [2; 2; 3] 6%Z in
  exists proj diversity_loss,
    returns (TransformerDiffusionWithQuantizerNet.codes self truth_mel) (proj, diversity_loss)
    /\ shape proj = [2; 3; 2]
    /\ (forall i j k, i < 2 -> j < 3 -> k < 2 -> data proj [i; j; k] = 6%Z)
    /\ leaves proj = Torch.leaves_of (MusicQuantizer2Net.parameters Example.music_quantizer)
    /\ shape diversity_loss = []
    /\ leaves diversity_loss = ∅
    /\ forall idx, data diversity_loss idx = 0%Z.
Proof.
  apply (@quantizer_codes_frozen_or_trained Z Example.Z_scalar Example.Z_externals
           Example.Z_laws (Example.with_quantizer 100) (Example.full [2; 2; 3] 6%Z)
           (Tensor [2; 2; 3] (fun _ => 6%Z) {["quantizer.codevectors"]})
           (Tensor [] (fun _ => 7%Z) {["quantizer.codevectors"]}) 2 2 3).
  - reflexivity.
  - reflexivity.
Defined.



Section BeforeStep.
Context {R : Type} {SR : Scalar R} {EX : Externals R}.

Lemma scale_grads_spec (ps : list string) :
  forall gs : TransformerDiffusionWithQuantizerNet.grads,
  NoDup ps -> (forall p, p ∈ ps -> is_Some (gs !! p)) ->
  exists gs',
    TransformerDiffusionWithQuantizerNet.scale_grads ps gs = Ok gs'
    /\ forall p, gs' !! p
                 = if decide (p ∈ ps)
                   then TransformerDiffusionWithQuantizerNet.scale_grad <$> gs !! p
                   else gs !! p.
Proof.
  induction ps as [|q ps IH]; intros gs Hnd Hall.
  - exists gs. split; [reflexivity|]. intros p.
    rewrite decide_False by apply not_elem_of_nil. reflexivity.
  - apply NoDup_cons in Hnd as [Hq Hnd].
    destruct (Hall q) as [g Hg]; [apply elem_of_cons; left; reflexivity|].
    cbn [TransformerDiffusionWithQuantizerNet.scale_grads]. rewrite Hg.
    destruct (IH (<[q := TransformerDiffusionWithQuantizerNet.scale_grad g]> gs) Hnd)
      as (gs' & Egs & Hgs).
    { intros p Hp. destruct (decide (q = p)) as [->|Hne].
      - rewrite lookup_insert_eq. eexists. reflexivity.
      - rewrite lookup_insert_ne by exact Hne. apply Hall. apply elem_of_cons. right. exact Hp. }
    exists gs'. split; [exact Egs|]. intros p. rewrite Hgs.
    destruct (decide (p = q)) as [->|Hne].
    + rewrite decide_False by exact Hq.
      rewrite decide_True by (apply elem_of_cons; left; reflexivity).
      rewrite lookup_insert_eq, Hg. reflexivity.
    + rewrite lookup_insert_ne by (intros E; apply Hne; symmetry; exact E).
      destruct (decide (p ∈ ps)) as [Hp|Hp].
      * rewrite decide_True by (apply elem_of_cons; right; exact Hp). reflexivity.
      * rewrite decide_False; [reflexivity|].
        intros H. apply elem_of_cons in H as [H|H]; contradiction.
Qed.

Lemma scale_grads_missing (ps : list string) :
  forall gs : TransformerDiffusionWithQuantizerNet.grads,
  (exists p, p ∈ ps /\ gs !! p = None) ->
  TransformerDiffusionWithQuantizerNet.scale_grads ps gs = Raise TypeError.
Proof.
  induction ps as [|q ps IH]; intros gs (p & Hp & Hnone).
  - by apply not_elem_of_nil in Hp.
  - cbn [TransformerDiffusionWithQuantizerNet.scale_grads].
    destruct (gs !! q) as [g|] eqn:Hg; [|reflexivity].
    apply IH. exists p. apply elem_of_cons in Hp as [->|Hp]; [congruence|].
    split; [exact Hp|]. rewrite lookup_insert_ne; [exact Hnone|]. congruence.
Qed.

End BeforeStep.

(** X23.  [before_step] multiplies the gradient of every block output
    projection and of every block prenorm by .2, once, keeps its shape, and
    leaves all other gradients as they are (distinct parameters have distinct
    names, and each scaled parameter has a gradient). *)
Theorem before_step_scales_gradients {R : Type} {SR : Scalar R} {EX : Externals R}
    (self : TransformerDiffusionWithQuantizerNet.t R)
    (gs : TransformerDiffusionWithQuantizerNet.grads) :
  let scaled := Torch.names (TransformerDiffusionWithQuantizerNet.scaled_grad_parameters self) in
  NoDup scaled ->
  (forall p, p ∈ scaled -> is_Some (gs !! p)) ->
  exists gs',
    TransformerDiffusionWithQuantizerNet.before_step self gs = Ok gs'
    /\ (forall p g, p ∈ scaled -> gs !! p = Some g ->
          exists g', gs' !! p = Some g'
            /\ shape g' = shape g
            /\ forall idx, (data g' idx == data g idx * (1 # 5))%Q)
    /\ (forall p, p ∉ scaled -> gs' !! p = gs !! p).
Proof.
  intros scaled Hnd Hall.
  destruct (scale_grads_spec scaled gs Hnd Hall) as (gs' & Egs & Hgs).
  exists gs'. split; [exact Egs|]. split.
  - intros p g Hp Hg. rewrite Hgs, decide_True by exact Hp. rewrite Hg.
    eexists. split; [reflexivity|]. split; [reflexivity|].
    intros idx. cbn [TransformerDiffusionWithQuantizerNet.scale_grad data].
    apply Qmult_comp; reflexivity.
  - intros p Hp. rewrite Hgs, decide_False by exact Hp. reflexivity.
Qed.

Lemma before_step_scales_gradients_witness :
  let self := Example.with_quantizer 100 in
  let scaled := Torch.names (TransformerDiffusionWithQuantizerNet.scaled_grad_parameters self) in
  exists gs',
    TransformerDiffusionWithQuantizerNet.before_step self Example.gradients = Ok gs'
    /\ (forall p g, p ∈ scaled -> Example.gradients !! p = Some g ->
          exists g', gs' !! p = Some g'
            /\ shape g' = shape g
            /\ forall idx, (data g' idx == data g idx * (1 # 5))%Q)
    /\ (forall p, p ∉ scaled -> gs' !! p = Example.gradients !! p).
Proof.
  apply (before_step_scales_gradients (Example.with_quantizer 100) Example.gradients).
  - apply (bool_decide_unpack _). vm_compute. exact I.
  - apply Forall_forall. apply (bool_decide_unpack _). vm_compute. exact I.
Defined.

(** X24.  When one of the scaled parameters has no gradient ([p.grad] is
    [None], as for a frozen parameter), [before_step] raises TypeError. *)
Theorem before_step_missing_gradient {R : Type} {SR : Scalar R} {EX : Externals R}
    (self : TransformerDiffusionWithQuantizerNet.t R)
    (gs : TransformerDiffusionWithQuantizerNet.grads) (p : string) :
  p ∈ Torch.names (TransformerDiffusionWithQuantizerNet.scaled_grad_parameters self) ->
  gs !! p = None ->
  TransformerDiffusionWithQuantizerNet.before_step self gs = Raise TypeError.
Proof.
  intros Hp Hnone. apply scale_grads_missing. exists p. split; assumption.
Qed.

Lemma before_step_missing_gradient_witness :
  TransformerDiffusionWithQuantizerNet.before_step (Example.with_quantizer 100) ∅
  = Raise TypeError.
Proof.
  apply (before_step_missing_gradient (Example.with_quantizer 100) ∅ "layers.0.out.weight").
  - apply (bool_decide_unpack _). vm_compute. exact I.
  - reflexivity.
Defined.

Section TemperatureFloor.
Import TransformerDiffusionWithQuantizer.
Local Open Scope Q_scope.

(** Bernoulli's inequality, in the form [a ^ k * (1 + k * (1 - a)) <= 1]. *)
Lemma Qpower_bernoulli (a : Q) (k : Z) :
  0 <= a -> a <= 1 -> (0 <= k)%Z -> a ^ k * (1 + inject_Z k * (1 - a)) <= 1.
Proof.
  intros H0 H1 Hk. revert k Hk. apply natlike_ind.
  - change (a ^ 0) with 1. change (inject_Z 0) with 0. lra.
  - intros k Hk IH. unfold Z.succ. rewrite Qpower_plus' by lia. rewrite Qpower_1_r.
    rewrite inject_Z_plus.
    assert (Hp : 0 <= a ^ k) by (apply Qpower_0_le; exact H0).
    assert (Hi : 0 <= inject_Z k).
    { change 0 with (inject_Z 0). rewrite <- Zle_Qle. exact Hk. }
    set (p := a ^ k) in *. set (i := inject_Z k) in *.
    change (inject_Z 1) with 1.
    apply Qle_trans with (p * (1 + i * (1 - a))); [|exact IH].
    assert (E : 1 + i * (1 - a)
                == a * (1 + (i + 1) * (1 - a)) + (1 - a) * (1 - a) * (1 + i)) by ring.
    assert (Hsq : 0 <= (1 - a) * (1 - a) * (1 + i)).
    { apply Qmult_le_0_compat; [apply Qmult_le_0_compat; lra|lra]. }
    rewrite <- Qmult_assoc. rewrite !(Qmult_comm p). apply Qmult_le_compat_r; [|exact Hp].
    rewrite E. set (y := a * (1 + (i + 1) * (1 - a))) in *. lra.
Qed.

Lemma decay_below_floor (max_t min_t a : Q) :
  0 < min_t -> 0 <= a -> a < 1 ->
  exists q0 : Z, (0 <= q0)%Z /\ max_t * a ^ q0 <= min_t.
Proof.
  intros Hmin H0 H1.
  destruct (Qlt_le_dec max_t 0) as [Hneg|Hpos].
  - exists 0%Z. split; [lia|]. simpl. lra.
  - set (q0 := Z.max 0 (Qceiling (max_t / (min_t * (1 - a))))).
    exists q0. split; [lia|].
    assert (Hq : max_t / (min_t * (1 - a)) <= inject_Z q0).
    { apply Qle_trans with (inject_Z (Qceiling (max_t / (min_t * (1 - a))))).
      + apply Qle_ceiling.
      + rewrite <- Zle_Qle. lia. }
    assert (He : 0 < min_t * (1 - a)) by nra.
    assert (Hq' : max_t <= inject_Z q0 * (min_t * (1 - a))).
    { apply Qle_trans with (max_t / (min_t * (1 - a)) * (min_t * (1 - a))).
      + apply Qle_lteq. right. field. split; lra.
      + apply Qmult_le_compat_r; [exact Hq|apply Qlt_le_weak; exact He]. }
    pose proof (Qpower_bernoulli a q0 H0 ltac:(lra) ltac:(lia)) as Hb.
    assert (Hp : 0 <= a ^ q0) by (apply Qpower_0_le; exact H0).
    set (p := a ^ q0) in *. set (i := inject_Z q0) in *.
    (* max_t * p <= min_t * (1 + i * (1 - a)) * p <= min_t *)
    apply Qle_trans with (min_t * (p * (1 + i * (1 - a)))).
    + assert (Hm : max_t <= min_t * (1 + i * (1 - a))).
      { assert (E : min_t * (1 + i * (1 - a)) == min_t + i * (min_t * (1 - a))) by ring.
        rewrite E. lra. }
      assert (E2 : min_t * (p * (1 + i * (1 - a))) == min_t * (1 + i * (1 - a)) * p) by ring.
      rewrite E2. apply Qmult_le_compat_r; [exact Hm|exact Hp].
    + apply Qle_trans with (min_t * 1); [|lra].
      rewrite !(Qmult_comm min_t). apply Qmult_le_compat_r; [exact Hb|lra].
Qed.

End TemperatureFloor.

(** X25.  With a positive floor and a decay factor in [0, 1), the
    temperature reaches the floor: from some step on, [update_for_step] sets
    it to [min_gumbel_temperature] exactly. *)
Theorem temperature_reaches_floor (self : TransformerDiffusionWithQuantizer.t) :
  let q := TransformerDiffusionWithQuantizer.quantizer self in
  let max_t := TransformerDiffusionWithQuantizer.max_gumbel_temperature q in
  let min_t := TransformerDiffusionWithQuantizer.min_gumbel_temperature q in
  let decay := TransformerDiffusionWithQuantizer.gumbel_temperature_decay q in
  let temp := TransformerDiffusionWithQuantizer.temperature_at self in
  (0 < min_t)%Q -> (0 <= decay)%Q -> (decay < 1)%Q ->
  exists s0 : Z, forall s, (s0 <= s)%Z -> (temp s == min_t)%Q.
Proof.
  intros q max_t min_t decay temp Hmin H0 H1.
  destruct (decay_below_floor max_t min_t decay Hmin H0 H1) as (q0 & Hq0 & Hle).
  exists (TransformerDiffusionWithQuantizer.freeze_quantizer_until self + q0)%Z.
  intros s Hs. subst temp. rewrite temperature_at_eq. fold q. fold max_t decay min_t.
  apply Q.max_r.
  set (k := Z.max 0 (s - TransformerDiffusionWithQuantizer.freeze_quantizer_until self)).
  assert (Hk : (0 <= q0 <= k)%Z) by lia.
  pose proof (Qpower_antitone decay q0 k H0 ltac:(lra) Hk) as Hanti.
  destruct (Qlt_le_dec max_t 0) as [Hneg|Hpos].
  - assert (0 <= decay ^ k)%Q by (apply Qpower_0_le; exact H0). nra.
  - apply Qle_trans with (max_t * decay ^ q0)%Q; [|exact Hle].
    rewrite !(Qmult_comm max_t). apply Qmult_le_compat_r; assumption.
Qed.

Lemma temperature_reaches_floor_witness :
  let self := TransformerDiffusionWithQuantizer.init 20000 (999995 # 1000000) in
  exists s0 : Z, forall s, (s0 <= s)%Z ->
    (TransformerDiffusionWithQuantizer.temperature_at self s == 1 # 2)%Q.
Proof.
  apply (temperature_reaches_floor
           (TransformerDiffusionWithQuantizer.init 20000 (999995 # 1000000)));
    simpl; unfold Qlt, Qle; simpl; lia.
Defined.

(** ** [TransformerDiffusionWithARPrior] *)

Section ARPriorForward.
Context {R : Type} {SR : Scalar R} {EX : Externals R}.

Lemma ar_prior_init_inv rnd (ar : GptMusicLower.t R) (freeze_diff : bool)
    (kw : TransformerDiffusion.kwargs R) (self : TransformerDiffusionWithARPrior.t R) :
  TransformerDiffusionWithARPrior.__init__ rnd ar freeze_diff kw = Ok self ->
  exists d st,
    TransformerDiffusion.__init__ rnd (TransformerDiffusionWithARPrior.with_ar_prior kw) = Ok d
    /\ TransformerDiffusionWithARPrior.diff self = TransformerDiffusion.set_attrs d st
    /\ TransformerDiffusionWithARPrior.ar self = ar.
Proof.
  unfold TransformerDiffusionWithARPrior.__init__.
  destruct (TransformerDiffusion.__init__ rnd _) as [d|] eqn:Ed; [|discriminate].
  cbn [mbind result_bind].
  destruct (if freeze_diff then _ else _) as [st|]; [|discriminate].
  cbn [mbind result_bind mret result_ret]. intros [= <-].
  exists d, st. split; [reflexivity|]. split; reflexivity.
Qed.

End ARPriorForward.

(** X26.  With [freeze_diff=True] the constructor freezes every parameter of
    the denoising network except those of [ar_prior_intg] and of [ar_input],
    which both end trainable with [DO_NOT_TRAIN] removed; the parameters of the
    autoregressive prior are frozen. *)
Theorem ar_prior_freeze_diff {R : Type} {SR : Scalar R} {EX : Externals R}
    (rnd : string -> index -> R) (ar : GptMusicLower.t R)
    (kw : TransformerDiffusion.kwargs R) :
  TransformerDiffusion.kw_freeze_except_code_converters kw = false ->
  TransformerDiffusion.kw_num_heads kw <> 0 ->
  NoDup (encoder_params (TransformerDiffusion.kw_prenet_channels kw)
           (TransformerDiffusion.kw_prenet_layers kw)
           (TransformerDiffusion.kw_prenet_channels kw / 64)).*1 ->
  exists self lin enc,
    TransformerDiffusionWithARPrior.__init__ rnd ar true kw = Ok self
    /\ TransformerDiffusion.ar_input (TransformerDiffusionWithARPrior.diff self) = Some lin
    /\ TransformerDiffusion.ar_prior_intg (TransformerDiffusionWithARPrior.diff self) = Some enc
    /\ Torch.names (Linear.parameters lin) = ["ar_input.weight"; "ar_input.bias"]
    /\ (forall p,
          p ∈ Torch.names (TransformerDiffusion.parameters
                             (TransformerDiffusionWithARPrior.diff self)) ->
          ParamAttrs.get (TransformerDiffusion.attrs
                            (TransformerDiffusionWithARPrior.diff self)) p
          = if decide (p ∈ Torch.names (Encoder.parameters enc)
                       \/ p ∈ Torch.names (Linear.parameters lin))
            then ParamAttrs.trainable else ParamAttrs.frozen)
    /\ (forall p, p ∈ Torch.names (Linear.parameters lin) ->
          p ∈ Torch.names (TransformerDiffusion.parameters
                             (TransformerDiffusionWithARPrior.diff self)))
    /\ (forall p, p ∈ Torch.names (GptMusicLower.parameters ar) ->
          ParamAttrs.get (TransformerDiffusionWithARPrior.ar_attrs self) p
          = ParamAttrs.frozen).
Proof.
  intros Hf Hh Hnd.
  set (kw' := TransformerDiffusionWithARPrior.with_ar_prior kw).
  destruct (make_layers_ok rnd kw' 0 (TransformerDiffusion.kw_num_layers kw') Hh)
    as [ls Els].
  set (self0 := TransformerDiffusion.assign rnd kw'
                  (TransformerDiffusion.kw_prenet_channels kw' / 64) ls).
  set (all := Torch.names (TransformerDiffusion.parameters self0)).
  assert (Einit : TransformerDiffusion.__init__ rnd kw'
                  = Ok (TransformerDiffusion.set_attrs self0 (ParamAttrs.of_names all))).
  { unfold TransformerDiffusion.__init__.
    unfold py_floordiv. rewrite decide_False by discriminate.
    cbn [mbind result_bind mret result_ret]. rewrite Els.
    cbn [mbind result_bind mret result_ret].
    replace (TransformerDiffusion.kw_freeze_except_code_converters kw') with false
      by (symmetry; exact Hf).
    reflexivity. }
  set (lin := Linear.init rnd "ar_input" (TransformerDiffusion.kw_input_vec_dim kw)
                (TransformerDiffusion.kw_prenet_channels kw) true).
  set (enc := Encoder.init rnd "ar_prior_intg" (TransformerDiffusion.kw_prenet_channels kw)
                (TransformerDiffusion.kw_prenet_layers kw)
                (TransformerDiffusion.kw_prenet_channels kw / 64)).
  assert (Elin : TransformerDiffusion.ar_input self0 = Some lin) by reflexivity.
  assert (Eenc : TransformerDiffusion.ar_prior_intg self0 = Some enc) by reflexivity.
  set (ee := Torch.names (Encoder.parameters enc)).
  set (ll := Torch.names (Linear.parameters lin)).
  assert (Eee : ee = (fun s => "ar_prior_intg." +:+ s)
                     <$> (encoder_params (TransformerDiffusion.kw_prenet_channels kw)
                            (TransformerDiffusion.kw_prenet_layers kw)
                            (TransformerDiffusion.kw_prenet_channels kw / 64)).*1).
  { subst ee enc. unfold Encoder.parameters, Encoder.init. simpl.
    rewrite names_register. rewrite <- list_fmap_compose. reflexivity. }
  assert (Ell : ll = ["ar_input.weight"; "ar_input.bias"]).
  { subst ll lin. apply names_Linear_init. }
  assert (Hsub : forall p, p ∈ ee ++ ll -> p ∈ all).
  { intros p Hp. subst all. unfold TransformerDiffusion.parameters.
    rewrite Elin, Eenc. rewrite !names_app.
    cbn [TransformerDiffusion.opt_parameters from_option].
    fold ee ll. rewrite !elem_of_app. rewrite elem_of_app in Hp. tauto. }
  destruct (unfreeze_spec (ee ++ ll)
              (TransformerDiffusion.freeze all (ParamAttrs.of_names all)))
    as (st & Est & Hst).
  { apply NoDup_app. split; [rewrite Eee; apply NoDup_prefixed; exact Hnd|].
    split.
    - intros p Hp Hl. rewrite Eee in Hp. rewrite Ell in Hl.
      apply list_elem_of_fmap in Hp as (s & -> & _).
      apply elem_of_cons in Hl as [Hl|Hl]; [discriminate Hl|].
      apply elem_of_cons in Hl as [Hl|Hl]; [discriminate Hl|].
      by apply not_elem_of_nil in Hl.
    - rewrite Ell. apply NoDup_cons. split; [|apply NoDup_singleton].
      rewrite list_elem_of_singleton. discriminate. }
  { intros p Hp. rewrite get_freeze. rewrite decide_True by (apply Hsub; exact Hp).
    discriminate. }
  exists {| TransformerDiffusionWithARPrior.internal_step := 0;
            TransformerDiffusionWithARPrior.ar := ar;
            TransformerDiffusionWithARPrior.ar_attrs :=
              TransformerDiffusion.freeze (Torch.names (GptMusicLower.parameters ar))
                (ParamAttrs.of_names (Torch.names (GptMusicLower.parameters ar)));
            TransformerDiffusionWithARPrior.diff := TransformerDiffusion.set_attrs self0 st |},
         lin, enc.
  split.
  { unfold TransformerDiffusionWithARPrior.__init__. fold kw'. rewrite Einit.
    cbn [mbind result_bind mret result_ret].
    change (TransformerDiffusion.ar_prior_intg
              (TransformerDiffusion.set_attrs self0 (ParamAttrs.of_names all)))
      with (Some enc).
    change (TransformerDiffusion.ar_input
              (TransformerDiffusion.set_attrs self0 (ParamAttrs.of_names all)))
      with (Some lin).
    cbn [getattr mbind result_bind mret result_ret].
    change (TransformerDiffusion.attrs
              (TransformerDiffusion.set_attrs self0 (ParamAttrs.of_names all)))
      with (ParamAttrs.of_names all).
    change (TransformerDiffusion.parameters
              (TransformerDiffusion.set_attrs self0 (ParamAttrs.of_names all)))
      with (TransformerDiffusion.parameters self0).
    fold all. rewrite names_app. fold ee ll. rewrite Est.
    cbn [mbind result_bind mret result_ret].
    reflexivity. }
  cbn [TransformerDiffusionWithARPrior.diff TransformerDiffusionWithARPrior.ar_attrs].
  change (TransformerDiffusion.attrs (TransformerDiffusion.set_attrs self0 st)) with st.
  change (TransformerDiffusion.parameters (TransformerDiffusion.set_attrs self0 st))
    with (TransformerDiffusion.parameters self0).
  change (TransformerDiffusion.ar_input (TransformerDiffusion.set_attrs self0 st))
    with (Some lin).
  change (TransformerDiffusion.ar_prior_intg (TransformerDiffusion.set_attrs self0 st))
    with (Some enc).
  fold all ee ll. clearbody all ee ll self0 lin enc.
  split; [reflexivity|]. split; [reflexivity|]. split; [exact Ell|].
  split; [|split].
  - intros p Hp. rewrite Hst, get_freeze. rewrite (decide_True _ _ Hp).
    destruct (decide (p ∈ ee ++ ll)) as [Hc|Hc].
    + rewrite decide_True by (apply elem_of_app; exact Hc). reflexivity.
    + rewrite decide_False; [reflexivity|]. intros H. apply Hc. apply elem_of_app. exact H.
  - intros p Hp. apply Hsub. apply elem_of_app. right. exact Hp.
  - intros p Hp. rewrite get_freeze. rewrite (decide_True _ _ Hp). reflexivity.
Qed.

Lemma ar_prior_freeze_diff_witness :
  exists self lin enc,
    TransformerDiffusionWithARPrior.__init__ Example.rnd Example.prior_model true
      Example.kwargs = Ok self
    /\ TransformerDiffusion.ar_input (TransformerDiffusionWithARPrior.diff self) = Some lin
    /\ TransformerDiffusion.ar_prior_intg (TransformerDiffusionWithARPrior.diff self) = Some enc
    /\ Torch.names (Linear.parameters lin) = ["ar_input.weight"; "ar_input.bias"]
    /\ (forall p,
          p ∈ Torch.names (TransformerDiffusion.parameters
                             (TransformerDiffusionWithARPrior.diff self)) ->
          ParamAttrs.get (TransformerDiffusion.attrs
                            (TransformerDiffusionWithARPrior.diff self)) p
          = if decide (p ∈ Torch.names (Encoder.parameters enc)
                       \/ p ∈ Torch.names (Linear.parameters lin))
            then ParamAttrs.trainable else ParamAttrs.frozen)
    /\ (forall p, p ∈ Torch.names (Linear.parameters lin) ->
          p ∈ Torch.names (TransformerDiffusion.parameters
                             (TransformerDiffusionWithARPrior.diff self)))
    /\ (forall p, p ∈ Torch.names (GptMusicLower.parameters Example.prior_model) ->
          ParamAttrs.get (TransformerDiffusionWithARPrior.ar_attrs self) p
          = ParamAttrs.frozen).
Proof.
  apply (ar_prior_freeze_diff Example.rnd Example.prior_model Example.kwargs).
  - reflexivity.
  - discriminate.
  - apply (bool_decide_unpack _). vm_compute. exact I.
Defined.

(** X27.  On a wrapper built with at least one layer,
    [get_grad_norm_parameter_groups] raises AttributeError: it reads
    [lyr.attn] on the layers, and a [ConcatAttentionBlock] has no such
    attribute. *)
Theorem ar_prior_grad_norm_groups_raise {R : Type} {SR : Scalar R} {EX : Externals R}
    (rnd : string -> index -> R) (ar : GptMusicLower.t R) (freeze_diff : bool)
    (kw : TransformerDiffusion.kwargs R) (self : TransformerDiffusionWithARPrior.t R) :
  TransformerDiffusionWithARPrior.__init__ rnd ar freeze_diff kw = Ok self ->
  0 < TransformerDiffusion.kw_num_layers kw ->
  TransformerDiffusionWithARPrior.get_grad_norm_parameter_groups self
  = Raise (AttributeError "attn").
Proof.
  intros Hinit Hn.
  apply ar_prior_init_inv in Hinit as (d & st & Hd & Hdiff & _).
  apply init_inv in Hd as (ls & st' & Hls & ->).
  apply make_layers_inv in Hls as [Hlen _].
  unfold TransformerDiffusionWithARPrior.get_grad_norm_parameter_groups.
  rewrite Hdiff. diffusion_fields.
  destruct ls as [|l ls]; [cbn in Hlen; lia|].
  reflexivity.
Qed.

Lemma ar_prior_grad_norm_groups_raise_witness :
  TransformerDiffusionWithARPrior.get_grad_norm_parameter_groups Example.ar_wrapper
  = Raise (AttributeError "attn").
Proof.
  apply (ar_prior_grad_norm_groups_raise Example.rnd Example.prior_model true
           Example.kwargs Example.ar_wrapper).
  - exact example_ar_wrapper_init.
  - simpl. lia.
Defined.

(** X28.  [TransformerDiffusionWithARPrior.forward] composes: when the prior
    returns a latent of shape (batch, code_length, input_vec_dim) the call
    returns a tensor of shape (batch, out_channels, length);
    [conditioning_input] goes to the prior only, so it may be given. *)
Theorem ar_prior_forward_shape {R : Type} {SR : Scalar R} {EX : Externals R}
    (rnd : string -> index -> R) (ar : GptMusicLower.t R) (freeze_diff : bool)
    (kw : TransformerDiffusion.kwargs R) (self : TransformerDiffusionWithARPrior.t R)
    (draw : index -> R) (x timesteps truth_mel prior : tensor R)
    (conditioning_input : option (tensor R)) (conditioning_free : bool)
    (batch length code_length : nat) :
  TransformerDiffusionWithARPrior.__init__ rnd ar freeze_diff kw = Ok self ->
  shape x = [batch; TransformerDiffusion.kw_in_channels kw; length] ->
  shape timesteps = [batch] ->
  0 < length ->
  GptMusicLower.forward ar truth_mel conditioning_input = Ok prior ->
  shape prior = [batch; code_length; TransformerDiffusion.kw_input_vec_dim kw] ->
  0 < code_length ->
  exists out,
    returns (TransformerDiffusionWithARPrior.forward self draw x timesteps truth_mel
               conditioning_input conditioning_free) out
    /\ shape out = [batch; TransformerDiffusion.kw_out_channels kw; length].
Proof.
  intros Hinit Hx Hts Hlen Ear Hprior Hs.
  apply ar_prior_init_inv in Hinit as (d & st & Hd & Hdiff & Har).
  destruct (forward_spec rnd (TransformerDiffusionWithARPrior.with_ar_prior kw) d true draw
              x timesteps
              (Some (TransformerDiffusionWithMultiPretrainedVqvae.no_grad prior))
              None None conditioning_free batch length code_length Hd Hx Hts Hlen)
    as (out & Rout & Hout & _).
  { destruct conditioning_free.
    - left. split; [reflexivity|]. left. reflexivity.
    - right. right. split; [reflexivity|]. split; [reflexivity|].
      eexists. split; [reflexivity|]. split; [exact Hprior|exact Hs]. }
  exists out. split; [|exact Hout].
  unfold TransformerDiffusionWithARPrior.forward. rewrite Hdiff, Har.
  eapply returns_bind; [apply returns_op; exact Ear|].
  apply init_inv in Hd as (ls & st0 & _ & ->).
  exact Rout.
Qed.

Lemma ar_prior_forward_shape_witness :
  exists out,
    returns (TransformerDiffusionWithARPrior.forward Example.ar_wrapper (fun _ => 0%Z)
               (Example.full [2; 2; 5] 3%Z) (Example.full [2] 7%Z)
               (Example.full [2; 4; 3] 1%Z) (Some (Example.full [2; 4; 3] 1%Z)) false) out
    /\ shape out = [2; 4; 5].
Proof.
  apply (ar_prior_forward_shape Example.rnd Example.prior_model true Example.kwargs
           Example.ar_wrapper (fun _ => 0%Z) (Example.full [2; 2; 5] 3%Z)
           (Example.full [2] 7%Z) (Example.full [2; 4; 3] 1%Z) (Example.full [2; 3; 2] 1%Z)
           (Some (Example.full [2; 4; 3] 1%Z)) false 2 5 3).
  - exact example_ar_wrapper_init.
  - reflexivity.
  - reflexivity.
  - lia.
  - reflexivity.
  - reflexivity.
  - lia.
Defined.
